(** * Restaurant ordering back end: notification dispatcher and order ledger

    A shallow embedding of the two services of the repository,

    - [services/telegram.ts]  (class [TelegramService]), and
    - the Firestore data-access service (class [FirebaseService]),

    together with the properties their specification states about them and
    further properties of the code: outcomes under rejected calls, what a
    failed call leaves behind, and how the methods compose.

    Modelling conventions.

    - A JavaScript [number] holding a monetary amount is an IEEE double
      ([float], the binary64 numbers of the kernel, with their rounding,
      [NaN] and signed zeros); counters (quantities, views) are integers
      ([Z]).
    - A JavaScript string is a [string] (a sequence of bytes, UTF-8).
    - An optional property of an object is an [option]: [None] is a property
      that is absent.  The [department] of a menu item, on which a default
      and an object spread both act, is modelled with its values: a property
      that is present and holds [undefined], [null] or the empty string is
      told apart from an absent one.
    - A timestamp is a Firestore [Timestamp] object, kept as the instant it
      stands for; a JavaScript [Date] is valid or invalid.
    - An [async] method is a function on an explicit world.  The answers of
      the outside world (HTTP replies, rejected database calls, the clock,
      generated document ids) are given by oracles, so every statement holds
      for every behaviour of the outside world.
    - [try { ... } catch] is modelled on a result type: a rejected call is a
      [Throw], [console.error] appends to a console log. *)

From Stdlib Require Import List String Ascii ZArith Lia Bool.
From Stdlib Require Import DecimalString Sorted Permutation OrderedTypeEx.
From Stdlib Require Import PrimFloat.
Import ListNotations.

Open Scope string_scope.

(** Decimal literals stand for the nearest double, as in JavaScript. *)
Set Warnings "-inexact-float".

(** ** JavaScript helpers *)

(** [String(n)] / template interpolation of an integer. *)
Definition string_of_Z (z : Z) : string :=
  NilZero.string_of_int (Z.to_int z).

Definition nl : string := String (ascii_of_nat 10) EmptyString.

(** White space removed by [String.prototype.trim] (the ASCII part). *)
Definition is_space (c : ascii) : bool :=
  let n := nat_of_ascii c in
  Nat.eqb n 32 || (Nat.leb 9 n && Nat.leb n 13).

Fixpoint trimStart (s : string) : string :=
  match s with
  | EmptyString => EmptyString
  | String c s' => if is_space c then trimStart s' else s
  end.

Fixpoint trimEnd (s : string) : string :=
  match s with
  | EmptyString => EmptyString
  | String c s' =>
      match trimEnd s' with
      | EmptyString => if is_space c then EmptyString else String c EmptyString
      | t => String c t
      end
  end.

Definition trim (s : string) : string := trimEnd (trimStart s).

(** [arr.join(sep)] *)
Fixpoint join (sep : string) (l : list string) : string :=
  match l with
  | [] => ""
  | [x] => x
  | x :: rest => x ++ sep ++ join sep rest
  end.

(** [s.padStart(n, c)] for a one-character pad. *)
Fixpoint repeat_char (c : ascii) (n : nat) : string :=
  match n with
  | O => EmptyString
  | S n' => String c (repeat_char c n')
  end.

Definition padStart (n : nat) (c : ascii) (s : string) : string :=
  repeat_char c (n - String.length s) ++ s.

(** [o || d] on an optional property. *)
Definition or_default {A : Type} (o : option A) (d : A) : A :=
  match o with
  | Some v => v
  | None => d
  end.

(** Object spread [{ k: base, ...obj }] seen at one property [k]: the value of
    [obj] wins whenever [obj] has the property. *)
Definition spread_over {A : Type} (base : option A) (over : option A) : option A :=
  match over with
  | Some v => Some v
  | None => base
  end.

(** [x || 0] on a number: [0], [-0] and [NaN] are falsy. *)
Definition num_or_zero (x : float) : float :=
  if (x =? 0)%float || is_nan x then 0%float else x.

(** A number that a getter of a [Date] returns: an integer, or [NaN]
    ([None]) on an Invalid Date. *)
Definition DateNumber := option Z.

(** [String(n)] / template interpolation of such a number. *)
Definition string_of_number (n : DateNumber) : string :=
  match n with
  | Some z => string_of_Z z
  | None => "NaN"
  end.

(** [n + k]: [NaN] stays [NaN]. *)
Definition number_plus (n : DateNumber) (k : Z) : DateNumber :=
  option_map (fun z => (z + k)%Z) n.

(** [arr.slice(-n)] and [arr.slice(0, n)]. *)
Definition slice_last {A : Type} (n : nat) (l : list A) : list A :=
  skipn (List.length l - n) l.

Definition slice_first {A : Type} (n : nat) (l : list A) : list A :=
  firstn n l.

(** [Array.prototype.sort] with a comparator is a stable sort; [le a b] says
    that the comparator does not put [b] strictly before [a]. *)
Fixpoint insert_sorted {A : Type} (le : A -> A -> bool) (x : A) (l : list A) : list A :=
  match l with
  | [] => [x]
  | y :: l' => if le x y then x :: l else y :: insert_sorted le x l'
  end.

Definition stable_sort {A : Type} (le : A -> A -> bool) (l : list A) : list A :=
  fold_right (insert_sorted le) [] l.

(** [arr.map((x, index) => f(index, x))], counting from [i]. *)
Fixpoint map_index_from {A B : Type} (f : Z -> A -> B) (i : Z) (l : list A) : list B :=
  match l with
  | [] => []
  | x :: l' => f i x :: map_index_from f (i + 1)%Z l'
  end.

Definition map_index {A B : Type} (f : Z -> A -> B) (l : list A) : list B :=
  map_index_from f 0%Z l.

(** ** Data model (the declarations of [../types]) *)

Inductive Department : Type := kitchen | bar.

Definition department_name (d : Department) : string :=
  match d with
  | kitchen => "kitchen"
  | bar => "bar"
  end.

(** The value of the [department] property of a menu item.  Its declared
    type is ['kitchen' | 'bar'] and the property is optional, so that an
    object may hold [undefined] under it; a stored document may hold [null]
    or any string. *)
Inductive DepartmentValue : Type :=
| department_undefined
| department_null
| department_named (name : string).

(** [value || 'kitchen'] on a property that may be absent: [undefined],
    [null] and the empty string are falsy. *)
Definition department_or_kitchen (value : option DepartmentValue) : DepartmentValue :=
  match value with
  | Some (department_named name) =>
      if String.eqb name "" then department_named "kitchen" else department_named name
  | _ => department_named "kitchen"
  end.

Definition DocId := string.

(** A Firestore [Timestamp] object ([Timestamp.now()]): the instant it
    stands for. *)
Definition Timestamp := Z.

(** A [File]: its bytes. *)
Definition File := list Byte.byte.

(** [OrderItem] declares an identifier, a name, a quantity and a line total.
    [item_department] is the undeclared property that the notification
    service reads through [(item as any).department]. *)
Record OrderItem : Type := {
  item_id : string;
  item_name : string;
  item_quantity : Z;
  item_total : float;
  item_department : option string
}.

Record Order : Type := {
  order_id : string;
  order_userId : string;
  order_tableNumber : string;
  order_items : list OrderItem;
  order_totalAmount : float;
  order_status : string;
  order_paymentStatus : string;
  order_timestamp : Timestamp
}.

Record PendingOrder : Type := {
  po_id : string;
  po_userId : string;
  po_tableNumber : string;
  po_items : list OrderItem;
  po_totalAmount : float;
  po_timestamp : Timestamp
}.

Record MenuItem : Type := {
  mi_id : string;
  mi_name : string;
  mi_price : float;
  mi_department : option DepartmentValue;
  mi_userId : string;
  mi_views : option Z;
  mi_created_at : option Timestamp
}.

(** ** The notification service, [TelegramService] *)

Module Telegram.

Definition GROUP_CHAT_ID : Z := (-1002701066037)%Z.

Record Button : Type := {
  text : string;
  callback_data : string
}.

(** The body of each HTTP request the service posts. *)
Inductive Request : Type :=
| SendMessage (chat_id : Z) (message : string) (parse_mode : string)
    (inline_keyboard : option (list (list Button)))
| SendPhoto (chat_id : string) (photo : File) (caption : string)
    (parse_mode : string).

(** What [axios.post] does: it rejects, or resolves with [response.data.ok]. *)
Inductive Response : Type :=
| Rejected
| Resolved (ok : bool).

Record World : Type := {
  outbox : list Request;
  console : list string
}.

Definition M (A : Type) : Type := World -> A * World.

Definition ret {A : Type} (a : A) : M A := fun w => (a, w).

Definition bind {A B : Type} (m : M A) (k : A -> M B) : M B :=
  fun w => let (a, w') := m w in k a w'.

Local Notation "x <- m ;; k" := (bind m (fun x => k))
  (at level 61, m at next level, right associativity).
Local Notation "m ;;; k" := (bind m (fun _ => k))
  (at level 61, right associativity).

Definition console_error (label : string) : M unit :=
  fun w => (tt, {| outbox := outbox w; console := (console w ++ [label])%list |}).

Section Service.

(** Host functions: [n.toFixed(2)] and [new Date(t).toLocaleString()]. *)
Variable toFixed2 : float -> string.
Variable toLocaleString : Timestamp -> string.

(** The network: the answer to the last request of the history. *)
Variable network : list Request -> Response.

Definition post (r : Request) : M Response :=
  fun w =>
    let out := (outbox w ++ [r])%list in
    (network out, {| outbox := out; console := console w |}).

Definition sendMessage (message : string) : M bool :=
  r <- post (SendMessage GROUP_CHAT_ID message "HTML" None) ;;
  match r with
  | Resolved ok => ret ok
  | Rejected => console_error "Error sending Telegram message:" ;;; ret false
  end.

Definition sendPhoto (photo : File) (caption : string) : M bool :=
  r <- post (SendPhoto (string_of_Z GROUP_CHAT_ID) photo caption "HTML") ;;
  match r with
  | Resolved ok => ret ok
  | Rejected => console_error "Error sending Telegram photo:" ;;; ret false
  end.

Definition sendMessageWithButtons (chatId : Z) (message : string)
    (buttons : list (list Button)) : M bool :=
  r <- post (SendMessage chatId message "HTML" (Some buttons)) ;;
  match r with
  | Resolved ok => ret ok
  | Rejected => console_error "Error sending message with buttons:" ;;; ret false
  end.

(** [(item as any).department === department] *)
Definition in_department (department : Department) (item : OrderItem) : bool :=
  match item_department item with
  | Some d => String.eqb d (department_name department)
  | None => false
  end.

Definition item_line (item : OrderItem) : string :=
  "• " ++ item_name item ++ " x" ++ string_of_Z (item_quantity item).

Definition item_line_priced (item : OrderItem) : string :=
  item_line item ++ " - $" ++ toFixed2 (item_total item).

Definition sendOrderToDepartment (order : Order) (department : Department) : M bool :=
  let departmentItems := filter (in_department department) (order_items order) in
  if Nat.eqb (List.length departmentItems) 0 then ret true
  else
    let orderItems := join nl (map item_line departmentItems) in
    let emoji := match department with kitchen => "👨‍🍳" | bar => "🍹" end in
    let departmentName := match department with kitchen => "Kitchen" | bar => "Bar" end in
    let message := trim (
      nl ++ emoji ++ " <b>" ++ departmentName ++ " Order - Table "
         ++ order_tableNumber order ++ "</b>" ++ nl
      ++ nl ++ orderItems ++ nl
      ++ nl ++ "🕐 <b>Time:</b> " ++ toLocaleString (order_timestamp order) ++ nl
      ++ "📋 <b>Order ID:</b> " ++ substring 0 8 (order_id order) ++ nl
      ++ nl ++ "<b>Status: APPROVED - Start Preparation</b>" ++ nl ++ "    ") in
    let buttons := [
      [ {| text := "✅ Ready";
           callback_data := "ready_" ++ department_name department ++ "_" ++ order_id order |};
        {| text := "⏰ Delay";
           callback_data := "delay_" ++ department_name department ++ "_" ++ order_id order |} ]
    ] in
    sendMessageWithButtons GROUP_CHAT_ID message buttons.

Definition method_label (paymentMethod : string) : string :=
  if String.eqb paymentMethod "bank_transfer" then "Bank Transfer" else "Mobile Money".

Definition payment_caption (order : Order) (paymentMethod : string) : string :=
  let orderItems := join nl (map item_line_priced (order_items order)) in
  trim (
    nl ++ "💳 <b>Payment Confirmation - Table " ++ order_tableNumber order ++ "</b>" ++ nl
    ++ nl ++ orderItems ++ nl
    ++ nl ++ "💰 <b>Total: $" ++ toFixed2 (order_totalAmount order) ++ "</b>" ++ nl
    ++ "💳 <b>Method:</b> " ++ method_label paymentMethod ++ nl
    ++ "🕐 <b>Time:</b> " ++ toLocaleString (order_timestamp order) ++ nl
    ++ nl ++ "📸 <b>Payment Screenshot Attached</b>" ++ nl ++ "    ").

Definition payment_message (order : Order) (paymentMethod : string) : string :=
  trim (
    nl ++ "💳 <b>Payment Verification Needed - Table " ++ order_tableNumber order ++ "</b>" ++ nl
    ++ nl ++ "💰 <b>Amount: $" ++ toFixed2 (order_totalAmount order) ++ "</b>" ++ nl
    ++ "💳 <b>Method:</b> " ++ method_label paymentMethod ++ nl
    ++ "🕐 <b>Time:</b> " ++ toLocaleString (order_timestamp order) ++ nl ++ "    ").

Definition payment_buttons (order : Order) : list (list Button) :=
  [ [ {| text := "✅ Accept Payment";
         callback_data := "approve_payment_" ++ order_id order |};
      {| text := "❌ Reject Payment";
         callback_data := "reject_payment_" ++ order_id order |} ] ].

Definition sendPaymentConfirmation (order : Order) (paymentMethod : string)
    (screenshot : File) : M bool :=
  let caption := payment_caption order paymentMethod in
  (* Send photo first *)
  sendPhoto screenshot caption ;;;
  (* Then send message with approve/reject buttons *)
  let paymentMessage := payment_message order paymentMethod in
  let buttons := payment_buttons order in
  sendMessageWithButtons GROUP_CHAT_ID paymentMessage buttons.

(** *** The other notifications *)

(** The clock of the host, read by [new Date()]: the time at which a method
    runs, given the requests posted so far. *)
Variable clock : list Request -> Timestamp.

(** [d.toLocaleDateString()] *)
Variable toLocaleDateString : Timestamp -> string.

Definition Date_now : M Timestamp :=
  fun w => (clock (outbox w), w).

Definition pending_order_message (pendingOrder : PendingOrder) : string :=
  let orderItems := join nl (map item_line_priced (po_items pendingOrder)) in
  trim (
    nl ++ "🍽️ <b>New Order Pending Approval - Table "
       ++ po_tableNumber pendingOrder ++ "</b>" ++ nl
    ++ nl ++ orderItems ++ nl
    ++ nl ++ "💰 <b>Total: $" ++ toFixed2 (po_totalAmount pendingOrder) ++ "</b>" ++ nl
    ++ "🕐 <b>Time:</b> " ++ toLocaleString (po_timestamp pendingOrder) ++ nl
    ++ nl ++ "⚠️ <b>Awaiting approval...</b>" ++ nl ++ "    ").

Definition pending_order_buttons (pendingOrder : PendingOrder) : list (list Button) :=
  [ [ {| text := "✅ Approve Order";
         callback_data := "approve_order_" ++ po_id pendingOrder |};
      {| text := "❌ Reject Order";
         callback_data := "reject_order_" ++ po_id pendingOrder |} ] ].

Definition sendPendingOrderWithButtons (pendingOrder : PendingOrder) : M bool :=
  let message := pending_order_message pendingOrder in
  let buttons := pending_order_buttons pendingOrder in
  sendMessageWithButtons GROUP_CHAT_ID message buttons.

Definition sendOrderNotification (order : Order) : M bool :=
  let orderItems := join nl (map item_line_priced (order_items order)) in
  let message := trim (
    nl ++ "🍽️ <b>New Order - Table " ++ order_tableNumber order ++ "</b>" ++ nl
    ++ nl ++ orderItems ++ nl
    ++ nl ++ "💰 <b>Total: $" ++ toFixed2 (order_totalAmount order) ++ "</b>" ++ nl
    ++ "🕐 <b>Time:</b> " ++ toLocaleString (order_timestamp order) ++ nl ++ "    ") in
  sendMessage message.

Definition sendWaiterCall (tableNumber : string) : M bool :=
  now <- Date_now ;;
  let message :=
    "📞 <b>Table " ++ tableNumber ++ " is calling the waiter</b>" ++ nl
    ++ "🕐 " ++ toLocaleString now in
  sendMessage message.

Definition sendBillRequest (tableNumber : string) : M bool :=
  now <- Date_now ;;
  let message :=
    "💸 <b>Table " ++ tableNumber ++ " is requesting the bill</b>" ++ nl
    ++ "🕐 " ++ toLocaleString now in
  sendMessage message.

(** The argument of [sendDailySummary]. *)
Record OrderedItem : Type := {
  ordered_name : string;
  ordered_count : Z
}.

Record DailySummary : Type := {
  summary_totalOrders : Z;
  summary_totalRevenue : float;
  summary_mostOrderedItems : list OrderedItem;
  summary_mostActiveTable : string;
  summary_waiterCalls : Z;
  summary_billRequests : Z
}.

(** [summary.mostOrderedItems.slice(0, 5).map((item, index) => ...)] *)
Definition top_item_lines (items : list OrderedItem) : list string :=
  map_index
    (fun index item =>
       string_of_Z (index + 1) ++ ". " ++ ordered_name item
       ++ " (" ++ string_of_Z (ordered_count item) ++ " orders)")
    (slice_first 5 items).

Definition sendDailySummary (summary : DailySummary) : M bool :=
  let topItems := join nl (top_item_lines (summary_mostOrderedItems summary)) in
  now <- Date_now ;;
  let message := trim (
    nl ++ "📊 <b>Daily Summary Report</b>" ++ nl
    ++ "📅 " ++ toLocaleDateString now ++ nl
    ++ nl ++ "📈 <b>Orders:</b> " ++ string_of_Z (summary_totalOrders summary) ++ nl
    ++ "💰 <b>Revenue:</b> $" ++ toFixed2 (summary_totalRevenue summary) ++ nl
    ++ "🏆 <b>Most Active Table:</b> " ++ summary_mostActiveTable summary ++ nl
    ++ nl ++ "🍽️ <b>Top Ordered Items:</b>" ++ nl
    ++ topItems ++ nl
    ++ nl ++ "📞 <b>Waiter Calls:</b> " ++ string_of_Z (summary_waiterCalls summary) ++ nl
    ++ "💸 <b>Bill Requests:</b> " ++ string_of_Z (summary_billRequests summary)
    ++ nl ++ "    ") in
  sendMessage message.

Definition sendPaymentConfirmationWithButtons (confirmationId tableNumber : string)
    (total : float) (method : string) : M bool :=
  now <- Date_now ;;
  let message := trim (
    nl ++ "💳 <b>Payment Verification Needed - Table " ++ tableNumber ++ "</b>" ++ nl
    ++ nl ++ "💰 <b>Amount: $" ++ toFixed2 total ++ "</b>" ++ nl
    ++ "💳 <b>Method:</b> " ++ method_label method ++ nl
    ++ "🕐 <b>Time:</b> " ++ toLocaleString now ++ nl ++ "    ") in
  let buttons :=
    [ [ {| text := "✅ Accept Payment";
           callback_data := "approve_payment_" ++ confirmationId |};
        {| text := "❌ Reject Payment";
           callback_data := "reject_payment_" ++ confirmationId |} ] ] in
  sendMessageWithButtons GROUP_CHAT_ID message buttons.

End Service.

(** What the caller sees of a reply: [response.data.ok], or [false] when the
    call was rejected. *)
Definition outcome (r : Response) : bool :=
  match r with
  | Resolved ok => ok
  | Rejected => false
  end.

(** *** Vocabulary of the statements about the service *)

(** [delivers_once network keyboard label m w]: from [w], the method [m]
    posts exactly one request, a [sendMessage] to the group chat in HTML mode
    with the given keyboard; it answers what the reply says, and logs [label]
    once when the request is rejected. *)
Definition delivers_once (network : list Request -> Response)
    (keyboard : option (list (list Button))) (label : string)
    (m : M bool) (w : World) : Prop :=
  exists message,
    let request := SendMessage GROUP_CHAT_ID message "HTML" keyboard in
    outbox (snd (m w)) = (outbox w ++ [request])%list
    /\ fst (m w) = outcome (network (outbox w ++ [request])%list)
    /\ console (snd (m w))
       = (console w
            ++ match network (outbox w ++ [request])%list with
               | Rejected => [label]
               | Resolved _ => []
               end)%list.

(** What a button asks for, and the token that says so. *)
Inductive Action : Type :=
| approve_order
| reject_order
| approve_payment
| reject_payment
| ready (department : Department)
| delay (department : Department).

Definition token (action : Action) (id : string) : string :=
  match action with
  | approve_order => "approve_order_" ++ id
  | reject_order => "reject_order_" ++ id
  | approve_payment => "approve_payment_" ++ id
  | reject_payment => "reject_payment_" ++ id
  | ready department => "ready_" ++ department_name department ++ "_" ++ id
  | delay department => "delay_" ++ department_name department ++ "_" ++ id
  end.

(** The tokens of the keyboard of a request. *)
Definition tokens_of (r : Request) : list string :=
  match r with
  | SendMessage _ _ _ (Some keyboard) => map callback_data (List.concat keyboard)
  | _ => []
  end.

End Telegram.

(** ** The data-access service, [FirebaseService] *)

Module Firebase.

(** *** Stored documents *)

(** A document of [menuItems]: [doc.data()]. *)
Record MenuItemData : Type := {
  md_name : string;
  md_price : float;
  md_department : option DepartmentValue;
  md_userId : string;
  md_views : option Z;
  md_created_at : option Timestamp
}.

(** A document of [orders].  [od_id] is the [id] property that the spread of
    a pending order copies into the stored order. *)
Record OrderData : Type := {
  od_id : option string;
  od_userId : string;
  od_tableNumber : string;
  od_items : list OrderItem;
  od_totalAmount : float;
  od_status : string;
  od_paymentStatus : string;
  od_timestamp : Timestamp
}.

(** A document of [kitchenOrders] or [barOrders]. *)
Record DepartmentOrderData : Type := {
  do_orderId : DocId;
  do_userId : string;
  do_items : list OrderItem;
  do_status : string;
  do_createdAt : Timestamp;
  do_department : Department;
  do_completedAt : option Timestamp
}.

(** A document of [tableBills]. *)
Record TableBillData : Type := {
  tb_userId : string;
  tb_tableNumber : string;
  tb_items : list OrderItem;
  tb_subtotal : float;
  tb_tax : float;
  tb_total : float;
  tb_status : string;
  tb_createdAt : Timestamp;
  tb_updatedAt : Timestamp
}.

Definition Doc (D : Type) : Type := (DocId * D)%type.

Record Store : Type := {
  menuItems : list (Doc MenuItemData);
  orders : list (Doc OrderData);
  kitchenOrders : list (Doc DepartmentOrderData);
  barOrders : list (Doc DepartmentOrderData);
  tableBills : list (Doc TableBillData);
  pendingOrders : list (Doc PendingOrder)
}.

(** [collection(db, name)]: how a collection sits in the store, and which
    data the SDK accepts for a document of it.  With its default settings
    the SDK refuses data that holds [undefined] (FirestoreError
    [invalid-argument], "Unsupported field value: undefined"). *)
Record Collection (D : Type) : Type := {
  coll_get : Store -> list (Doc D);
  coll_set : list (Doc D) -> Store -> Store;
  coll_accepts : D -> bool
}.
Arguments coll_get {D}.
Arguments coll_set {D}.
Arguments coll_accepts {D}.

(** The only [undefined] that the model can express is the department of a
    menu item. *)
Definition defined_department (data : MenuItemData) : bool :=
  match md_department data with
  | Some department_undefined => false
  | _ => true
  end.

Definition menuItemsC : Collection MenuItemData := {|
  coll_get := menuItems;
  coll_set l s := {| menuItems := l; orders := orders s;
                     kitchenOrders := kitchenOrders s; barOrders := barOrders s;
                     tableBills := tableBills s; pendingOrders := pendingOrders s |};
  coll_accepts := defined_department
|}.

Definition ordersC : Collection OrderData := {|
  coll_get := orders;
  coll_set l s := {| menuItems := menuItems s; orders := l;
                     kitchenOrders := kitchenOrders s; barOrders := barOrders s;
                     tableBills := tableBills s; pendingOrders := pendingOrders s |};
  coll_accepts _ := true
|}.

Definition kitchenOrdersC : Collection DepartmentOrderData := {|
  coll_get := kitchenOrders;
  coll_set l s := {| menuItems := menuItems s; orders := orders s;
                     kitchenOrders := l; barOrders := barOrders s;
                     tableBills := tableBills s; pendingOrders := pendingOrders s |};
  coll_accepts _ := true
|}.

Definition barOrdersC : Collection DepartmentOrderData := {|
  coll_get := barOrders;
  coll_set l s := {| menuItems := menuItems s; orders := orders s;
                     kitchenOrders := kitchenOrders s; barOrders := l;
                     tableBills := tableBills s; pendingOrders := pendingOrders s |};
  coll_accepts _ := true
|}.

Definition tableBillsC : Collection TableBillData := {|
  coll_get := tableBills;
  coll_set l s := {| menuItems := menuItems s; orders := orders s;
                     kitchenOrders := kitchenOrders s; barOrders := barOrders s;
                     tableBills := l; pendingOrders := pendingOrders s |};
  coll_accepts _ := true
|}.

Definition pendingOrdersC : Collection PendingOrder := {|
  coll_get := pendingOrders;
  coll_set l s := {| menuItems := menuItems s; orders := orders s;
                     kitchenOrders := kitchenOrders s; barOrders := barOrders s;
                     tableBills := tableBills s; pendingOrders := l |};
  coll_accepts _ := true
|}.

(** [collection(db, `${department}Orders`)] *)
Definition departmentOrdersC (department : Department) : Collection DepartmentOrderData :=
  match department with
  | kitchen => kitchenOrdersC
  | bar => barOrdersC
  end.

(** *** Queries *)

(** A query without [orderBy] yields its documents by ascending document id. *)
Definition by_id {D : Type} (docs : list (Doc D)) : list (Doc D) :=
  stable_sort (fun a b => String.leb (fst a) (fst b)) docs.

(** [orderBy(field, 'desc')]: by descending field, ties by descending id. *)
Definition desc_le {D : Type} (field : D -> Timestamp) (a b : Doc D) : bool :=
  Z.ltb (field (snd b)) (field (snd a))
  || (Z.eqb (field (snd a)) (field (snd b)) && String.leb (fst b) (fst a)).

Definition orderBy_desc {D : Type} (field : D -> Timestamp) (docs : list (Doc D)) : list (Doc D) :=
  stable_sort (desc_le field) docs.

(** [where(...)], possibly several, as one predicate on the data. *)
Definition where_ {D : Type} (p : D -> bool) (docs : list (Doc D)) : list (Doc D) :=
  filter (fun d => p (snd d)) docs.

Definition limit {D : Type} (n : nat) (docs : list (Doc D)) : list (Doc D) :=
  firstn n docs.

(** *** Worlds and effects *)

Inductive Error : Type :=
| Rejected (call : nat)   (* the SDK call number [call] was rejected *)
| NotFound (id : DocId)   (* [updateDoc] on a document that does not exist *)
| InvalidArgument.        (* the SDK refused the data of a write *)

Inductive Result (A : Type) : Type :=
| Ok (a : A)
| Throw (e : Error).
Arguments Ok {A}.
Arguments Throw {A}.

(** [storage] is the object store (path, blob).  [tick] counts the
    interactions with the outside world so far.  [rejections] records which
    of them were rejected SDK calls; the service cannot read it, it is kept
    for the statements about error handling. *)
Record World : Type := {
  store : Store;
  storage : list (string * File);
  tick : nat;
  console : list string;
  rejections : list nat
}.

Definition M (A : Type) : Type := World -> Result A * World.

Definition ret {A : Type} (a : A) : M A := fun w => (Ok a, w).

Definition bind {A B : Type} (m : M A) (k : A -> M B) : M B :=
  fun w =>
    match m w with
    | (Ok a, w') => k a w'
    | (Throw e, w') => (Throw e, w')
    end.

Local Notation "x <- m ;; k" := (bind m (fun x => k))
  (at level 61, m at next level, right associativity).
Local Notation "m ;;; k" := (bind m (fun _ => k))
  (at level 61, right associativity).

Definition console_error (label : string) (w : World) : World :=
  {| store := store w; storage := storage w; tick := tick w;
     console := (console w ++ [label])%list; rejections := rejections w |}.

(** The world after one more interaction that left the store as [s]. *)
Definition next (w : World) (s : Store) : World :=
  {| store := s; storage := storage w; tick := S (tick w);
     console := console w; rejections := rejections w |}.

(** The world after an SDK call that was rejected. *)
Definition refuse (w : World) : World :=
  {| store := store w; storage := storage w; tick := S (tick w);
     console := console w; rejections := (rejections w ++ [tick w])%list |}.

(** [try { m } catch (error) { console.error(label, error); throw error; }] *)
Definition try_rethrow {A : Type} (label : string) (m : M A) : M A :=
  fun w =>
    match m w with
    | (Throw e, w') => (Throw e, console_error label w')
    | r => r
    end.

(** [try { m } catch (error) { console.error(label, error); return a; }] *)
Definition try_return {A : Type} (label : string) (m : M A) (a : A) : M A :=
  fun w =>
    match m w with
    | (Throw e, w') => (Ok a, console_error label w')
    | r => r
    end.

(** [await Promise.all([m1, m2])]: both are started; it rejects when one does. *)
Definition promise_all2 {A B : Type} (m1 : M A) (m2 : M B) : M (A * B) :=
  fun w =>
    let (r1, w1) := m1 w in
    let (r2, w2) := m2 w1 in
    match r1, r2 with
    | Ok a, Ok b => (Ok (a, b), w2)
    | Throw e, _ => (Throw e, w2)
    | Ok _, Throw e => (Throw e, w2)
    end.

Definition update_docs {D : Type} (id : DocId) (f : D -> D) (docs : list (Doc D)) : list (Doc D) :=
  map (fun d => if String.eqb (fst d) id then (fst d, f (snd d)) else d) docs.

Definition remove_docs {D : Type} (id : DocId) (docs : list (Doc D)) : list (Doc D) :=
  filter (fun d => negb (String.eqb (fst d) id)) docs.

Definition has_doc {D : Type} (id : DocId) (docs : list (Doc D)) : bool :=
  existsb (fun d => String.eqb (fst d) id) docs.

Section Service.

(** The outside world: which SDK calls are rejected, what the clock shows,
    and which document ids [addDoc] generates, by interaction number. *)
Variable fault : nat -> bool.
Variable clock : nat -> Timestamp.
Variable autoId : nat -> DocId.

(** The calendar of the host (it depends on its time zone): the year and
    the month (from 0) of an instant, which [getFullYear()] and [getMonth()]
    return on a valid [Date]. *)
Variable getFullYear : Z -> Z.
Variable getMonth : Z -> Z.

(** The durable URL the object store gives for a path. *)
Variable downloadURL : string -> string.

(** [Timestamp.now()] *)
Definition Timestamp_now : M Timestamp :=
  fun w => (Ok (clock (tick w)), next w (store w)).

(** [getDocs(query(collection, ...))] *)
Definition getDocs {D : Type} (c : Collection D)
    (q : list (Doc D) -> list (Doc D)) : M (list (Doc D)) :=
  fun w =>
    if fault (tick w) then (Throw (Rejected (tick w)), refuse w)
    else (Ok (q (coll_get c (store w))), next w (store w)).

(** [addDoc(collection, data)]: the new document gets a generated id.  Data
    that the SDK does not accept is refused before any request is made. *)
Definition addDoc {D : Type} (c : Collection D) (data : D) : M DocId :=
  fun w =>
    if coll_accepts c data then
      if fault (tick w) then (Throw (Rejected (tick w)), refuse w)
      else
        let id := autoId (tick w) in
        (Ok id, next w (coll_set c (coll_get c (store w) ++ [(id, data)])%list (store w)))
    else (Throw InvalidArgument, w).

(** [updateDoc(doc(db, collection, id), fields)]: a partial merge. *)
Definition updateDoc {D : Type} (c : Collection D) (id : DocId) (f : D -> D) : M unit :=
  fun w =>
    if fault (tick w) then (Throw (Rejected (tick w)), refuse w)
    else if has_doc id (coll_get c (store w))
    then (Ok tt, next w (coll_set c (update_docs id f (coll_get c (store w))) (store w)))
    else (Throw (NotFound id), next w (store w)).

(** [deleteDoc(doc(db, collection, id))] *)
Definition deleteDoc {D : Type} (c : Collection D) (id : DocId) : M unit :=
  fun w =>
    if fault (tick w) then (Throw (Rejected (tick w)), refuse w)
    else (Ok tt, next w (coll_set c (remove_docs id (coll_get c (store w))) (store w))).

(** *** Menu items with department support *)

Definition menu_item_of_doc (doc : Doc MenuItemData) : MenuItem :=
  let data := snd doc in
  {| mi_id := fst doc;
     (* department: doc.data().department || 'kitchen', ...doc.data() *)
     mi_department :=
       spread_over (Some (department_or_kitchen (md_department data)))
         (md_department data);
     mi_name := md_name data;
     mi_price := md_price data;
     mi_userId := md_userId data;
     mi_views := md_views data;
     mi_created_at := md_created_at data |}.

Definition getMenuItems (userId : string) : M (list MenuItem) :=
  try_rethrow "Error fetching menu items:" (
    snapshot <- getDocs menuItemsC
      (fun docs => by_id (where_ (fun d => String.eqb (md_userId d) userId) docs)) ;;
    ret (map menu_item_of_doc snapshot)).

Definition addMenuItem (item : MenuItemData) : M DocId :=
  try_rethrow "Error adding menu item:" (
    created_at <- Timestamp_now ;;
    addDoc menuItemsC
      {| (* department: item.department || 'kitchen', ...item *)
         md_department :=
           spread_over (Some (department_or_kitchen (md_department item)))
             (md_department item);
         md_name := md_name item;
         md_price := md_price item;
         md_userId := md_userId item;
         md_views := md_views item;
         md_created_at := Some created_at |}).

(** *** Core order management *)

Definition addOrder (order : OrderData) : M DocId :=
  try_rethrow "Error adding order:" (
    timestamp <- Timestamp_now ;;
    addDoc ordersC
      {| od_id := od_id order;
         od_userId := od_userId order;
         od_tableNumber := od_tableNumber order;
         od_items := od_items order;
         od_totalAmount := od_totalAmount order;
         od_status := od_status order;
         od_paymentStatus := od_paymentStatus order;
         od_timestamp := timestamp |}).

Definition order_of_doc (doc : Doc OrderData) : Order :=
  let data := snd doc in
  {| (* id: doc.id, ...doc.data() *)
     order_id := or_default (spread_over (Some (fst doc)) (od_id data)) (fst doc);
     order_userId := od_userId data;
     order_tableNumber := od_tableNumber data;
     order_items := od_items data;
     order_totalAmount := od_totalAmount data;
     order_status := od_status data;
     order_paymentStatus := od_paymentStatus data;
     order_timestamp := od_timestamp data |}.

Definition getOrders (userId : string) : M (list Order) :=
  try_rethrow "Error fetching orders:" (
    snapshot <- getDocs ordersC
      (fun docs => orderBy_desc od_timestamp
                     (where_ (fun d => String.eqb (od_userId d) userId) docs)) ;;
    ret (map order_of_doc snapshot)).

(** *** Table bill management *)

Record TableBill : Type := {
  bill_id : DocId;
  bill_data : TableBillData
}.

Definition active_bill_of (userId tableNumber : string) (d : TableBillData) : bool :=
  String.eqb (tb_userId d) userId
  && String.eqb (tb_tableNumber d) tableNumber
  && String.eqb (tb_status d) "active".

Definition getTableBill (userId tableNumber : string) : M (option TableBill) :=
  try_rethrow "Error fetching table bill:" (
    snapshot <- getDocs tableBillsC
      (fun docs => limit 1 (by_id (where_ (active_bill_of userId tableNumber) docs))) ;;
    ret match snapshot with
        | [] => None
        | doc :: _ => Some {| bill_id := fst doc; bill_data := snd doc |}
        end).

(** [items.reduce((sum, item) => sum + item.total, 0)] *)
Definition items_subtotal (items : list OrderItem) : float :=
  fold_left (fun sum item => (sum + item_total item)%float) items 0%float.

Definition addToTableBill (userId tableNumber : string) (items : list OrderItem) : M unit :=
  try_rethrow "Error updating table bill:" (
    existingBill <- getTableBill userId tableNumber ;;
    let subtotal := items_subtotal items in
    let tax := (subtotal * 0.15)%float in
    let total := (subtotal + tax)%float in
    match existingBill with
    | Some existing =>
        let old := bill_data existing in
        updatedAt <- Timestamp_now ;;
        updateDoc tableBillsC (bill_id existing) (fun d =>
          {| tb_items := (tb_items old ++ items)%list;
             tb_subtotal := (tb_subtotal old + subtotal)%float;
             tb_tax := (tb_tax old + tax)%float;
             tb_total := (tb_total old + total)%float;
             tb_updatedAt := updatedAt;
             tb_userId := tb_userId d;
             tb_tableNumber := tb_tableNumber d;
             tb_status := tb_status d;
             tb_createdAt := tb_createdAt d |})
    | None =>
        createdAt <- Timestamp_now ;;
        updatedAt <- Timestamp_now ;;
        addDoc tableBillsC
          {| tb_userId := userId;
             tb_tableNumber := tableNumber;
             tb_items := items;
             tb_subtotal := subtotal;
             tb_tax := tax;
             tb_total := total;
             tb_status := "active";
             tb_createdAt := createdAt;
             tb_updatedAt := updatedAt |} ;;;
        ret tt
    end).

(** *** Order processing with department splitting *)

Definition is_bar_item (menuItems : list MenuItem) (item : OrderItem) : bool :=
  (* const menuItem = menuItems.find(mi => mi.id === item.id);
     menuItem?.department === 'bar' *)
  match find (fun mi => String.eqb (mi_id mi) (item_id item)) menuItems with
  | Some menuItem =>
      match mi_department menuItem with
      | Some (department_named name) => String.eqb name "bar"
      | _ => false
      end
  | None => false
  end.

(** The body of [items.forEach]: push the item on one of the two arrays. *)
Definition split_step (menuItems : list MenuItem)
    (acc : list OrderItem * list OrderItem) (item : OrderItem)
    : list OrderItem * list OrderItem :=
  let (kitchenItems, barItems) := acc in
  if is_bar_item menuItems item
  then (kitchenItems, (barItems ++ [item])%list)
  else ((kitchenItems ++ [item])%list, barItems).

(** Returns [(kitchenItems, barItems)]. *)
Definition splitItemsByDepartment (items : list OrderItem) (menuItems : list MenuItem)
    : list OrderItem * list OrderItem :=
  fold_left (split_step menuItems) items ([], []).

Definition sendToDepartment (orderId : DocId) (userId : string)
    (items : list OrderItem) (department : Department) : M unit :=
  createdAt <- Timestamp_now ;;
  addDoc (departmentOrdersC department)
    {| do_orderId := orderId;
       do_userId := userId;
       do_items := items;
       do_status := "pending";
       do_createdAt := createdAt;
       do_department := department;
       do_completedAt := None |} ;;;
  ret tt.

Definition approvePendingOrder (pendingOrderId : DocId) (pendingOrder : PendingOrder)
    : M DocId :=
  try_rethrow "Error approving order:" (
    (* 1. Create main approved order *)
    timestamp <- Timestamp_now ;;
    let approvedOrder :=
      {| od_id := Some (po_id pendingOrder);
         od_userId := po_userId pendingOrder;
         od_tableNumber := po_tableNumber pendingOrder;
         od_items := po_items pendingOrder;
         od_totalAmount := po_totalAmount pendingOrder;
         od_status := "approved";
         od_paymentStatus := "pending";
         od_timestamp := timestamp |} in
    orderId <- addOrder approvedOrder ;;
    (* 2. Split items by department *)
    menuItems <- getMenuItems (po_userId pendingOrder) ;;
    let (kitchenItems, barItems) :=
      splitItemsByDepartment (po_items pendingOrder) menuItems in
    (* 3. Send to departments *)
    (if Nat.ltb 0 (List.length kitchenItems)
     then sendToDepartment orderId (po_userId pendingOrder) kitchenItems kitchen
     else ret tt) ;;;
    (if Nat.ltb 0 (List.length barItems)
     then sendToDepartment orderId (po_userId pendingOrder) barItems bar
     else ret tt) ;;;
    (* 4. Update billing and clean up *)
    addToTableBill (po_userId pendingOrder) (po_tableNumber pendingOrder)
      (po_items pendingOrder) ;;;
    deleteDoc pendingOrdersC pendingOrderId ;;;
    ret orderId).

(** *** Department order tracking *)

(** What [getKitchenOrders] and [getBarOrders] return for a document:
    [{ id: doc.id, ...doc.data(), timestamp: doc.data().createdAt }]. *)
Record DepartmentOrder : Type := {
  dept_order_id : DocId;
  dept_order_data : DepartmentOrderData;
  dept_order_timestamp : Timestamp
}.

Definition department_order_of_doc (doc : Doc DepartmentOrderData) : DepartmentOrder :=
  {| dept_order_id := fst doc;
     dept_order_data := snd doc;
     dept_order_timestamp := do_createdAt (snd doc) |}.

Definition getKitchenOrders (userId : string) : M (list DepartmentOrder) :=
  try_rethrow "Error fetching kitchen orders:" (
    snapshot <- getDocs kitchenOrdersC
      (fun docs => orderBy_desc do_createdAt
                     (where_ (fun d => String.eqb (do_userId d) userId) docs)) ;;
    ret (map department_order_of_doc snapshot)).

Definition getBarOrders (userId : string) : M (list DepartmentOrder) :=
  try_rethrow "Error fetching bar orders:" (
    snapshot <- getDocs barOrdersC
      (fun docs => orderBy_desc do_createdAt
                     (where_ (fun d => String.eqb (do_userId d) userId) docs)) ;;
    ret (map department_order_of_doc snapshot)).

(** *** Utility methods *)

Definition markOrderAsComplete (orderId : DocId) (department : Department) : M unit :=
  try_rethrow "Error marking order as complete:" (
    snapshot <- getDocs (departmentOrdersC department)
      (fun docs => limit 1 (by_id (where_ (fun d => String.eqb (do_orderId d) orderId) docs))) ;;
    match snapshot with
    | doc :: _ =>
        completedAt <- Timestamp_now ;;
        updateDoc (departmentOrdersC department) (fst doc) (fun d =>
          {| do_status := "completed";
             do_completedAt := Some completedAt;
             do_orderId := do_orderId d;
             do_userId := do_userId d;
             do_items := do_items d;
             do_createdAt := do_createdAt d;
             do_department := do_department d |})
    | [] => ret tt
    end).

(** *** Menu statistics *)

Record PopularItem : Type := {
  pi_id : string;
  pi_name : string;
  pi_orders : Z
}.

Record MonthRevenue : Type := {
  month : string;
  revenue : float
}.

Record MenuStats : Type := {
  totalOrders : nat;
  totalRevenue : float;
  totalViews : Z;
  popularItems : list PopularItem;
  recentOrders : list Order;
  monthlyRevenue : list MonthRevenue
}.

(** A [Record<string, V>] built by assignment: keys in order of first
    assignment (the keys used here are no array indices). *)
Fixpoint record_get {V : Type} (k : string) (r : list (string * V)) : option V :=
  match r with
  | [] => None
  | (k', v) :: r' => if String.eqb k' k then Some v else record_get k r'
  end.

Fixpoint record_set {V : Type} (k : string) (v : V) (r : list (string * V))
    : list (string * V) :=
  match r with
  | [] => [(k, v)]
  | (k', v') :: r' =>
      if String.eqb k' k then (k', v) :: r' else (k', v') :: record_set k v r'
  end.

(** A JavaScript [Date]: a valid date holds an instant. *)
Inductive JsDate : Type :=
| InvalidDate
| ValidDate (instant : Z).

(** [new Date(order.timestamp)].  The [timestamp] of an order of the store
    is the Firestore [Timestamp] object that [addOrder] put there, which
    [getOrders] returns as it is.  The [Date] constructor takes the primitive
    value of an object that is no [Date]; for a [Timestamp] that is the
    string of [Timestamp.prototype.valueOf], which is no date string.  The
    result is an Invalid Date. *)
Definition new_Date (timestamp : Timestamp) : JsDate := InvalidDate.

(** [date.getFullYear()] and [date.getMonth()]: [NaN] on an Invalid Date. *)
Definition Date_getFullYear (date : JsDate) : DateNumber :=
  match date with
  | InvalidDate => None
  | ValidDate instant => Some (getFullYear instant)
  end.

Definition Date_getMonth (date : JsDate) : DateNumber :=
  match date with
  | InvalidDate => None
  | ValidDate instant => Some (getMonth instant)
  end.

(** [`${date.getFullYear()}-${String(date.getMonth() + 1).padStart(2, '0')}`] *)
Definition monthKey (timestamp : Timestamp) : string :=
  let date := new_Date timestamp in
  string_of_number (Date_getFullYear date) ++ "-"
  ++ padStart 2 "0"%char (string_of_number (number_plus (Date_getMonth date) 1)).

Definition add_month (monthlyData : list (string * float)) (order : Order)
    : list (string * float) :=
  let key := monthKey (order_timestamp order) in
  (* monthlyData[monthKey] = (monthlyData[monthKey] || 0) + order.totalAmount *)
  record_set key
    (match record_get key monthlyData with
     | Some v => num_or_zero v
     | None => 0
     end + order_totalAmount order)%float
    monthlyData.

(** [a.month.localeCompare(b.month)] on month keys (digits and hyphens) is
    the comparison of their characters. *)
Definition month_le (a b : MonthRevenue) : bool :=
  String.leb (month a) (month b).

Definition calculateMonthlyRevenue (orders : list Order) : list MonthRevenue :=
  let monthlyData := fold_left add_month orders [] in
  slice_last 6
    (stable_sort month_le
       (map (fun e => {| month := fst e; revenue := snd e |}) monthlyData)).

Record ItemCount : Type := {
  ic_name : string;
  ic_orders : Z
}.

Definition count_item (menuItems : list MenuItem)
    (itemOrderCounts : list (string * ItemCount)) (item : OrderItem)
    : list (string * ItemCount) :=
  let counts :=
    match record_get (item_id item) itemOrderCounts with
    | Some _ => itemOrderCounts
    | None =>
        let menuItem := find (fun mi => String.eqb (mi_id mi) (item_id item)) menuItems in
        (* name: menuItem?.name || item.name *)
        let name := match menuItem with
                    | Some mi => if String.eqb (mi_name mi) "" then item_name item
                                 else mi_name mi
                    | None => item_name item
                    end in
        record_set (item_id item) {| ic_name := name; ic_orders := 0 |} itemOrderCounts
    end in
  (* itemOrderCounts[item.id].orders += item.quantity *)
  match record_get (item_id item) counts with
  | Some e =>
      record_set (item_id item)
        {| ic_name := ic_name e; ic_orders := ic_orders e + item_quantity item |} counts
  | None => counts
  end.

Definition popular_le (a b : PopularItem) : bool :=
  (* (a, b) => b.orders - a.orders *)
  Z.leb (pi_orders b) (pi_orders a).

Definition menu_stats (ordersList : list Order) (menuItems : list MenuItem) : MenuStats :=
  let itemOrderCounts :=
    fold_left (fun counts order => fold_left (count_item menuItems) (order_items order) counts)
      ordersList [] in
  {| totalOrders := List.length ordersList;
     totalRevenue :=
       fold_left (fun sum order => (sum + order_totalAmount order)%float) ordersList
         0%float;
     totalViews :=
       fold_left (fun sum item => (sum + or_default (mi_views item) 0)%Z) menuItems 0%Z;
     popularItems :=
       slice_first 5
         (stable_sort popular_le
            (map (fun e => {| pi_id := fst e; pi_name := ic_name (snd e);
                              pi_orders := ic_orders (snd e) |}) itemOrderCounts));
     recentOrders := slice_first 10 ordersList;
     monthlyRevenue := calculateMonthlyRevenue ordersList |}.

(** *** Uploads *)

(** [uploadBytes(ref(storage, path), file)], resolving to the reference. *)
Definition uploadBytes (path : string) (file : File) : M string :=
  fun w =>
    if fault (tick w) then (Throw (Rejected (tick w)), refuse w)
    else (Ok path,
          {| store := store w; storage := (storage w ++ [(path, file)])%list;
             tick := S (tick w); console := console w; rejections := rejections w |}).

Definition getDownloadURL (ref : string) : M string :=
  fun w =>
    if fault (tick w) then (Throw (Rejected (tick w)), refuse w)
    else (Ok (downloadURL ref), next w (store w)).

Definition uploadImage (file : File) (path : string) : M string :=
  try_rethrow "Error uploading image:" (
    snapshot_ref <- uploadBytes path file ;;
    getDownloadURL snapshot_ref).

Definition empty_stats : MenuStats :=
  {| totalOrders := 0;
     totalRevenue := 0%float;
     totalViews := 0%Z;
     popularItems := [];
     recentOrders := [];
     monthlyRevenue := [] |}.

Definition getMenuStats (userId : string) : M MenuStats :=
  try_return "Error calculating menu stats:" (
    loaded <- promise_all2 (getOrders userId) (getMenuItems userId) ;;
    let (ordersList, menuItems) := loaded in
    ret (menu_stats ordersList menuItems))
    empty_stats.

(** *** Vocabulary of the statements about the service *)

(** No SDK call is rejected from interaction [n] on. *)
Definition no_fault_from (n : nat) : Prop :=
  forall k, n <= k -> fault k = false.

(** [succeeds m w Q]: when no SDK call is rejected from [w] on, [m] returns
    normally, with a result and a world that satisfy [Q]. *)
Definition succeeds {A : Type} (m : M A) (w : World) (Q : A -> World -> Prop) : Prop :=
  no_fault_from (tick w) ->
  exists a w', m w = (Ok a, w') /\ (tick w <= tick w')%nat /\ Q a w'.

(** [propagates m]: [m] never returns normally after one of its SDK calls was
    rejected; it throws instead. *)
Definition propagates {A : Type} (m : M A) : Prop :=
  forall w a w', m w = (Ok a, w') -> rejections w' = rejections w.

(** The documents a query of the service reads. *)
Definition menu_docs (userId : string) (s : Store) : list (Doc MenuItemData) :=
  by_id (where_ (fun d => String.eqb (md_userId d) userId) (menuItems s)).

Definition order_docs (userId : string) (s : Store) : list (Doc OrderData) :=
  orderBy_desc od_timestamp (where_ (fun d => String.eqb (od_userId d) userId) (orders s)).

Definition department_docs (department : Department) (userId : string) (s : Store)
    : list (Doc DepartmentOrderData) :=
  orderBy_desc do_createdAt
    (where_ (fun d => String.eqb (do_userId d) userId)
       (coll_get (departmentOrdersC department) s)).

Definition active_bill_docs (userId tableNumber : string) (s : Store)
    : list (Doc TableBillData) :=
  limit 1 (by_id (where_ (active_bill_of userId tableNumber) (tableBills s))).

(** The department that the object literals of [getMenuItems] and
    [addMenuItem] end up with: the value of the property when the object has
    the property, whatever the value, and ['kitchen'] when it has not. *)
Definition department_after_spread (value : option DepartmentValue) : DepartmentValue :=
  match value with
  | Some value => value
  | None => department_named "kitchen"
  end.

(** The document [addMenuItem] stores for an item. *)
Definition stored_menu_item (item : MenuItemData) (created_at : Timestamp) : MenuItemData :=
  {| md_department := Some (department_after_spread (md_department item));
     md_name := md_name item;
     md_price := md_price item;
     md_userId := md_userId item;
     md_views := md_views item;
     md_created_at := Some created_at |}.

(** The record [sendToDepartment] writes, and what a department receives:
    nothing for no items, one record otherwise. *)
Definition department_record (orderId : DocId) (userId : string)
    (items : list OrderItem) (department : Department) (createdAt : Timestamp)
    : DepartmentOrderData :=
  {| do_orderId := orderId;
     do_userId := userId;
     do_items := items;
     do_status := "pending";
     do_createdAt := createdAt;
     do_department := department;
     do_completedAt := None |}.

Definition new_department_docs (id : DocId) (createdAt : Timestamp) (orderId : DocId)
    (userId : string) (items : list OrderItem) (department : Department)
    : list (Doc DepartmentOrderData) :=
  match items with
  | [] => []
  | _ :: _ => [(id, department_record orderId userId items department createdAt)]
  end.

(** The fields [addToTableBill] writes on an existing bill, and a new bill. *)
Definition merged_bill (old : TableBillData) (items : list OrderItem)
    (updatedAt : Timestamp) (d : TableBillData) : TableBillData :=
  let subtotal := items_subtotal items in
  {| tb_items := (tb_items old ++ items)%list;
     tb_subtotal := (tb_subtotal old + subtotal)%float;
     tb_tax := (tb_tax old + subtotal * 0.15)%float;
     tb_total := (tb_total old + (subtotal + subtotal * 0.15))%float;
     tb_updatedAt := updatedAt;
     tb_userId := tb_userId d;
     tb_tableNumber := tb_tableNumber d;
     tb_status := tb_status d;
     tb_createdAt := tb_createdAt d |}.

Definition new_bill (userId tableNumber : string) (items : list OrderItem)
    (createdAt updatedAt : Timestamp) : TableBillData :=
  let subtotal := items_subtotal items in
  {| tb_userId := userId;
     tb_tableNumber := tableNumber;
     tb_items := items;
     tb_subtotal := subtotal;
     tb_tax := (subtotal * 0.15)%float;
     tb_total := (subtotal + subtotal * 0.15)%float;
     tb_status := "active";
     tb_createdAt := createdAt;
     tb_updatedAt := updatedAt |}.

(** The specification's [listDepartmentOrders(ownerId, department)] is the
    pair [getKitchenOrders] / [getBarOrders]. *)
Definition listDepartmentOrders (userId : string) (department : Department)
    : M (list DepartmentOrder) :=
  match department with
  | kitchen => getKitchenOrders userId
  | bar => getBarOrders userId
  end.

(** Newest first. *)
Definition newer_or_same (a b : DepartmentOrder) : Prop :=
  (do_createdAt (dept_order_data b) <= do_createdAt (dept_order_data a))%Z.

(** The specification's reading of [timestamp]: [completedAt] when present,
    otherwise [createdAt]. *)
Definition unified_timestamp (d : DepartmentOrderData) : Timestamp :=
  or_default (do_completedAt d) (do_createdAt d).

Definition sum_Z (l : list Z) : Z := fold_right Z.add 0%Z l.

(** The views of a stored menu item; a missing counter counts for nothing. *)
Definition stored_views (doc : Doc MenuItemData) : Z :=
  or_default (md_views (snd doc)) 0%Z.

(** The month key of an instant in the calendar of the host, [YYYY-MM]:
    the key of the month an order was placed in. *)
Definition calendar_month (instant : Z) : string :=
  string_of_Z (getFullYear instant) ++ "-"
  ++ padStart 2 "0"%char (string_of_Z (getMonth instant + 1)).

(** The distinct calendar months of an order history. *)
Definition months_of (orders : list Order) : list string :=
  nodup string_dec (map (fun order => calendar_month (order_timestamp order)) orders).

(** The amounts of orders added up as the loop of [calculateMonthlyRevenue]
    adds those that share a month key: a sum so far that is zero or [NaN]
    counts as [0]. *)
Definition running_revenue (orders : list Order) : float :=
  fold_left (fun sum order => (num_or_zero sum + order_totalAmount order)%float)
    orders 0%float.

(** The total revenue of the first [k] orders of a listing, as the
    statistics add it. *)
Definition revenue_so_far (orders : list Order) (k : nat) : float :=
  fold_left (fun sum order => (sum + order_totalAmount order)%float)
    (firstn k orders) 0%float.

(** [ensures m w Q E]: run from [w], the call [m] ends in a world that
    satisfies [Q] with its result when it returns, and in a world that
    satisfies [E] with the error when it throws.  Nothing is assumed about
    which SDK calls are rejected. *)
Definition ensures {A : Type} (m : M A) (w : World)
    (Q : A -> World -> Prop) (E : Error -> World -> Prop) : Prop :=
  match m w with
  | (Ok a, w') => Q a w'
  | (Throw e, w') => E e w'
  end.

(** The error is a rejected SDK call, at the interaction of [w] or later. *)
Definition rejected_from (w : World) (e : Error) : Prop :=
  exists n, e = Rejected n /\ fault n = true /\ tick w <= n.

(** A failed call that left the store as it was in [w]. *)
Definition failed (w : World) (e : Error) (w' : World) : Prop :=
  store w' = store w /\ rejected_from w e.

(** What [addToTableBill] makes of the bills: the items are merged into the
    active bill of the table that the query yields, or a new bill is
    appended when the table has no active bill. *)
Definition billed (userId tableNumber : string) (items : list OrderItem)
    (bills bills' : list (Doc TableBillData)) : Prop :=
  match limit 1 (by_id (where_ (active_bill_of userId tableNumber) bills)) with
  | (id, old) :: _ =>
      exists updatedAt,
        bills' = update_docs id (merged_bill old items updatedAt) bills
  | [] =>
      exists id createdAt updatedAt,
        bills' = (bills ++ [(id, new_bill userId tableNumber items createdAt updatedAt)])%list
  end.

(** At most one active bill for every owner and table. *)
Definition one_bill_per_table (s : Store) : Prop :=
  forall userId tableNumber,
    List.length (where_ (active_bill_of userId tableNumber) (tableBills s)) <= 1.

(** The documents [addOrder] and [approvePendingOrder] store. *)
Definition stored_order (order : OrderData) (timestamp : Timestamp) : OrderData :=
  {| od_id := od_id order;
     od_userId := od_userId order;
     od_tableNumber := od_tableNumber order;
     od_items := od_items order;
     od_totalAmount := od_totalAmount order;
     od_status := od_status order;
     od_paymentStatus := od_paymentStatus order;
     od_timestamp := timestamp |}.

Definition approved_order (pendingOrder : PendingOrder) (timestamp : Timestamp)
    : OrderData :=
  {| od_id := Some (po_id pendingOrder);
     od_userId := po_userId pendingOrder;
     od_tableNumber := po_tableNumber pendingOrder;
     od_items := po_items pendingOrder;
     od_totalAmount := po_totalAmount pendingOrder;
     od_status := "approved";
     od_paymentStatus := "pending";
     od_timestamp := timestamp |}.

(** How far an approval got: the documents it has written so far.  Every
    collection is as before or has gained one document of the approval; the
    bills are as before or billed. *)
Definition approval_progress (pendingOrder : PendingOrder) (s s' : Store) : Prop :=
  menuItems s' = menuItems s
  /\ (orders s' = orders s
      \/ exists orderId timestamp,
           orders s' = (orders s ++ [(orderId, approved_order pendingOrder timestamp)])%list)
  /\ (forall department,
        coll_get (departmentOrdersC department) s'
        = coll_get (departmentOrdersC department) s
        \/ exists id orderId items createdAt,
             coll_get (departmentOrdersC department) s'
             = (coll_get (departmentOrdersC department) s
                  ++ [(id, department_record orderId (po_userId pendingOrder) items
                             department createdAt)])%list)
  /\ (tableBills s' = tableBills s
      \/ billed (po_userId pendingOrder) (po_tableNumber pendingOrder)
           (po_items pendingOrder) (tableBills s) (tableBills s')).

(** The fields [markOrderAsComplete] writes on a department record. *)
Definition completed (completedAt : Timestamp) (d : DepartmentOrderData)
    : DepartmentOrderData :=
  {| do_status := "completed";
     do_completedAt := Some completedAt;
     do_orderId := do_orderId d;
     do_userId := do_userId d;
     do_items := do_items d;
     do_createdAt := do_createdAt d;
     do_department := do_department d |}.

(** Newest first, for orders. *)
Definition placed_later_or_same (a b : Order) : Prop :=
  (order_timestamp b <= order_timestamp a)%Z.

(** The name under which an ordered item is counted:
    [menuItem?.name || item.name]. *)
Definition display_name (menuItems : list MenuItem) (item : OrderItem) : string :=
  match find (fun mi => String.eqb (mi_id mi) (item_id item)) menuItems with
  | Some mi => if String.eqb (mi_name mi) "" then item_name item else mi_name mi
  | None => item_name item
  end.

(** The lines of an item id among ordered items, and their quantities. *)
Definition lines_of (id : string) (items : list OrderItem) : list OrderItem :=
  filter (fun item => String.eqb (item_id item) id) items.

Definition ordered_quantity (id : string) (items : list OrderItem) : Z :=
  sum_Z (map item_quantity (lines_of id items)).

(** The distinct item ids of ordered items. *)
Definition ordered_ids (items : list OrderItem) : list string :=
  nodup string_dec (map item_id items).

(** Most ordered first. *)
Definition ordered_more_or_same (a b : PopularItem) : Prop :=
  (pi_orders b <= pi_orders a)%Z.

(** The items of an order that go to a department. *)
Definition department_items (menu : list MenuItem) (department : Department)
    (items : list OrderItem) : list OrderItem :=
  match department with
  | kitchen => filter (fun item => negb (is_bar_item menu item)) items
  | bar => filter (is_bar_item menu) items
  end.

(** One write, as a function on stores. *)
Definition append_doc {D : Type} (c : Collection D) (doc : Doc D) (s : Store) : Store :=
  coll_set c (coll_get c s ++ [doc])%list s.

Definition update_doc {D : Type} (c : Collection D) (id : DocId) (f : D -> D)
    (s : Store) : Store :=
  coll_set c (update_docs id f (coll_get c s)) s.

Definition remove_doc {D : Type} (c : Collection D) (id : DocId) (s : Store) : Store :=
  coll_set c (remove_docs id (coll_get c s)) s.

(** An SDK call that can be rejected: the number of its interaction, and
    what it writes when it is accepted (nothing, for a query). *)
Record Call : Type := {
  call_at : nat;
  call_writes : Store -> Store
}.

Definition query (n : nat) : Call :=
  {| call_at := n; call_writes := fun s => s |}.

(** The calls of an approval that starts from the store [s] at interaction
    [t], in the order in which it makes them.  The interactions in between
    are readings of the clock: [t] is the one of [approvePendingOrder]
    itself, whose time [addOrder] replaces by its own. *)
Definition approval_calls (pendingOrderId : DocId) (pendingOrder : PendingOrder)
    (s : Store) (t : nat) : list Call :=
  let userId := po_userId pendingOrder in
  let tableNumber := po_tableNumber pendingOrder in
  let items := po_items pendingOrder in
  let orderId := autoId (2 + t) in
  let menu := map menu_item_of_doc (menu_docs userId s) in
  let kitchenItems := department_items menu kitchen items in
  let barItems := department_items menu bar items in
  (* 1. the order, stored with the time of [1 + t] *)
  let store_order :=
    {| call_at := 2 + t;
       call_writes :=
         append_doc ordersC (orderId, approved_order pendingOrder (clock (1 + t))) |} in
  (* 2. the menu is read *)
  let read_menu := query (3 + t) in
  (* 3. one record for each department that has items *)
  let kitchen_calls :=
    match kitchenItems with
    | [] => []
    | _ :: _ =>
        [ {| call_at := 5 + t;
             call_writes :=
               append_doc kitchenOrdersC
                 (autoId (5 + t),
                  department_record orderId userId kitchenItems kitchen (clock (4 + t))) |} ]
    end in
  let a := match kitchenItems with [] => 4 + t | _ :: _ => 6 + t end in
  let bar_calls :=
    match barItems with
    | [] => []
    | _ :: _ =>
        [ {| call_at := 1 + a;
             call_writes :=
               append_doc barOrdersC
                 (autoId (1 + a),
                  department_record orderId userId barItems bar (clock a)) |} ]
    end in
  let b := match barItems with [] => a | _ :: _ => 2 + a end in
  (* 4. the bill of the table is read, then merged into or created *)
  let read_bill := query b in
  let write_bill :=
    match active_bill_docs userId tableNumber s with
    | (id, old) :: _ =>
        {| call_at := 2 + b;
           call_writes :=
             update_doc tableBillsC id (merged_bill old items (clock (1 + b))) |}
    | [] =>
        {| call_at := 3 + b;
           call_writes :=
             append_doc tableBillsC
               (autoId (3 + b),
                new_bill userId tableNumber items (clock (1 + b)) (clock (2 + b))) |}
    end in
  (* 5. the pending order is deleted *)
  let delete_pending :=
    {| call_at := S (call_at write_bill);
       call_writes := remove_doc pendingOrdersC pendingOrderId |} in
  ([store_order; read_menu] ++ kitchen_calls ++ bar_calls
   ++ [read_bill; write_bill; delete_pending])%list.

(** The calls that are accepted: those before the first rejected one. *)
Fixpoint accepted_calls (calls : list Call) : list Call :=
  match calls with
  | [] => []
  | call :: rest => if fault (call_at call) then [] else call :: accepted_calls rest
  end.

(** The interaction of the first call that is rejected, if one is. *)
Fixpoint first_rejected (calls : list Call) : option nat :=
  match calls with
  | [] => None
  | call :: rest =>
      if fault (call_at call) then Some (call_at call) else first_rejected rest
  end.

(** The store after the writes of calls, one after the other. *)
Definition written (calls : list Call) (s : Store) : Store :=
  fold_left (fun s call => call_writes call s) calls s.

(** The error is the rejection of the call at interaction [n], and the
    store is [s]. *)
Definition rejected_at (n : nat) (s : Store) (e : Error) (w' : World) : Prop :=
  fault n = true /\ e = Rejected n /\ store w' = s.

End Service.

End Firebase.

(** * Concrete inputs *)

Import Firebase.

Definition quiet_world : Telegram.World :=
  {| Telegram.outbox := []; Telegram.console := [] |}.

Definition order_without_departments : Order :=
  {| order_id := "o1"; order_userId := "u"; order_tableNumber := "7";
     order_items := [ {| item_id := "m1"; item_name := "Soup"; item_quantity := 2;
                         item_total := 9; item_department := None |} ];
     order_totalAmount := 9;
     order_status := "approved"; order_paymentStatus := "pending";
     order_timestamp := 0%Z |}.

Definition order_for_kitchen : Order :=
  {| order_id := "o2"; order_userId := "u"; order_tableNumber := "7";
     order_items := [ {| item_id := "m1"; item_name := "Soup"; item_quantity := 2;
                         item_total := 9; item_department := Some "kitchen" |} ];
     order_totalAmount := 9;
     order_status := "approved"; order_paymentStatus := "pending";
     order_timestamp := 0%Z |}.

(** An outside world in which no call is rejected, the clock shows the
    interaction number, and generated ids are numbered. *)
Definition no_faults (n : nat) : bool := false.
Definition ticking_clock (n : nat) : Timestamp := Z.of_nat n.
Definition numbered_ids (n : nat) : DocId := "doc" ++ string_of_Z (Z.of_nat n).

(** A calendar in which an instant counts the months from January 2024. *)
Definition year_of_months (t : Z) : Z := (2024 + t / 12)%Z.
Definition month_of_months (t : Z) : Z := (t mod 12)%Z.

Definition plain_item (id : string) (total : float) : OrderItem :=
  {| item_id := id; item_name := id; item_quantity := 1;
     item_total := total; item_department := None |}.

Definition soup_and_beer_menu : list (Doc MenuItemData) :=
  [ ("m2", {| md_name := "Beer"; md_price := 3;
              md_department := Some (department_named "bar");
              md_userId := "u"; md_views := Some 4%Z; md_created_at := None |});
    ("m1", {| md_name := "Soup"; md_price := 5; md_department := None;
              md_userId := "u"; md_views := None; md_created_at := None |}) ].

(** Two kitchen items (one of them unknown to the menu) and one bar item. *)
Definition pending_order_p1 : PendingOrder :=
  {| po_id := "p1"; po_userId := "u"; po_tableNumber := "7";
     po_items := [plain_item "m1" 5; plain_item "m2" 3; plain_item "zz" 2];
     po_totalAmount := 10; po_timestamp := 0%Z |}.

Definition empty_store : Store :=
  {| menuItems := []; orders := []; kitchenOrders := []; barOrders := [];
     tableBills := []; pendingOrders := [] |}.

Definition world_of (s : Store) : World :=
  {| store := s; storage := []; tick := 0; console := []; rejections := [] |}.

Definition world_with_pending_order : World :=
  world_of {| menuItems := soup_and_beer_menu; orders := [];
              kitchenOrders := []; barOrders := []; tableBills := [];
              pendingOrders := [("p1", pending_order_p1)] |}.

(** The kitchen record of [pending_order_p1], completed after its approval. *)
Definition world_after_completion : World :=
  snd (markOrderAsComplete no_faults ticking_clock "doc2" kitchen
         (snd (approvePendingOrder no_faults ticking_clock numbered_ids "p1"
                 pending_order_p1 world_with_pending_order))).

(** An active bill with subtotal 100, tax 15 and total 115. *)
Definition bill_b1 : TableBillData :=
  {| tb_userId := "u"; tb_tableNumber := "7"; tb_items := [];
     tb_subtotal := 100; tb_tax := 15; tb_total := 115;
     tb_status := "active"; tb_createdAt := 0%Z; tb_updatedAt := 0%Z |}.

Definition world_with_bill : World :=
  world_of {| menuItems := []; orders := []; kitchenOrders := []; barOrders := [];
              tableBills := [("b1", bill_b1)]; pendingOrders := [] |}.

(** A bill that the service creates for an item of 1, and the same bill
    after the service has merged an item of 1.2 into it. *)
Definition world_with_new_bill : World :=
  snd (addToTableBill no_faults ticking_clock numbered_ids "u" "7" [plain_item "m1" 1]
         (world_of empty_store)).

Definition world_with_merged_bill : World :=
  snd (addToTableBill no_faults ticking_clock numbered_ids "u" "7" [plain_item "m2" 1.2]
         world_with_new_bill).

Definition tea : MenuItemData :=
  {| md_name := "Tea"; md_price := 2; md_department := None;
     md_userId := "u"; md_views := None; md_created_at := None |}.

(** [{ name: 'Tea', price: 2, userId: 'u', department: undefined }] *)
Definition tea_with_undefined_department : MenuItemData :=
  {| md_name := "Tea"; md_price := 2; md_department := Some department_undefined;
     md_userId := "u"; md_views := None; md_created_at := None |}.

(** A menu with one stored item whose department is [null]. *)
Definition world_with_null_department : World :=
  world_of {| menuItems :=
                [ ("m3", {| md_name := "Rice"; md_price := 4;
                            md_department := Some department_null;
                            md_userId := "u"; md_views := None;
                            md_created_at := None |}) ];
              orders := []; kitchenOrders := []; barOrders := []; tableBills := [];
              pendingOrders := [] |}.

(** Ten orders placed in eight months: months 0, 1, 3, 9, 10, 11, 12 and 13. *)
Definition order_in_month (t : Z) (amount : float) : Order :=
  {| order_id := "o"; order_userId := "u"; order_tableNumber := "1";
     order_items := []; order_totalAmount := amount;
     order_status := "approved"; order_paymentStatus := "pending";
     order_timestamp := t |}.

Definition eight_months_of_orders : list Order :=
  [ order_in_month 9 1; order_in_month 3 2; order_in_month 10 4;
    order_in_month 11 8; order_in_month 12 16; order_in_month 9 32;
    order_in_month 0 64; order_in_month 1 128; order_in_month 13 256;
    order_in_month 3 512 ].

(** Eight orders stored by the service, one after the other.  Every call of
    [addOrder] takes two interactions, so that with the clock and the
    calendar above the orders are placed in the months 0, 2, ..., 14. *)
Definition order_of_amount (amount : float) : OrderData :=
  {| od_id := None; od_userId := "u"; od_tableNumber := "1"; od_items := [];
     od_totalAmount := amount; od_status := "approved";
     od_paymentStatus := "pending"; od_timestamp := 0%Z |}.

Definition world_with_eight_orders : World :=
  fold_left
    (fun w amount =>
       snd (addOrder no_faults ticking_clock numbered_ids (order_of_amount amount) w))
    [1; 2; 4; 8; 16; 32; 64; 128]%float
    (world_of empty_store).

(** The world after the approval of [pending_order_p1]. *)
Definition world_after_approval : World :=
  snd (approvePendingOrder no_faults ticking_clock numbered_ids "p1" pending_order_p1
         world_with_pending_order).

(** An outside world that rejects the fourth interaction and no other. *)
Definition fourth_rejected (n : nat) : bool := Nat.eqb n 3.

(** An outside world that rejects the eighth interaction and no other: in an
    approval of [pending_order_p1] that starts at interaction 0, the write of
    the bar record. *)
Definition eighth_rejected (n : nat) : bool := Nat.eqb n 7.

(** Two owners: [u] has a bill on table 7 and a pending order, [v] has a
    bill on table 7, an order and a pending order. *)
Definition pending_order_p2 : PendingOrder :=
  {| po_id := "p2"; po_userId := "v"; po_tableNumber := "7";
     po_items := [plain_item "m9" 4];
     po_totalAmount := 4; po_timestamp := 0%Z |}.

Definition world_of_two_owners : World :=
  world_of
    {| menuItems := soup_and_beer_menu;
       orders :=
         [ ("o9", {| od_id := None; od_userId := "v"; od_tableNumber := "7";
                     od_items := [plain_item "m9" 4]; od_totalAmount := 4;
                     od_status := "approved"; od_paymentStatus := "pending";
                     od_timestamp := 0%Z |}) ];
       kitchenOrders := []; barOrders := [];
       tableBills :=
         [ ("b1", bill_b1);
           ("b2", new_bill "v" "7" [plain_item "m9" 4] 0%Z 0%Z) ];
       pendingOrders := [("p1", pending_order_p1); ("p2", pending_order_p2)] |}.

(** * Properties of the notification service *)

Section TelegramProperties.

Import Telegram.

Variable toFixed2 : float -> string.
Variable toLocaleString : Timestamp -> string.
Variable network : list Request -> Response.

Lemma sendMessageWithButtons_spec chatId message buttons w :
  let request := SendMessage chatId message "HTML" (Some buttons) in
  let (result, w') := sendMessageWithButtons network chatId message buttons w in
  outbox w' = (outbox w ++ [request])%list
  /\ result = outcome (network (outbox w ++ [request])%list).
Proof.
  unfold sendMessageWithButtons, bind, post; simpl.
  destruct (network _); simpl; auto.
Qed.

Lemma sendPhoto_spec photo caption w :
  let request := SendPhoto (string_of_Z GROUP_CHAT_ID) photo caption "HTML" in
  let (result, w') := sendPhoto network photo caption w in
  outbox w' = (outbox w ++ [request])%list
  /\ result = outcome (network (outbox w ++ [request])%list).
Proof.
  unfold sendPhoto, bind, post; simpl.
  destruct (network _); simpl; auto.
Qed.

Lemma filter_nil_iff {A : Type} (p : A -> bool) (l : list A) :
  filter p l = [] <-> forall x, In x l -> p x = false.
Proof.
  induction l as [|a l IH]; simpl.
  - split; [intros _ x [] | reflexivity].
  - destruct (p a) eqn:E.
    + split; [discriminate |].
      intros H. rewrite (H a) in E by auto. discriminate.
    + rewrite IH. split.
      * intros H x [<- | Hx]; auto.
      * intros H x Hx. apply H. auto.
Qed.

Lemma sendOrderToDepartment_nothing_kept order department w :
  filter (in_department department) (order_items order) = [] ->
  sendOrderToDepartment toLocaleString network order department w = (true, w).
Proof.
  intros Hempty. unfold sendOrderToDepartment.
  rewrite Hempty. reflexivity.
Qed.

(** C4.  When no item of the order is kept by the department filter,
    [sendOrderToDepartment] answers [true] and leaves the world as it was:
    nothing is posted, nothing is logged. *)
Theorem sendOrderToDepartment_empty_is_noop :
  forall (order : Order) (department : Department) (w : World),
    filter (in_department department) (order_items order) = [] ->
    sendOrderToDepartment toLocaleString network order department w = (true, w)
    /\ outbox (snd (sendOrderToDepartment toLocaleString network order department w))
       = outbox w.
Proof.
  intros order department w Hempty.
  rewrite sendOrderToDepartment_nothing_kept by assumption.
  split; reflexivity.
Qed.

(** The filter looks at the [department] property of the item and at nothing
    else: an item is kept exactly when that property is the department name. *)
Lemma in_department_iff department item :
  in_department department item = true
  <-> item_department item = Some (department_name department).
Proof.
  unfold in_department.
  destruct (item_department item) as [d|].
  - rewrite String.eqb_eq. split; [intros -> | intros [= ->]]; reflexivity.
  - split; discriminate.
Qed.

(** A request is posted exactly when some item carries the department name. *)
Lemma sendOrderToDepartment_posts_iff order department w :
  outbox (snd (sendOrderToDepartment toLocaleString network order department w))
    <> outbox w
  <-> exists item, In item (order_items order)
        /\ item_department item = Some (department_name department).
Proof.
  unfold sendOrderToDepartment.
  destruct (filter (in_department department) (order_items order)) as [|i rest] eqn:F.
  - simpl. split; [intros H; now elim H |].
    intros (item & Hin & Hd). apply in_department_iff in Hd.
    rewrite filter_nil_iff in F. rewrite (F item Hin) in Hd. discriminate.
  - cbn [List.length Nat.eqb].
    match goal with
    | |- context [sendMessageWithButtons network ?c ?m ?b w] =>
        pose proof (sendMessageWithButtons_spec c m b w) as S;
        destruct (sendMessageWithButtons network c m b w) as [r w']
    end.
    cbv zeta in S. destruct S as [S _]. simpl. split.
    + intros _. exists i. 
      assert (Hi : In i (filter (in_department department) (order_items order)))
        by (rewrite F; now left).
      apply filter_In in Hi. destruct Hi as [Hin Hd].
      split; [assumption | now apply in_department_iff].
    + intros _ E. rewrite S in E.
      apply (f_equal (@List.length _)) in E. rewrite length_app in E. simpl in E. lia.
Qed.

(** C5.  Membership in a department is read off the [department] property of
    the order item itself.  Hence an order none of whose items carries that
    property is never announced: for the kitchen and for the bar alike the
    call answers [true] and posts nothing. *)
Theorem sendOrderToDepartment_without_item_department :
  forall (order : Order),
    (forall (department : Department) (w : World),
       outbox (snd (sendOrderToDepartment toLocaleString network order department w))
         <> outbox w
       <-> exists item, In item (order_items order)
             /\ item_department item = Some (department_name department))
    /\ ((forall item, In item (order_items order) -> item_department item = None) ->
        forall (department : Department) (w : World),
          sendOrderToDepartment toLocaleString network order department w = (true, w)).
Proof.
  intros order. split.
  - intros department w. apply sendOrderToDepartment_posts_iff.
  - intros Hnone department w.
    apply sendOrderToDepartment_nothing_kept.
    apply filter_nil_iff. intros item Hin.
    unfold in_department. now rewrite (Hnone item Hin).
Qed.

Lemma string_app_assoc (a b c : string) : (a ++ b) ++ c = a ++ b ++ c.
Proof. induction a as [|x a IH]; simpl; [reflexivity | now rewrite IH]. Qed.

(** The line of an item with its price, as one template. *)
Lemma item_line_priced_text item :
  item_line_priced toFixed2 item
  = "• " ++ item_name item ++ " x" ++ string_of_Z (item_quantity item)
    ++ " - $" ++ toFixed2 (item_total item).
Proof. unfold item_line_priced, item_line. now rewrite !string_app_assoc. Qed.

(** C6.  [sendPaymentConfirmation] posts two requests, in this order.  The
    first is the screenshot, with a caption that summarises the order: the
    table, one line per item with its quantity and its price, the total, the
    payment method and the time.  The second is a text message whose buttons
    carry [approve_payment_<id>] and [reject_payment_<id>].  The result is
    the outcome of the second request alone, whatever became of the first. *)
Theorem sendPaymentConfirmation_two_deliveries :
  forall (order : Order) (paymentMethod : string) (screenshot : File) (w : World),
    let method :=
      if String.eqb paymentMethod "bank_transfer" then "Bank Transfer"
      else "Mobile Money" in
    let time := toLocaleString (order_timestamp order) in
    let lines :=
      map (fun item => "• " ++ item_name item ++ " x" ++ string_of_Z (item_quantity item)
                       ++ " - $" ++ toFixed2 (item_total item))
        (order_items order) in
    let caption := trim (
      nl ++ "💳 <b>Payment Confirmation - Table " ++ order_tableNumber order ++ "</b>" ++ nl
      ++ nl ++ join nl lines ++ nl
      ++ nl ++ "💰 <b>Total: $" ++ toFixed2 (order_totalAmount order) ++ "</b>" ++ nl
      ++ "💳 <b>Method:</b> " ++ method ++ nl
      ++ "🕐 <b>Time:</b> " ++ time ++ nl
      ++ nl ++ "📸 <b>Payment Screenshot Attached</b>" ++ nl ++ "    ") in
    let message := trim (
      nl ++ "💳 <b>Payment Verification Needed - Table " ++ order_tableNumber order
         ++ "</b>" ++ nl
      ++ nl ++ "💰 <b>Amount: $" ++ toFixed2 (order_totalAmount order) ++ "</b>" ++ nl
      ++ "💳 <b>Method:</b> " ++ method ++ nl
      ++ "🕐 <b>Time:</b> " ++ time ++ nl ++ "    ") in
    let photo_request :=
      SendPhoto (string_of_Z GROUP_CHAT_ID) screenshot caption "HTML" in
    let button_request :=
      SendMessage GROUP_CHAT_ID message "HTML"
        (Some [ [ {| text := "✅ Accept Payment";
                     callback_data := "approve_payment_" ++ order_id order |};
                  {| text := "❌ Reject Payment";
                     callback_data := "reject_payment_" ++ order_id order |} ] ]) in
    let run := sendPaymentConfirmation toFixed2 toLocaleString network
                 order paymentMethod screenshot w in
    outbox (snd run) = (outbox w ++ [photo_request; button_request])%list
    /\ fst run = outcome (network (outbox w ++ [photo_request; button_request])%list).
Proof.
  intros order paymentMethod screenshot w method time lines caption message
    photo_request button_request run.
  subst run. unfold sendPaymentConfirmation, bind.
  pose proof (sendPhoto_spec screenshot
                (payment_caption toFixed2 toLocaleString order paymentMethod) w) as P.
  destruct (sendPhoto network screenshot _ w) as [sent w1].
  cbv zeta in P. destruct P as [P1 _].
  pose proof (sendMessageWithButtons_spec GROUP_CHAT_ID
                (payment_message toFixed2 toLocaleString order paymentMethod)
                (payment_buttons order) w1) as B.
  destruct (sendMessageWithButtons network GROUP_CHAT_ID _ _ w1) as [result w2].
  cbv zeta in B. destruct B as [B1 B2]. simpl.
  rewrite P1 in B1, B2. rewrite <- app_assoc in B1, B2.
  assert (Hcaption : payment_caption toFixed2 toLocaleString order paymentMethod = caption).
  { unfold payment_caption. subst caption lines.
    now rewrite (map_ext _ _ item_line_priced_text). }
  rewrite Hcaption in B1, B2.
  split; [exact B1 | exact B2].
Qed.

End TelegramProperties.

(** A failed screenshot delivery, a successful button message: the call
    answers [true]. *)
Example sendPaymentConfirmation_photo_fails :
  let order := {| order_id := "o1"; order_userId := "u"; order_tableNumber := "7";
                  order_items := []; order_totalAmount := 0;
                  order_status := "approved"; order_paymentStatus := "pending";
                  order_timestamp := 0%Z |} in
  let network := fun history =>
    match history with
    | [_] => Telegram.Rejected
    | _ => Telegram.Resolved true
    end in
  let run := Telegram.sendPaymentConfirmation (fun _ => "0.00") (fun _ => "now") network
               order "bank_transfer" [] {| Telegram.outbox := []; Telegram.console := [] |} in
  fst run = true /\ List.length (Telegram.outbox (snd run)) = 2%nat
  /\ Telegram.console (snd run) = ["Error sending Telegram photo:"].
Proof. vm_compute. auto. Qed.

Lemma sendOrderToDepartment_empty_is_noop_witness :
  filter (Telegram.in_department bar) (order_items order_for_kitchen) = []
  /\ Telegram.sendOrderToDepartment (fun _ => "now") (fun _ => Telegram.Resolved true)
       order_for_kitchen bar quiet_world = (true, quiet_world).
Proof.
  split; [reflexivity |].
  apply (sendOrderToDepartment_empty_is_noop (fun _ => "now")
           (fun _ => Telegram.Resolved true) order_for_kitchen bar quiet_world).
  reflexivity.
Defined.

Lemma sendOrderToDepartment_without_item_department_witness :
  Telegram.sendOrderToDepartment (fun _ => "now") (fun _ => Telegram.Resolved true)
    order_without_departments kitchen quiet_world = (true, quiet_world)
  /\ Telegram.sendOrderToDepartment (fun _ => "now") (fun _ => Telegram.Resolved true)
       order_without_departments bar quiet_world = (true, quiet_world).
Proof.
  assert (H : forall item, In item (order_items order_without_departments) ->
                           item_department item = None).
  { simpl. intros item [<- | []]. reflexivity. }
  split;
    apply (proj2 (sendOrderToDepartment_without_item_department (fun _ => "now")
                    (fun _ => Telegram.Resolved true) order_without_departments) H).
Defined.

(** * Facts about the JavaScript helpers *)

Section SortFacts.

Context {A : Type} (le : A -> A -> bool).

Lemma insert_sorted_perm x l : Permutation (insert_sorted le x l) (x :: l).
Proof.
  induction l as [|y l IH]; simpl.
  - reflexivity.
  - destruct (le x y).
    + reflexivity.
    + rewrite IH. apply perm_swap.
Qed.

Lemma stable_sort_perm l : Permutation (stable_sort le l) l.
Proof.
  induction l as [|x l IH]; simpl.
  - reflexivity.
  - rewrite insert_sorted_perm. now constructor.
Qed.

Lemma stable_sort_In x l : In x (stable_sort le l) <-> In x l.
Proof.
  split; apply Permutation_in;
    [apply stable_sort_perm | symmetry; apply stable_sort_perm].
Qed.

Lemma stable_sort_length l : List.length (stable_sort le l) = List.length l.
Proof. apply Permutation_length, stable_sort_perm. Qed.

(** The sort puts its result in the order of any relation [R] that the
    comparator decides. *)
Variable R : A -> A -> Prop.
Hypothesis le_true : forall a b, le a b = true -> R a b.
Hypothesis le_false : forall a b, le a b = false -> R b a.

Lemma insert_sorted_Sorted x l : Sorted R l -> Sorted R (insert_sorted le x l).
Proof.
  induction 1 as [|y l Hl IH Hy]; simpl.
  - repeat constructor.
  - destruct (le x y) eqn:E.
    + repeat constructor; auto.
    + constructor; [assumption |].
      destruct Hy as [|z l Hyz]; simpl.
      * constructor. now apply le_false.
      * destruct (le x z); constructor; auto.
Qed.

Lemma stable_sort_Sorted l : Sorted R (stable_sort le l).
Proof.
  induction l as [|x l IH]; simpl.
  - constructor.
  - now apply insert_sorted_Sorted.
Qed.

End SortFacts.

Lemma insert_sorted_map {A : Type} (le : A -> A -> bool) (g : A -> A) :
  (forall a b, le (g a) (g b) = le a b) ->
  forall x l, insert_sorted le (g x) (map g l) = map g (insert_sorted le x l).
Proof.
  intros Hg x l. induction l as [|y l IH]; simpl.
  - reflexivity.
  - rewrite Hg. destruct (le x y); simpl; [reflexivity | now rewrite IH].
Qed.

Lemma stable_sort_map {A : Type} (le : A -> A -> bool) (g : A -> A) :
  (forall a b, le (g a) (g b) = le a b) ->
  forall l, stable_sort le (map g l) = map g (stable_sort le l).
Proof.
  intros Hg l. induction l as [|x l IH]; simpl.
  - reflexivity.
  - rewrite IH. now apply insert_sorted_map.
Qed.

(** * Properties of the data-access service *)

Section SplitProperties.

Import Firebase.

Variable menuItems : list MenuItem.

Lemma split_fold_filter items kitchenItems barItems :
  fold_left (split_step menuItems) items (kitchenItems, barItems)
  = ((kitchenItems ++ filter (fun i => negb (is_bar_item menuItems i)) items)%list,
     (barItems ++ filter (is_bar_item menuItems) items)%list).
Proof.
  revert kitchenItems barItems.
  induction items as [|item items IH]; intros kitchenItems barItems; simpl.
  - now rewrite !app_nil_r.
  - destruct (is_bar_item menuItems item); simpl; rewrite IH.
    + now rewrite <- app_assoc.
    + now rewrite <- app_assoc.
Qed.

(** The two arrays are the two filters of the items, in their order. *)
Lemma splitItemsByDepartment_filter items :
  splitItemsByDepartment items menuItems
  = (filter (fun i => negb (is_bar_item menuItems i)) items,
     filter (is_bar_item menuItems) items).
Proof. unfold splitItemsByDepartment. now rewrite split_fold_filter. Qed.

Lemma filter_split_perm {A : Type} (p : A -> bool) (l : list A) :
  Permutation l (filter (fun x => negb (p x)) l ++ filter p l).
Proof.
  induction l as [|x l IH]; simpl.
  - constructor.
  - destruct (p x); simpl.
    + now apply Permutation_cons_app.
    + now constructor.
Qed.

(** C3.  [splitItemsByDepartment] sends an item to the bar array when the
    first menu item with its id is tagged [bar], and to the kitchen array
    otherwise (no menu item with that id, or one that is not tagged [bar]).
    The two arrays together are a rearrangement of the items: every item is in
    exactly one of them, none is lost, none is repeated. *)
Theorem splitItemsByDepartment_partition :
  forall (items : list OrderItem),
    let kitchenItems := fst (splitItemsByDepartment items menuItems) in
    let barItems := snd (splitItemsByDepartment items menuItems) in
    let lookup item := find (fun mi => String.eqb (mi_id mi) (item_id item)) menuItems in
    (forall item, In item items -> lookup item = None -> In item kitchenItems)
    /\ (forall item mi, In item items -> lookup item = Some mi ->
          mi_department mi <> Some (department_named "bar") -> In item kitchenItems)
    /\ (forall item mi, In item items -> lookup item = Some mi ->
          mi_department mi = Some (department_named "bar") -> In item barItems)
    /\ (forall item, In item kitchenItems -> In item barItems -> False)
    /\ Permutation items (kitchenItems ++ barItems)
    /\ (List.length kitchenItems + List.length barItems = List.length items)%nat.
Proof.
  intros items kitchenItems barItems lookup.
  subst kitchenItems barItems. rewrite splitItemsByDepartment_filter. simpl.
  assert (Hbar : forall item, is_bar_item menuItems item = true
                 <-> exists mi, lookup item = Some mi
                       /\ mi_department mi = Some (department_named "bar")).
  { intros item. unfold is_bar_item. fold (lookup item).
    destruct (lookup item) as [mi|].
    - destruct (mi_department mi) as [[| |name]|] eqn:D.
      + split; [discriminate | intros (m & [= <-] & H); congruence].
      + split; [discriminate | intros (m & [= <-] & H); congruence].
      + rewrite String.eqb_eq. split.
        * intros ->. eauto.
        * intros (m & [= <-] & H). congruence.
      + split; [discriminate | intros (m & [= <-] & H); congruence].
    - split; [discriminate | intros (m & H & _); discriminate]. }
  repeat split.
  - intros item Hin Hnone. apply filter_In. split; [assumption |].
    destruct (is_bar_item menuItems item) eqn:E; [| reflexivity].
    apply Hbar in E. destruct E as (m & E & _). congruence.
  - intros item mi Hin Hsome Hdept. apply filter_In. split; [assumption |].
    destruct (is_bar_item menuItems item) eqn:E; [| reflexivity].
    apply Hbar in E. destruct E as (m & E & Hm). congruence.
  - intros item mi Hin Hsome Hdept. apply filter_In. split; [assumption |].
    apply Hbar. eauto.
  - intros item Hk Hb. apply filter_In in Hk, Hb.
    destruct Hk as [_ Hk], Hb as [_ Hb]. rewrite Hb in Hk. discriminate.
  - apply filter_split_perm.
  - rewrite <- length_app. symmetry.
    apply Permutation_length, filter_split_perm.
Qed.

End SplitProperties.

Section LedgerProperties.

Import Firebase.

Variable fault : nat -> bool.
Variable clock : nat -> Timestamp.
Variable autoId : nat -> DocId.

Local Abbreviation no_fault_from := (Firebase.no_fault_from fault).
Local Abbreviation succeeds := (Firebase.succeeds fault).
Local Abbreviation listDepartmentOrders := (Firebase.listDepartmentOrders fault).

Lemma no_fault_here n : no_fault_from n -> fault n = false.
Proof. intros H. apply H. lia. Qed.

Lemma no_fault_later n m : no_fault_from n -> n <= m -> no_fault_from m.
Proof. intros H Hnm k Hk. apply H. lia. Qed.

(** *** One step of each method *)

Lemma getDocs_ok {D : Type} (c : Collection D) q w :
  fault (tick w) = false ->
  getDocs fault c q w = (Ok (q (coll_get c (store w))), next w (store w)).
Proof. intros H. unfold getDocs. now rewrite H. Qed.

Lemma getDocs_rejected {D : Type} (c : Collection D) q w :
  fault (tick w) = true ->
  getDocs fault c q w = (Throw (Rejected (tick w)), refuse w).
Proof. intros H. unfold getDocs. now rewrite H. Qed.

Lemma getMenuItems_ok userId w :
  fault (tick w) = false ->
  getMenuItems fault userId w
  = (Ok (map menu_item_of_doc (menu_docs userId (store w))), next w (store w)).
Proof.
  intros H. unfold getMenuItems, try_rethrow, bind.
  now rewrite getDocs_ok.
Qed.

Lemma getMenuItems_rejected userId w :
  fault (tick w) = true ->
  getMenuItems fault userId w
  = (Throw (Rejected (tick w)),
     console_error "Error fetching menu items:" (refuse w)).
Proof.
  intros H. unfold getMenuItems, try_rethrow, bind.
  now rewrite getDocs_rejected.
Qed.

Lemma getOrders_ok userId w :
  fault (tick w) = false ->
  getOrders fault userId w
  = (Ok (map order_of_doc (order_docs userId (store w))), next w (store w)).
Proof.
  intros H. unfold getOrders, try_rethrow, bind.
  now rewrite getDocs_ok.
Qed.

Lemma getOrders_rejected userId w :
  fault (tick w) = true ->
  getOrders fault userId w
  = (Throw (Rejected (tick w)),
     console_error "Error fetching orders:" (refuse w)).
Proof.
  intros H. unfold getOrders, try_rethrow, bind.
  now rewrite getDocs_rejected.
Qed.

Lemma spread_department (value : option DepartmentValue) :
  spread_over (Some (department_or_kitchen value)) value
  = Some (department_after_spread value).
Proof. now destruct value. Qed.

Lemma addMenuItem_ok item w :
  md_department item <> Some department_undefined ->
  fault (S (tick w)) = false ->
  addMenuItem fault clock autoId item w
  = (Ok (autoId (S (tick w))),
     next (next w (store w))
       (coll_set menuItemsC
          (menuItems (store w)
             ++ [(autoId (S (tick w)), stored_menu_item item (clock (tick w)))])%list
          (store w))).
Proof.
  intros Hdefined H. unfold addMenuItem, try_rethrow, bind, Timestamp_now, addDoc.
  rewrite spread_department.
  cbn [coll_accepts menuItemsC defined_department md_department tick next store].
  rewrite H. unfold stored_menu_item.
  destruct (md_department item) as [[| |name]|]; try reflexivity.
  now elim Hdefined.
Qed.

(** The SDK refuses a department that is [undefined]: nothing is stored. *)
Lemma addMenuItem_refused item w :
  md_department item = Some department_undefined ->
  addMenuItem fault clock autoId item w
  = (Throw InvalidArgument,
     console_error "Error adding menu item:" (next w (store w))).
Proof.
  intros Hundefined. unfold addMenuItem, try_rethrow, bind, Timestamp_now, addDoc.
  rewrite spread_department, Hundefined. reflexivity.
Qed.

(** C7 (as the code has it).  In both object literals the spread of the
    object follows the defaulted [department] and overrides it, so that the
    default applies only to an object without a [department] property.
    Reading: when the query is answered, [getMenuItems] returns one menu
    item per stored document of the owner; its department is [kitchen] when
    the document has no [department] property, and is the value of the
    property otherwise, whatever it is ([null] and the empty string
    included).  Writing: when the write is accepted, [addMenuItem] appends
    one document, whose department is [kitchen] when the item has no
    [department] property and the value of the property otherwise; when the
    item has the property with the value [undefined], the SDK refuses the
    data, the call throws and nothing is stored. *)
Theorem menu_item_department_spread_overrides_default :
  forall (userId : string) (item : MenuItemData) (w : World),
    (fault (tick w) = false ->
       exists docs,
         fst (getMenuItems fault userId w) = Ok (map menu_item_of_doc docs)
         /\ Permutation docs
              (filter (fun d => String.eqb (md_userId (snd d)) userId) (menuItems (store w)))
         /\ (forall doc, In doc docs ->
               mi_department (menu_item_of_doc doc)
               = match md_department (snd doc) with
                 | Some value => Some value
                 | None => Some (department_named "kitchen")
                 end))
    /\ (fault (S (tick w)) = false ->
          let run := addMenuItem fault clock autoId item w in
          match md_department item with
          | Some department_undefined =>
              fst run = Throw InvalidArgument
              /\ store (snd run) = store w
          | present =>
              exists id data,
                fst run = Ok id
                /\ menuItems (store (snd run)) = (menuItems (store w) ++ [(id, data)])%list
                /\ md_department data
                   = match present with
                     | Some value => Some value
                     | None => Some (department_named "kitchen")
                     end
                /\ md_created_at data = Some (clock (tick w))
          end).
Proof.
  intros userId item w. split.
  - intros H. exists (menu_docs userId (store w)).
    rewrite getMenuItems_ok by assumption. simpl.
    split; [reflexivity |]. split; [apply stable_sort_perm |].
    intros doc _. unfold menu_item_of_doc; simpl. rewrite spread_department.
    now destruct (md_department (snd doc)).
  - intros H run. subst run.
    destruct (md_department item) as [[| |name]|] eqn:D;
      try (rewrite addMenuItem_ok by (assumption || congruence);
           exists (autoId (S (tick w))), (stored_menu_item item (clock (tick w)));
           simpl; rewrite D; repeat split).
    rewrite addMenuItem_refused by assumption. split; reflexivity.
Qed.

(** *** Department order tracking *)

Lemma listDepartmentOrders_ok userId department w :
  fault (tick w) = false ->
  listDepartmentOrders userId department w
  = (Ok (map department_order_of_doc (department_docs department userId (store w))),
     next w (store w)).
Proof.
  intros H.
  destruct department; unfold listDepartmentOrders, getKitchenOrders, getBarOrders,
    try_rethrow, bind; now rewrite getDocs_ok.
Qed.

Lemma department_docs_sorted department userId s :
  StronglySorted newer_or_same
    (map department_order_of_doc (department_docs department userId s)).
Proof.
  apply Sorted_StronglySorted.
  { intros a b c Hab Hbc. unfold newer_or_same in *. lia. }
  unfold department_docs, orderBy_desc.
  set (docs := where_ _ _). clearbody docs.
  assert (S : Sorted (fun a b : Doc DepartmentOrderData =>
                        (do_createdAt (snd b) <= do_createdAt (snd a))%Z)
                     (stable_sort (desc_le do_createdAt) docs)).
  { apply stable_sort_Sorted; intros a b; unfold desc_le.
    - rewrite orb_true_iff, andb_true_iff, Z.ltb_lt, Z.eqb_eq. lia.
    - rewrite orb_false_iff, andb_false_iff, Z.ltb_ge. lia. }
  induction S as [|d l Sl IH Hd]; simpl; constructor; auto.
  destruct Hd; simpl; constructor. assumption.
Qed.

(** C8 (as the code has it).  When the query is answered, the call returns
    one record per stored document of the owner in the collection of the
    department, newest first by creation time, and the [timestamp] of every
    record is its [createdAt], whether or not it has a [completedAt]. *)
Theorem listDepartmentOrders_newest_first_createdAt :
  forall (userId : string) (department : Department) (w : World),
    fault (tick w) = false ->
    exists docs,
      fst (listDepartmentOrders userId department w)
      = Ok (map department_order_of_doc docs)
      /\ Permutation docs
           (filter (fun d => String.eqb (do_userId (snd d)) userId)
              (coll_get (departmentOrdersC department) (store w)))
      /\ StronglySorted newer_or_same (map department_order_of_doc docs)
      /\ (forall record, In record (map department_order_of_doc docs) ->
            dept_order_timestamp record = do_createdAt (dept_order_data record)).
Proof.
  intros userId department w H.
  exists (department_docs department userId (store w)).
  rewrite listDepartmentOrders_ok by assumption. simpl.
  split; [reflexivity |].
  split; [apply stable_sort_perm |].
  split; [apply department_docs_sorted |].
  intros record Hin. apply in_map_iff in Hin.
  destruct Hin as (doc & <- & _). reflexivity.
Qed.

(** *** Table bills *)

Lemma getTableBill_ok userId tableNumber w :
  fault (tick w) = false ->
  getTableBill fault userId tableNumber w
  = (Ok match active_bill_docs userId tableNumber (store w) with
        | [] => None
        | doc :: _ => Some {| bill_id := fst doc; bill_data := snd doc |}
        end,
     next w (store w)).
Proof.
  intros H. unfold getTableBill, try_rethrow, bind.
  now rewrite getDocs_ok.
Qed.

Lemma has_doc_In {D : Type} (doc : Doc D) docs :
  In doc docs -> has_doc (fst doc) docs = true.
Proof.
  intros H. unfold has_doc. apply existsb_exists.
  exists doc. split; [assumption | apply String.eqb_refl].
Qed.

Lemma In_limit {D : Type} n (doc : Doc D) docs : In doc (limit n docs) -> In doc docs.
Proof. unfold limit. revert docs. induction n; intros [|d docs]; simpl; intuition. Qed.

Lemma In_by_id {D : Type} (doc : Doc D) docs : In doc (by_id docs) <-> In doc docs.
Proof. apply stable_sort_In. Qed.

Lemma In_where {D : Type} (p : D -> bool) (doc : Doc D) docs :
  In doc (where_ p docs) <-> In doc docs /\ p (snd doc) = true.
Proof. apply filter_In. Qed.

Lemma active_bill_docs_In userId tableNumber s doc :
  In doc (active_bill_docs userId tableNumber s) ->
  In doc (tableBills s) /\ active_bill_of userId tableNumber (snd doc) = true.
Proof.
  intros H. apply In_limit, In_by_id, In_where in H. exact H.
Qed.

Lemma addToTableBill_existing userId tableNumber items w id old rest :
  fault (tick w) = false ->
  fault (S (S (tick w))) = false ->
  active_bill_docs userId tableNumber (store w) = (id, old) :: rest ->
  addToTableBill fault clock autoId userId tableNumber items w
  = (Ok tt,
     next (next (next w (store w)) (store w))
       (coll_set tableBillsC
          (update_docs id (merged_bill old items (clock (S (tick w))))
             (tableBills (store w)))
          (store w))).
Proof.
  intros H0 H2 Hq.
  unfold addToTableBill, try_rethrow, bind.
  rewrite getTableBill_ok, Hq by assumption.
  unfold Timestamp_now, updateDoc. cbn [tick next store fst snd bill_id bill_data].
  rewrite H2.
  assert (Hin : In (id, old) (tableBills (store w))).
  { apply (active_bill_docs_In userId tableNumber). rewrite Hq. now left. }
  apply has_doc_In in Hin. simpl in Hin. cbn [coll_get tableBillsC]. rewrite Hin.
  reflexivity.
Qed.

Lemma addToTableBill_new userId tableNumber items w :
  fault (tick w) = false ->
  fault (S (S (S (tick w)))) = false ->
  active_bill_docs userId tableNumber (store w) = [] ->
  addToTableBill fault clock autoId userId tableNumber items w
  = (Ok tt,
     next (next (next (next w (store w)) (store w)) (store w))
       (coll_set tableBillsC
          (tableBills (store w)
             ++ [(autoId (S (S (S (tick w)))),
                  new_bill userId tableNumber items
                    (clock (S (tick w))) (clock (S (S (tick w)))))])%list
          (store w))).
Proof.
  intros H0 H3 Hq.
  unfold addToTableBill, try_rethrow, bind.
  rewrite getTableBill_ok, Hq by assumption.
  unfold Timestamp_now, addDoc. cbn [tick next store].
  rewrite H3. reflexivity.
Qed.

(** Reading the bill back after the merge. *)

Lemma update_docs_where {D : Type} (p : D -> bool) id (f : D -> D) docs :
  (forall d, p (f d) = p d) ->
  where_ p (update_docs id f docs) = update_docs id f (where_ p docs).
Proof.
  intros Hf. unfold where_, update_docs.
  induction docs as [|[i d] docs IH]; simpl; [reflexivity |].
  destruct (String.eqb i id) eqn:E; simpl.
  - rewrite Hf. destruct (p d); simpl; [rewrite E |]; now rewrite IH.
  - destruct (p d); simpl; [rewrite E |]; now rewrite IH.
Qed.

Lemma update_docs_by_id {D : Type} id (f : D -> D) (docs : list (Doc D)) :
  by_id (update_docs id f docs) = update_docs id f (by_id docs).
Proof.
  unfold by_id, update_docs. apply stable_sort_map.
  intros [ia da] [ib db]. simpl.
  destruct (String.eqb ia id), (String.eqb ib id); reflexivity.
Qed.

Lemma update_docs_limit {D : Type} n id (f : D -> D) (docs : list (Doc D)) :
  limit n (update_docs id f docs) = update_docs id f (limit n docs).
Proof. unfold limit, update_docs. now rewrite firstn_map. Qed.

Lemma active_bill_docs_merged userId tableNumber s id old items updatedAt :
  active_bill_docs userId tableNumber
    (coll_set tableBillsC
       (update_docs id (merged_bill old items updatedAt) (tableBills s)) s)
  = update_docs id (merged_bill old items updatedAt)
      (active_bill_docs userId tableNumber s).
Proof.
  unfold active_bill_docs. cbn [coll_set tableBillsC tableBills].
  rewrite update_docs_where by reflexivity.
  now rewrite update_docs_by_id, update_docs_limit.
Qed.

Lemma by_id_nil {D : Type} (docs : list (Doc D)) : by_id docs = [] -> docs = [].
Proof.
  intros H. apply length_zero_iff_nil.
  unfold by_id in H. rewrite <- (stable_sort_length (fun a b => String.leb (fst a) (fst b))).
  now rewrite H.
Qed.

Lemma where_app {D : Type} (p : D -> bool) (l1 l2 : list (Doc D)) :
  where_ p (l1 ++ l2) = (where_ p l1 ++ where_ p l2)%list.
Proof. apply filter_app. Qed.

Lemma active_bill_docs_created userId tableNumber s id items createdAt updatedAt :
  active_bill_docs userId tableNumber s = [] ->
  active_bill_docs userId tableNumber
    (coll_set tableBillsC
       (tableBills s ++ [(id, new_bill userId tableNumber items createdAt updatedAt)])%list s)
  = [(id, new_bill userId tableNumber items createdAt updatedAt)].
Proof.
  unfold active_bill_docs, limit. intros H.
  assert (Hw : where_ (active_bill_of userId tableNumber) (tableBills s) = []).
  { apply by_id_nil. destruct (by_id _); [reflexivity | discriminate]. }
  cbn [coll_set tableBillsC tableBills].
  rewrite where_app, Hw. unfold where_, active_bill_of. simpl.
  now rewrite !String.eqb_refl.
Qed.

(** C2 (as the code has it).  When no call is rejected, [addToTableBill]
    succeeds.  If the table has an active bill with subtotal [S1], tax [T1]
    and total [Total1], the same bill afterwards has subtotal [S1 + S2], tax
    [T1 + S2 * 0.15] and total [Total1 + (S2 + S2 * 0.15)], where [S2] is the
    sum of the line totals of the items: each of the three amounts is
    accumulated on its own.  If the table has no active bill, a new active
    bill is created with subtotal [S2], tax [S2 * 0.15] and total subtotal
    plus tax.  The sums and products are those of doubles, each rounded. *)
Theorem addToTableBill_accumulates :
  forall (userId tableNumber : string) (items : list OrderItem) (w : World),
    no_fault_from (tick w) ->
    let S2 := items_subtotal items in
    let run := addToTableBill fault clock autoId userId tableNumber items w in
    fst run = Ok tt
    /\ match fst (getTableBill fault userId tableNumber w) with
       | Ok (Some existing) =>
           let S1 := tb_subtotal (bill_data existing) in
           let T1 := tb_tax (bill_data existing) in
           let Total1 := tb_total (bill_data existing) in
           exists updated,
             fst (getTableBill fault userId tableNumber (snd run))
             = Ok (Some {| bill_id := bill_id existing; bill_data := updated |})
             /\ tb_items updated = (tb_items (bill_data existing) ++ items)%list
             /\ tb_subtotal updated = (S1 + S2)%float
             /\ tb_tax updated = (T1 + S2 * 0.15)%float
             /\ tb_total updated = (Total1 + (S2 + S2 * 0.15))%float
       | Ok None =>
           exists id created,
             fst (getTableBill fault userId tableNumber (snd run))
             = Ok (Some {| bill_id := id; bill_data := created |})
             /\ tb_status created = "active"
             /\ tb_items created = items
             /\ tb_subtotal created = S2
             /\ tb_tax created = (S2 * 0.15)%float
             /\ tb_total created = (tb_subtotal created + tb_tax created)%float
       | Throw _ => False
       end.
Proof.
  intros userId tableNumber items w Hnf S2 run. subst run.
  pose proof (no_fault_here _ Hnf) as H0.
  rewrite (getTableBill_ok userId tableNumber w H0). cbn [fst].
  destruct (active_bill_docs userId tableNumber (store w)) as [|[id old] rest] eqn:Hq.
  - rewrite addToTableBill_new; try assumption; [| apply Hnf; lia].
    split; [reflexivity |]. cbn [fst snd].
    eexists _, _. rewrite getTableBill_ok by (apply Hnf; simpl; lia).
    cbn [store next]. rewrite active_bill_docs_created by assumption.
    cbn [fst snd]. split; [reflexivity |].
    repeat split.
  - rewrite (addToTableBill_existing _ _ _ _ id old rest); try assumption;
      [| apply Hnf; lia].
    split; [reflexivity |]. cbn [fst snd bill_id bill_data].
    exists (merged_bill old items (clock (S (tick w))) old).
    rewrite getTableBill_ok by (apply Hnf; simpl; lia).
    cbn [store next]. rewrite active_bill_docs_merged, Hq.
    simpl. rewrite String.eqb_refl. cbn [fst snd].
    repeat split.
Qed.

(** *** Runs in which no call is rejected *)

Lemma succeeds_ret {A : Type} (a : A) w (Q : A -> World -> Prop) :
  Q a w -> succeeds (ret a) w Q.
Proof. intros HQ _. exists a, w. auto. Qed.

Lemma succeeds_bind {A B : Type} (m : M A) (k : A -> M B) w
    (P : A -> World -> Prop) (Q : B -> World -> Prop) :
  succeeds m w P ->
  (forall a w', P a w' -> succeeds (k a) w' Q) ->
  succeeds (bind m k) w Q.
Proof.
  intros Hm Hk Hnf.
  destruct (Hm Hnf) as (a & w1 & E1 & T1 & HP).
  destruct (Hk a w1 HP (no_fault_later _ _ Hnf T1)) as (b & w2 & E2 & T2 & HQ).
  exists b, w2. unfold bind. rewrite E1. repeat split; auto. lia.
Qed.

Lemma succeeds_try_rethrow {A : Type} label (m : M A) w (Q : A -> World -> Prop) :
  succeeds m w Q -> succeeds (try_rethrow label m) w Q.
Proof.
  intros Hm Hnf. destruct (Hm Hnf) as (a & w1 & E & T & HQ).
  exists a, w1. unfold try_rethrow. rewrite E. auto.
Qed.

Lemma succeeds_weaken {A : Type} (m : M A) w (P Q : A -> World -> Prop) :
  succeeds m w P -> (forall a w', P a w' -> Q a w') -> succeeds m w Q.
Proof.
  intros Hm HPQ Hnf. destruct (Hm Hnf) as (a & w1 & E & T & HP).
  exists a, w1. auto.
Qed.

Lemma succeeds_now w :
  succeeds (Timestamp_now clock) w (fun t w' => store w' = store w).
Proof. intros _. eexists _, _. split; [reflexivity |]. simpl. auto. Qed.

Lemma succeeds_getDocs {D : Type} (c : Collection D) q w :
  succeeds (getDocs fault c q) w
    (fun docs w' => docs = q (coll_get c (store w)) /\ store w' = store w).
Proof.
  intros Hnf. eexists _, _. rewrite getDocs_ok by now apply no_fault_here.
  split; [reflexivity |]. simpl. auto.
Qed.

Lemma succeeds_addDoc {D : Type} (c : Collection D) data w :
  coll_accepts c data = true ->
  succeeds (addDoc fault autoId c data) w
    (fun id w' =>
       store w' = coll_set c (coll_get c (store w) ++ [(id, data)])%list (store w)).
Proof.
  intros Haccepts Hnf. unfold addDoc. rewrite Haccepts, (no_fault_here _ Hnf).
  eexists _, _. split; [reflexivity |]. simpl. auto.
Qed.

Lemma departmentOrders_accepts department data :
  coll_accepts (departmentOrdersC department) data = true.
Proof. now destruct department. Qed.

Lemma succeeds_deleteDoc {D : Type} (c : Collection D) id w :
  succeeds (deleteDoc fault c id) w
    (fun _ w' => store w' = coll_set c (remove_docs id (coll_get c (store w))) (store w)).
Proof.
  intros Hnf. unfold deleteDoc. rewrite (no_fault_here _ Hnf).
  eexists _, _. split; [reflexivity |]. simpl. auto.
Qed.

Lemma succeeds_getMenuItems userId w :
  succeeds (getMenuItems fault userId) w
    (fun items w' =>
       items = map menu_item_of_doc (menu_docs userId (store w)) /\ store w' = store w).
Proof.
  intros Hnf. eexists _, _. rewrite getMenuItems_ok by now apply no_fault_here.
  split; [reflexivity |]. simpl. auto.
Qed.

Lemma succeeds_addOrder order w :
  succeeds (addOrder fault clock autoId order) w
    (fun id w' =>
       exists timestamp,
         store w' = coll_set ordersC
                      (orders (store w)
                         ++ [(id, {| od_id := od_id order;
                                     od_userId := od_userId order;
                                     od_tableNumber := od_tableNumber order;
                                     od_items := od_items order;
                                     od_totalAmount := od_totalAmount order;
                                     od_status := od_status order;
                                     od_paymentStatus := od_paymentStatus order;
                                     od_timestamp := timestamp |})])%list
                      (store w)).
Proof.
  unfold addOrder. apply succeeds_try_rethrow.
  eapply succeeds_bind; [apply succeeds_now |].
  intros timestamp w1 Hs1. cbv beta in Hs1.
  eapply succeeds_weaken; [now apply succeeds_addDoc |].
  intros id w2 Hs2. cbv beta in Hs2. exists timestamp.
  rewrite Hs2, Hs1. reflexivity.
Qed.

Lemma succeeds_sendToDepartment orderId userId items department w :
  succeeds (sendToDepartment fault clock autoId orderId userId items department) w
    (fun _ w' =>
       exists id createdAt,
         store w' = coll_set (departmentOrdersC department)
                      (coll_get (departmentOrdersC department) (store w)
                         ++ [(id, department_record orderId userId items department
                                    createdAt)])%list
                      (store w)).
Proof.
  unfold sendToDepartment.
  eapply succeeds_bind; [apply succeeds_now |].
  intros createdAt w1 Hs1. cbv beta in Hs1.
  eapply succeeds_bind; [apply succeeds_addDoc, departmentOrders_accepts |].
  intros id w2 Hs2. cbv beta in Hs2.
  apply succeeds_ret. exists id, createdAt. rewrite Hs2, Hs1. reflexivity.
Qed.

Lemma departmentOrders_set_same department s :
  coll_set (departmentOrdersC department)
    (coll_get (departmentOrdersC department) s ++ [])%list s = s.
Proof. destruct department, s; simpl; now rewrite app_nil_r. Qed.

Lemma succeeds_send_if_any orderId userId items department w :
  succeeds
    (if Nat.ltb 0 (List.length items)
     then sendToDepartment fault clock autoId orderId userId items department
     else ret tt) w
    (fun _ w' =>
       exists id createdAt,
         store w' = coll_set (departmentOrdersC department)
                      (coll_get (departmentOrdersC department) (store w)
                         ++ new_department_docs id createdAt orderId userId items
                              department)%list
                      (store w)).
Proof.
  destruct items as [|item items]; cbn [List.length Nat.ltb Nat.leb].
  - apply succeeds_ret. exists "", 0%Z. simpl.
    now rewrite departmentOrders_set_same.
  - apply succeeds_sendToDepartment.
Qed.

Lemma succeeds_addToTableBill userId tableNumber items w :
  succeeds (addToTableBill fault clock autoId userId tableNumber items) w
    (fun _ w' => exists bills, store w' = coll_set tableBillsC bills (store w)).
Proof.
  intros Hnf.
  destruct (active_bill_docs userId tableNumber (store w)) as [|[id old] rest] eqn:Hq.
  - rewrite addToTableBill_new; auto; try (apply Hnf; lia).
    eexists _, _. split; [reflexivity |]. simpl. split; [lia | eauto].
  - rewrite (addToTableBill_existing _ _ _ _ id old rest);
      auto; try (apply Hnf; lia).
    eexists _, _. split; [reflexivity |]. simpl. split; [lia | eauto].
Qed.

Lemma has_doc_remove_docs {D : Type} id (docs : list (Doc D)) :
  has_doc id (remove_docs id docs) = false.
Proof.
  unfold has_doc, remove_docs.
  induction docs as [|[i d] docs IH]; simpl; [reflexivity |].
  destruct (String.eqb i id) eqn:E; simpl; [assumption |].
  now rewrite E.
Qed.

(** C1.  When no call is rejected, [approvePendingOrder] returns the id of a
    new order document (status [approved], payment status [pending]).  The
    kitchen collection gains exactly one record when the kitchen subset of
    the items is not empty and none when it is empty, and so does the bar
    collection for the bar subset; a new record refers to the new order and
    holds exactly the items of its department, in their order.  Afterwards
    no pending-order document with the given id exists. *)
Theorem approvePendingOrder_department_records :
  forall (pendingOrderId : DocId) (pendingOrder : PendingOrder) (w : World),
    no_fault_from (tick w) ->
    let userId := po_userId pendingOrder in
    let menu := map menu_item_of_doc (menu_docs userId (store w)) in
    let kitchenItems :=
      filter (fun item => negb (is_bar_item menu item)) (po_items pendingOrder) in
    let barItems := filter (is_bar_item menu) (po_items pendingOrder) in
    exists orderId w',
      approvePendingOrder fault clock autoId pendingOrderId pendingOrder w = (Ok orderId, w')
      /\ (exists data,
            orders (store w') = (orders (store w) ++ [(orderId, data)])%list
            /\ od_status data = "approved"
            /\ od_paymentStatus data = "pending"
            /\ od_items data = po_items pendingOrder)
      /\ (exists id createdAt,
            kitchenOrders (store w')
            = (kitchenOrders (store w)
                 ++ new_department_docs id createdAt orderId userId kitchenItems kitchen)%list)
      /\ (exists id createdAt,
            barOrders (store w')
            = (barOrders (store w)
                 ++ new_department_docs id createdAt orderId userId barItems bar)%list)
      /\ has_doc pendingOrderId (pendingOrders (store w')) = false.
Proof.
  intros pendingOrderId pendingOrder w Hnf userId menu kitchenItems barItems.
  assert (Hrun : succeeds
    (approvePendingOrder fault clock autoId pendingOrderId pendingOrder) w
    (fun orderId w' =>
       exists data kid kt bid bt bills,
         od_status data = "approved" /\ od_paymentStatus data = "pending"
         /\ od_items data = po_items pendingOrder
         /\ store w' =
            coll_set pendingOrdersC (remove_docs pendingOrderId (pendingOrders (store w)))
              (coll_set tableBillsC bills
                 (coll_set barOrdersC
                    (barOrders (store w)
                       ++ new_department_docs bid bt orderId userId barItems bar)%list
                    (coll_set kitchenOrdersC
                       (kitchenOrders (store w)
                          ++ new_department_docs kid kt orderId userId kitchenItems
                               kitchen)%list
                       (coll_set ordersC (orders (store w) ++ [(orderId, data)])%list
                          (store w))))))).
  { unfold approvePendingOrder. apply succeeds_try_rethrow.
    eapply succeeds_bind; [apply succeeds_now |].
    intros timestamp w1 Hs1. cbv beta in Hs1.
    eapply succeeds_bind; [apply succeeds_addOrder |].
    intros orderId w2 (stamp & Hs2). cbn [od_id od_userId od_tableNumber od_items
      od_totalAmount od_status od_paymentStatus] in Hs2.
    eapply succeeds_bind; [apply succeeds_getMenuItems |].
    intros menuItems w3 [-> Hs3].
    rewrite splitItemsByDepartment_filter.
    eapply succeeds_bind; [apply succeeds_send_if_any |].
    intros [] w4 (kid & kt & Hs4).
    eapply succeeds_bind; [apply succeeds_send_if_any |].
    intros [] w5 (bid & bt & Hs5).
    eapply succeeds_bind; [apply succeeds_addToTableBill |].
    intros [] w6 (bills & Hs6).
    eapply succeeds_bind; [apply succeeds_deleteDoc |].
    intros [] w7 Hs7. cbv beta in Hs7.
    apply succeeds_ret.
    match type of Hs2 with
    | context [(orderId, ?d)] => exists d, kid, kt, bid, bt, bills
    end.
    rewrite Hs7, Hs6, Hs5, Hs4, Hs3, Hs2, Hs1.
    repeat (split; [reflexivity |]). reflexivity. }
  destruct (Hrun Hnf) as (orderId & w' & E & _ & data & kid & kt & bid & bt & bills
                          & Hst & Hpay & Hitems & Hstore).
  exists orderId, w'. split; [exact E |]. rewrite Hstore. simpl.
  split; [exists data; auto |].
  split; [exists kid, kt; reflexivity |].
  split; [exists bid, bt; reflexivity |].
  apply has_doc_remove_docs.
Qed.

(** *** Error handling: which methods let a rejected call through *)

Lemma propagates_ret {A : Type} (a : A) : propagates (ret a).
Proof. intros w b w' [= _ <-]. reflexivity. Qed.

Lemma propagates_bind {A B : Type} (m : M A) (k : A -> M B) :
  propagates m -> (forall a, propagates (k a)) -> propagates (bind m k).
Proof.
  intros Hm Hk w b w' E. unfold bind in E.
  destruct (m w) as [[a|e] w1] eqn:E1; [| discriminate].
  rewrite (Hk a _ _ _ E). now apply (Hm _ _ _ E1).
Qed.

Lemma propagates_try_rethrow {A : Type} label (m : M A) :
  propagates m -> propagates (try_rethrow label m).
Proof.
  intros Hm w a w' E. unfold try_rethrow in E.
  destruct (m w) as [[a1|e] w1] eqn:E1; [| discriminate].
  injection E as <- <-. now apply (Hm _ _ _ E1).
Qed.

Lemma propagates_now : propagates (Timestamp_now clock).
Proof. intros w a w' [= _ <-]. reflexivity. Qed.

Lemma propagates_getDocs {D : Type} (c : Collection D) q : propagates (getDocs fault c q).
Proof.
  intros w a w' E. unfold getDocs in E.
  destruct (fault (tick w)); [discriminate |]. now injection E as _ <-.
Qed.

Lemma propagates_addDoc {D : Type} (c : Collection D) data :
  propagates (addDoc fault autoId c data).
Proof.
  intros w a w' E. unfold addDoc in E.
  destruct (coll_accepts c data); [| discriminate].
  destruct (fault (tick w)); [discriminate |]. now injection E as _ <-.
Qed.

Lemma propagates_updateDoc {D : Type} (c : Collection D) id f :
  propagates (updateDoc fault c id f).
Proof.
  intros w a w' E. unfold updateDoc in E.
  destruct (fault (tick w)); [discriminate |].
  destruct (has_doc id _); [| discriminate].
  apply (f_equal snd) in E. simpl in E. now subst w'.
Qed.

Lemma propagates_deleteDoc {D : Type} (c : Collection D) id :
  propagates (deleteDoc fault c id).
Proof.
  intros w a w' E. unfold deleteDoc in E.
  destruct (fault (tick w)); [discriminate |].
  apply (f_equal snd) in E. simpl in E. now subst w'.
Qed.

Create HintDb propagation.
Hint Resolve propagates_ret propagates_now propagates_getDocs propagates_addDoc
  propagates_updateDoc propagates_deleteDoc : propagation.

Ltac propagation :=
  repeat first
    [ solve [auto with propagation]
    | progress cbv zeta
    | apply propagates_try_rethrow
    | apply propagates_bind; [| intros ? ]
    | match goal with
      | |- propagates (match ?x with _ => _ end) => destruct x
      | |- propagates (let (_, _) := ?x in _) => destruct x
      end ].

Lemma propagates_getMenuItems userId : propagates (getMenuItems fault userId).
Proof. unfold getMenuItems. propagation. Qed.

Lemma propagates_addMenuItem item : propagates (addMenuItem fault clock autoId item).
Proof. unfold addMenuItem. propagation. Qed.

Lemma propagates_addOrder order : propagates (addOrder fault clock autoId order).
Proof. unfold addOrder. propagation. Qed.

Lemma propagates_getOrders userId : propagates (getOrders fault userId).
Proof. unfold getOrders. propagation. Qed.

Lemma propagates_getTableBill userId tableNumber :
  propagates (getTableBill fault userId tableNumber).
Proof. unfold getTableBill. propagation. Qed.

Hint Resolve propagates_getMenuItems propagates_addOrder propagates_getTableBill
  : propagation.

Lemma propagates_addToTableBill userId tableNumber items :
  propagates (addToTableBill fault clock autoId userId tableNumber items).
Proof. unfold addToTableBill. propagation. Qed.

Lemma propagates_sendToDepartment orderId userId items department :
  propagates (sendToDepartment fault clock autoId orderId userId items department).
Proof. unfold sendToDepartment. propagation. Qed.

Hint Resolve propagates_addToTableBill propagates_sendToDepartment : propagation.

Lemma propagates_approvePendingOrder pendingOrderId pendingOrder :
  propagates (approvePendingOrder fault clock autoId pendingOrderId pendingOrder).
Proof. unfold approvePendingOrder. propagation. Qed.

Lemma propagates_getKitchenOrders userId : propagates (getKitchenOrders fault userId).
Proof. unfold getKitchenOrders. propagation. Qed.

Lemma propagates_getBarOrders userId : propagates (getBarOrders fault userId).
Proof. unfold getBarOrders. propagation. Qed.

Lemma propagates_markOrderAsComplete orderId department :
  propagates (markOrderAsComplete fault clock orderId department).
Proof. unfold markOrderAsComplete. propagation. Qed.

Variable downloadURL : string -> string.

Lemma propagates_uploadImage file path :
  propagates (uploadImage fault downloadURL file path).
Proof.
  unfold uploadImage. apply propagates_try_rethrow.
  apply propagates_bind.
  - intros w a w' E. unfold uploadBytes in E.
    destruct (fault (tick w)); [discriminate |].
    apply (f_equal snd) in E. simpl in E. now subst w'.
  - intros ref w a w' E. unfold getDownloadURL in E.
    destruct (fault (tick w)); [discriminate |].
    apply (f_equal snd) in E. simpl in E. now subst w'.
Qed.

(** *** Menu statistics *)

Variable getFullYear : Z -> Z.
Variable getMonth : Z -> Z.

Lemma fold_left_views (items : list MenuItem) (acc : Z) :
  fold_left (fun sum item => (sum + or_default (mi_views item) 0)%Z) items acc
  = (acc + sum_Z (map (fun item => or_default (mi_views item) 0%Z) items))%Z.
Proof.
  revert acc. induction items as [|item items IH]; intros acc; simpl.
  - lia.
  - rewrite IH. lia.
Qed.

Lemma sum_Z_perm (l l' : list Z) : Permutation l l' -> sum_Z l = sum_Z l'.
Proof. induction 1; simpl; lia. Qed.

Lemma totalViews_owner userId s :
  fold_left (fun sum item => (sum + or_default (mi_views item) 0)%Z)
    (map menu_item_of_doc (menu_docs userId s)) 0%Z
  = sum_Z (map stored_views
             (filter (fun d => String.eqb (md_userId (snd d)) userId) (menuItems s))).
Proof.
  rewrite fold_left_views, map_map. simpl.
  apply sum_Z_perm, Permutation_map. unfold menu_docs, by_id.
  apply stable_sort_perm.
Qed.

Lemma order_docs_none userId s :
  (forall doc, In doc (orders s) -> od_userId (snd doc) <> userId) ->
  order_docs userId s = [].
Proof.
  intros H. unfold order_docs, orderBy_desc, where_.
  replace (filter _ (orders s)) with (@nil (Doc OrderData)); [reflexivity |].
  symmetry. apply filter_nil_iff. intros doc Hin.
  apply String.eqb_neq. now apply H.
Qed.

Lemma getMenuStats_ok userId w :
  fault (tick w) = false ->
  fault (S (tick w)) = false ->
  getMenuStats fault getFullYear getMonth userId w
  = (Ok (menu_stats getFullYear getMonth
           (map order_of_doc (order_docs userId (store w)))
           (map menu_item_of_doc (menu_docs userId (store w)))),
     next (next w (store w)) (store w)).
Proof.
  intros H0 H1. unfold getMenuStats, try_return, bind, promise_all2.
  rewrite getOrders_ok by assumption.
  rewrite getMenuItems_ok by assumption.
  reflexivity.
Qed.

Lemma app_cons_neq {A : Type} (l l' : list A) (x : A) : (l ++ x :: l')%list <> l.
Proof.
  intros E. apply (f_equal (@List.length A)) in E.
  rewrite length_app in E. simpl in E. lia.
Qed.

Lemma getMenuStats_rejected userId w :
  fault (tick w) = true \/ fault (S (tick w)) = true ->
  exists w',
    getMenuStats fault getFullYear getMonth userId w = (Ok empty_stats, w')
    /\ rejections w' <> rejections w.
Proof.
  intros H. unfold getMenuStats, try_return, bind, promise_all2.
  destruct (fault (tick w)) eqn:H0.
  - rewrite getOrders_rejected by assumption.
    destruct (fault (S (tick w))) eqn:H1.
    + rewrite getMenuItems_rejected by assumption.
      eexists. split; [reflexivity |]. simpl.
      rewrite <- app_assoc. apply app_cons_neq.
    + rewrite getMenuItems_ok by assumption.
      eexists. split; [reflexivity |]. simpl. apply app_cons_neq.
  - destruct H as [H | H]; [discriminate |].
    rewrite getOrders_ok by assumption.
    rewrite getMenuItems_rejected by assumption.
    eexists. split; [reflexivity |]. simpl. apply app_cons_neq.
Qed.

(** C9.  [getMenuStats] never throws.  When one of its calls is rejected it
    answers the empty statistics.  When none is and the owner has no order,
    it answers zero orders, zero revenue, the sum of the view counters of the
    owner's menu items, and three empty lists.  Every other method of the
    service propagates: it never returns normally after a rejected call. *)
Theorem getMenuStats_fails_safe_to_empty :
  forall (userId : string) (w : World),
    (exists stats w',
       getMenuStats fault getFullYear getMonth userId w = (Ok stats, w')
       /\ (rejections w' <> rejections w -> stats = empty_stats)
       /\ (rejections w' = rejections w ->
           (forall doc, In doc (orders (store w)) -> od_userId (snd doc) <> userId) ->
           stats = {| totalOrders := 0;
                      totalRevenue := 0%float;
                      totalViews :=
                        sum_Z (map stored_views
                                 (filter (fun d => String.eqb (md_userId (snd d)) userId)
                                    (menuItems (store w))));
                      popularItems := [];
                      recentOrders := [];
                      monthlyRevenue := [] |}))
    /\ propagates (getMenuItems fault userId)
    /\ (forall item, propagates (addMenuItem fault clock autoId item))
    /\ (forall id pendingOrder,
          propagates (approvePendingOrder fault clock autoId id pendingOrder))
    /\ propagates (getKitchenOrders fault userId)
    /\ propagates (getBarOrders fault userId)
    /\ (forall order, propagates (addOrder fault clock autoId order))
    /\ propagates (getOrders fault userId)
    /\ (forall tableNumber items,
          propagates (addToTableBill fault clock autoId userId tableNumber items))
    /\ (forall tableNumber, propagates (getTableBill fault userId tableNumber))
    /\ (forall orderId department,
          propagates (markOrderAsComplete fault clock orderId department))
    /\ (forall file path, propagates (uploadImage fault downloadURL file path)).
Proof.
  intros userId w. split.
  - destruct (fault (tick w)) eqn:H0; [| destruct (fault (S (tick w))) eqn:H1].
    + destruct (getMenuStats_rejected userId w) as (w' & E & Hr); [auto |].
      exists empty_stats, w'. split; [exact E |]. split; [reflexivity | contradiction].
    + destruct (getMenuStats_rejected userId w) as (w' & E & Hr); [auto |].
      exists empty_stats, w'. split; [exact E |]. split; [reflexivity | contradiction].
    + eexists _, _. split; [apply getMenuStats_ok; assumption |].
      split; [intros Hr; now elim Hr |].
      intros _ Hnone. rewrite (order_docs_none _ _ Hnone).
      unfold menu_stats. cbn [map fold_left List.length slice_first firstn
        calculateMonthlyRevenue stable_sort fold_right slice_last skipn Nat.sub].
      now rewrite totalViews_owner.
  - repeat split; intros.
    + apply propagates_getMenuItems.
    + apply propagates_addMenuItem.
    + apply propagates_approvePendingOrder.
    + apply propagates_getKitchenOrders.
    + apply propagates_getBarOrders.
    + apply propagates_addOrder.
    + apply propagates_getOrders.
    + apply propagates_addToTableBill.
    + apply propagates_getTableBill.
    + apply propagates_markOrderAsComplete.
    + apply propagates_uploadImage.
Qed.

End LedgerProperties.

(** *** Monthly revenue *)

Lemma string_ltb_trans (a b c : string) :
  String.ltb a b = true -> String.ltb b c = true -> String.ltb a c = true.
Proof.
  unfold String.ltb.
  destruct (String.compare a b) eqn:E1; try discriminate.
  destruct (String.compare b c) eqn:E2; try discriminate.
  intros _ _.
  apply String_as_OT.cmp_lt in E1, E2.
  pose proof (String_as_OT.lt_trans _ _ _ E1 E2) as H.
  apply String_as_OT.cmp_lt in H. unfold String_as_OT.cmp in H. now rewrite H.
Qed.

Lemma string_leb_neq_ltb (a b : string) :
  String.leb a b = true -> a <> b -> String.ltb a b = true.
Proof.
  unfold String.leb, String.ltb.
  destruct (String.compare a b) eqn:E; try discriminate; auto.
  intros _ H. apply String.compare_eq_iff in E. contradiction.
Qed.

Section RecordFacts.

Import Firebase.

Context {V : Type}.
Implicit Types (r : list (string * V)) (k : string) (v : V).

Lemma record_get_set k k' v r :
  record_get k (record_set k' v r)
  = if String.eqb k' k then Some v else record_get k r.
Proof.
  induction r as [|[k0 v0] r IH]; simpl.
  - reflexivity.
  - destruct (String.eqb k0 k') eqn:E0; simpl.
    + apply String.eqb_eq in E0. subst k0.
      destruct (String.eqb k' k); reflexivity.
    + destruct (String.eqb k0 k) eqn:E1; [| exact IH].
      apply String.eqb_eq in E1. subst k0.
      rewrite String.eqb_sym in E0. now rewrite E0.
Qed.

Lemma record_set_keys k v r x :
  In x (map fst (record_set k v r)) <-> x = k \/ In x (map fst r).
Proof.
  induction r as [|[k0 v0] r IH]; simpl.
  - intuition.
  - destruct (String.eqb k0 k) eqn:E; simpl.
    + apply String.eqb_eq in E. subst k0. intuition.
    + rewrite IH. intuition.
Qed.

Lemma record_set_NoDup k v r :
  NoDup (map fst r) -> NoDup (map fst (record_set k v r)).
Proof.
  induction r as [|[k0 v0] r IH]; simpl; intros H.
  - repeat constructor. intros [].
  - inversion H as [|? ? Hk0 Hr]; subst.
    destruct (String.eqb k0 k) eqn:E; simpl.
    + now constructor.
    + constructor; [| now apply IH].
      rewrite record_set_keys. intros [-> | Hin]; [| contradiction].
      now rewrite String.eqb_refl in E.
Qed.

Lemma record_get_keys k r : In k (map fst r) <-> record_get k r <> None.
Proof.
  induction r as [|[k0 v0] r IH]; simpl.
  - intuition.
  - destruct (String.eqb k0 k) eqn:E.
    + apply String.eqb_eq in E. split; [discriminate | auto].
    + apply String.eqb_neq in E. rewrite <- IH. intuition.
Qed.

Lemma record_get_In k v r :
  NoDup (map fst r) -> In (k, v) r -> record_get k r = Some v.
Proof.
  induction r as [|[k0 v0] r IH]; simpl; intros H Hin; [contradiction |].
  inversion H as [|? ? Hk0 Hr]; subst.
  destruct Hin as [[= -> ->] | Hin].
  - now rewrite String.eqb_refl.
  - destruct (String.eqb k0 k) eqn:E; [| now apply IH].
    apply String.eqb_eq in E. subst k0.
    elim Hk0. apply in_map_iff. now exists (k, v).
Qed.

End RecordFacts.

Lemma string_compare_refl (s : string) : String.compare s s = Eq.
Proof.
  destruct (String.compare s s) eqn:E; [reflexivity | |];
    pose proof (String.compare_antisym s s) as H; rewrite E in H; discriminate.
Qed.

Lemma filter_nonempty_In {A : Type} (p : A -> bool) (l : list A) :
  filter p l <> [] <-> exists x, In x l /\ p x = true.
Proof.
  split.
  - destruct (filter p l) as [|x rest] eqn:E; [intros H; now elim H |].
    intros _. exists x. apply filter_In. rewrite E. now left.
  - intros (x & Hin & Hp) E.
    assert (In x (filter p l)) by (apply filter_In; auto).
    rewrite E in H. contradiction.
Qed.

Lemma StronglySorted_app_lt {A : Type} (R : A -> A -> Prop) (l1 l2 : list A) :
  StronglySorted R (l1 ++ l2) ->
  forall x y, In x l1 -> In y l2 -> R x y.
Proof.
  induction l1 as [|a l1 IH]; simpl; intros H x y Hx Hy; [contradiction |].
  inversion H as [|? ? Hl Ha]; subst.
  destruct Hx as [<- | Hx].
  - rewrite Forall_forall in Ha. apply Ha. apply in_or_app. now right.
  - now apply IH.
Qed.

Section MonthlyRevenueProperties.

Import Firebase.

Variable getFullYear : Z -> Z.
Variable getMonth : Z -> Z.

Local Abbreviation months_of := (Firebase.months_of getFullYear getMonth).

(** The date that [calculateMonthlyRevenue] makes of the timestamp of an
    order is invalid, so that every order gets one and the same key. *)
Lemma monthKey_invalid (timestamp : Timestamp) :
  monthKey getFullYear getMonth timestamp = "NaN-NaN".
Proof. reflexivity. Qed.

Lemma add_month_invalid (sum : float) (order : Order) :
  add_month getFullYear getMonth [("NaN-NaN", sum)] order
  = [("NaN-NaN", (num_or_zero sum + order_totalAmount order)%float)].
Proof. reflexivity. Qed.

Lemma fold_add_month_invalid (orders : list Order) : forall sum,
  fold_left (add_month getFullYear getMonth) orders [("NaN-NaN", sum)]
  = [("NaN-NaN",
      fold_left (fun sum order => (num_or_zero sum + order_totalAmount order)%float)
        orders sum)].
Proof.
  induction orders as [|order orders IH]; intros sum; [reflexivity |].
  cbn [fold_left]. rewrite add_month_invalid. apply IH.
Qed.

(** What [calculateMonthlyRevenue] returns, for any history: nothing for no
    order, and otherwise one entry, under the key [NaN-NaN], with the
    amounts of all orders. *)
Lemma calculateMonthlyRevenue_invalid_dates (orders : list Order) :
  calculateMonthlyRevenue getFullYear getMonth orders
  = match orders with
    | [] => []
    | _ :: _ => [ {| month := "NaN-NaN"; revenue := running_revenue orders |} ]
    end.
Proof.
  destruct orders as [|order orders]; [reflexivity |].
  unfold calculateMonthlyRevenue, running_revenue. cbn [fold_left].
  change (add_month getFullYear getMonth [] order)
    with [("NaN-NaN", (num_or_zero 0 + order_totalAmount order)%float)].
  rewrite fold_add_month_invalid. reflexivity.
Qed.

(** C10 (as the code has it).  For an order history that spans eight
    calendar months, the monthly revenue has one entry and not six: its key
    is [NaN-NaN], no month, and its revenue is made of the amounts of all
    orders of the history, whatever their months. *)
Theorem calculateMonthlyRevenue_eight_months_one_entry :
  forall (orders : list Order),
    List.length (months_of orders) = 8 ->
    calculateMonthlyRevenue getFullYear getMonth orders
    = [ {| month := "NaN-NaN"; revenue := running_revenue orders |} ].
Proof.
  intros orders H8. rewrite calculateMonthlyRevenue_invalid_dates.
  destruct orders; [discriminate H8 | reflexivity].
Qed.

End MonthlyRevenueProperties.

(** * Further properties of the notification service *)

Section NotificationProperties.

Import Telegram.

Variable toFixed2 : float -> string.
Variable toLocaleString : Timestamp -> string.
Variable network : list Request -> Response.

Lemma sendMessage_delivers_once message w :
  delivers_once network None "Error sending Telegram message:"
    (sendMessage network message) w.
Proof.
  exists message. unfold sendMessage, bind, post; simpl.
  destruct (network _); simpl; rewrite ?app_nil_r; auto.
Qed.

Lemma sendMessageWithButtons_delivers_once message buttons w :
  delivers_once network (Some buttons) "Error sending message with buttons:"
    (sendMessageWithButtons network GROUP_CHAT_ID message buttons) w.
Proof.
  exists message. unfold sendMessageWithButtons, bind, post; simpl.
  destruct (network _); simpl; rewrite ?app_nil_r; auto.
Qed.

Lemma filter_cons_length {A : Type} (p : A -> bool) (l : list A) :
  filter p l <> [] -> Nat.eqb (List.length (filter p l)) 0 = false.
Proof. destruct (filter p l); [intros H; now elim H | reflexivity]. Qed.

Lemma sendOrderToDepartment_delivers_once order department w :
  filter (in_department department) (order_items order) <> [] ->
  delivers_once network
    (Some [ [ {| text := "✅ Ready";
                 callback_data := "ready_" ++ department_name department ++ "_"
                                  ++ order_id order |};
              {| text := "⏰ Delay";
                 callback_data := "delay_" ++ department_name department ++ "_"
                                  ++ order_id order |} ] ])
    "Error sending message with buttons:"
    (sendOrderToDepartment toLocaleString network order department) w.
Proof.
  intros Hkept. unfold sendOrderToDepartment.
  rewrite (filter_cons_length _ _ Hkept).
  apply sendMessageWithButtons_delivers_once.
Qed.

Variable clock : list Request -> Timestamp.

(** X1.  The plain notifications ([sendMessage] itself, the order
    notification, the waiter call and the bill request) post exactly one
    request each, a [sendMessage] to the group chat in HTML mode without a
    keyboard.  They answer the [ok] flag of the reply; when the request is
    rejected they answer [false] and log one line.  Nothing is posted a
    second time. *)
Theorem plain_notifications_deliver_once :
  forall (w : World),
    (forall message,
       delivers_once network None "Error sending Telegram message:"
         (sendMessage network message) w)
    /\ (forall order,
          delivers_once network None "Error sending Telegram message:"
            (sendOrderNotification toFixed2 toLocaleString network order) w)
    /\ (forall tableNumber,
          delivers_once network None "Error sending Telegram message:"
            (sendWaiterCall toLocaleString network clock tableNumber) w)
    /\ (forall tableNumber,
          delivers_once network None "Error sending Telegram message:"
            (sendBillRequest toLocaleString network clock tableNumber) w).
Proof.
  intros w. repeat split; intros.
  - apply sendMessage_delivers_once.
  - apply sendMessage_delivers_once.
  - unfold sendWaiterCall, bind at 1, Date_now. apply sendMessage_delivers_once.
  - unfold sendBillRequest, bind at 1, Date_now. apply sendMessage_delivers_once.
Qed.

(** X2.  The notifications that carry buttons post exactly one request each,
    a [sendMessage] to the group chat in HTML mode whose keyboard is one row
    of two buttons: approve and reject for a pending order and for a payment,
    ready and delay for a department that has items in the order.  They
    answer the [ok] flag of the reply; when the request is rejected they
    answer [false] and log one line. *)
Theorem button_notifications_deliver_once :
  forall (w : World),
    (forall message buttons,
       delivers_once network (Some buttons) "Error sending message with buttons:"
         (sendMessageWithButtons network GROUP_CHAT_ID message buttons) w)
    /\ (forall pendingOrder,
          delivers_once network
            (Some [ [ {| text := "✅ Approve Order";
                         callback_data := "approve_order_" ++ po_id pendingOrder |};
                      {| text := "❌ Reject Order";
                         callback_data := "reject_order_" ++ po_id pendingOrder |} ] ])
            "Error sending message with buttons:"
            (sendPendingOrderWithButtons toFixed2 toLocaleString network pendingOrder) w)
    /\ (forall confirmationId tableNumber total method,
          delivers_once network
            (Some [ [ {| text := "✅ Accept Payment";
                         callback_data := "approve_payment_" ++ confirmationId |};
                      {| text := "❌ Reject Payment";
                         callback_data := "reject_payment_" ++ confirmationId |} ] ])
            "Error sending message with buttons:"
            (sendPaymentConfirmationWithButtons toFixed2 toLocaleString network clock
               confirmationId tableNumber total method) w)
    /\ (forall order department,
          filter (in_department department) (order_items order) <> [] ->
          delivers_once network
            (Some [ [ {| text := "✅ Ready";
                         callback_data := "ready_" ++ department_name department ++ "_"
                                          ++ order_id order |};
                      {| text := "⏰ Delay";
                         callback_data := "delay_" ++ department_name department ++ "_"
                                          ++ order_id order |} ] ])
            "Error sending message with buttons:"
            (sendOrderToDepartment toLocaleString network order department) w).
Proof.
  intros w. repeat split; intros.
  - apply sendMessageWithButtons_delivers_once.
  - apply sendMessageWithButtons_delivers_once.
  - unfold sendPaymentConfirmationWithButtons, bind at 1, Date_now.
    apply sendMessageWithButtons_delivers_once.
  - now apply sendOrderToDepartment_delivers_once.
Qed.

(** *** Callback tokens *)

Lemma token_injective action action' id id' :
  token action id = token action' id' -> action = action' /\ id = id'.
Proof.
  destruct action as [| | | |[|]|[|]], action' as [| | | |[|]|[|]];
    simpl; intros H; try discriminate H;
    injection H as ->; auto.
Qed.

Lemma delivers_once_tokens keyboard label m w :
  delivers_once network keyboard label m w ->
  flat_map tokens_of (outbox (snd (m w)))
  = (flat_map tokens_of (outbox w)
       ++ match keyboard with
          | Some rows => map callback_data (List.concat rows)
          | None => []
          end)%list.
Proof.
  intros (message & Hout & _). cbv zeta in Hout.
  rewrite Hout, flat_map_app. simpl.
  destruct keyboard; now rewrite !app_nil_r.
Qed.

(** X3.  Every button the service posts carries a token that names one
    action and one id: the tokens a call adds to the outbox are
    [approve_order_<id>] and [reject_order_<id>] for a pending order,
    [ready_<department>_<id>] and [delay_<department>_<id>] for a department
    that has items in the order (none otherwise), and [approve_payment_<id>]
    and [reject_payment_<id>] for both payment notifications.  Two tokens are
    equal only when their actions and their ids are. *)
Theorem callback_tokens_name_one_action :
  (forall action action' id id',
     token action id = token action' id' -> action = action' /\ id = id')
  /\ (forall pendingOrder w,
        flat_map tokens_of
          (outbox (snd (sendPendingOrderWithButtons toFixed2 toLocaleString network
                          pendingOrder w)))
        = (flat_map tokens_of (outbox w)
             ++ [token approve_order (po_id pendingOrder);
                 token reject_order (po_id pendingOrder)])%list)
  /\ (forall order department w,
        flat_map tokens_of
          (outbox (snd (sendOrderToDepartment toLocaleString network order department w)))
        = (flat_map tokens_of (outbox w)
             ++ match filter (in_department department) (order_items order) with
                | [] => []
                | _ :: _ => [token (ready department) (order_id order);
                             token (delay department) (order_id order)]
                end)%list)
  /\ (forall order paymentMethod screenshot w,
        flat_map tokens_of
          (outbox (snd (sendPaymentConfirmation toFixed2 toLocaleString network
                          order paymentMethod screenshot w)))
        = (flat_map tokens_of (outbox w)
             ++ [token approve_payment (order_id order);
                 token reject_payment (order_id order)])%list)
  /\ (forall confirmationId tableNumber total method w,
        flat_map tokens_of
          (outbox (snd (sendPaymentConfirmationWithButtons toFixed2 toLocaleString
                          network clock confirmationId tableNumber total method w)))
        = (flat_map tokens_of (outbox w)
             ++ [token approve_payment confirmationId;
                 token reject_payment confirmationId])%list).
Proof.
  split; [intros; now apply token_injective |].
  split; [| split; [| split]].
  - intros pendingOrder w. unfold sendPendingOrderWithButtons.
    now rewrite (delivers_once_tokens _ _ _ _
                   (sendMessageWithButtons_delivers_once _ _ w)).
  - intros order department w.
    destruct (filter (in_department department) (order_items order)) as [|i rest] eqn:F.
    + rewrite sendOrderToDepartment_nothing_kept by assumption.
      simpl. now rewrite app_nil_r.
    + rewrite (delivers_once_tokens _ _ _ _
                 (sendOrderToDepartment_delivers_once order department w
                    ltac:(rewrite F; discriminate))).
      reflexivity.
  - intros order paymentMethod screenshot w.
    unfold sendPaymentConfirmation, bind at 1.
    pose proof (sendPhoto_spec network screenshot
                  (payment_caption toFixed2 toLocaleString order paymentMethod) w) as P.
    destruct (sendPhoto network screenshot _ w) as [sent w1].
    cbv zeta in P. destruct P as [P _].
    rewrite (delivers_once_tokens _ _ _ _
               (sendMessageWithButtons_delivers_once _ _ w1)).
    rewrite P, flat_map_app. simpl. now rewrite app_nil_r.
  - intros confirmationId tableNumber total method w.
    unfold sendPaymentConfirmationWithButtons, bind at 1, Date_now.
    now rewrite (delivers_once_tokens _ _ _ _
                   (sendMessageWithButtons_delivers_once _ _ w)).
Qed.

(** *** The daily summary *)

Variable toLocaleDateString : Timestamp -> string.

Lemma map_index_from_length {A B : Type} (f : Z -> A -> B) (l : list A) :
  forall i, List.length (map_index_from f i l) = List.length l.
Proof. induction l as [|x l IH]; intros i; simpl; [reflexivity | now rewrite IH]. Qed.

Lemma map_index_from_nth {A B : Type} (f : Z -> A -> B) (l : list A) :
  forall i k x,
    nth_error l k = Some x ->
    nth_error (map_index_from f i l) k = Some (f (i + Z.of_nat k)%Z x).
Proof.
  induction l as [|y l IH]; intros i [|k] x H; simpl in *; try discriminate.
  - injection H as ->. now rewrite Z.add_0_r.
  - rewrite (IH _ _ _ H). do 2 f_equal. lia.
Qed.

(** What [sendMessage] does with a given text. *)
Lemma sendMessage_posts message w :
  let request := SendMessage GROUP_CHAT_ID message "HTML" None in
  outbox (snd (sendMessage network message w)) = (outbox w ++ [request])%list
  /\ fst (sendMessage network message w) = outcome (network (outbox w ++ [request])%list)
  /\ console (snd (sendMessage network message w))
     = (console w
          ++ match network (outbox w ++ [request])%list with
             | Rejected => ["Error sending Telegram message:"]
             | Resolved _ => []
             end)%list.
Proof.
  unfold sendMessage, bind, post; simpl.
  destruct (network _); simpl; rewrite ?app_nil_r; auto.
Qed.

(** X4.  The daily summary is one plain notification: one request is
    posted, its result is the [ok] flag of the reply, and a rejected request
    gives [false] and one logged line.  Its text is the report with the
    date, the number of orders, the revenue and the most active table,
    followed by the list of the most ordered items and by the numbers of
    waiter calls and bill requests.  The list has one line for each of the
    first five items given, in their order and no line for a later one, each
    line with its rank from 1, the name of the item and its count. *)
Theorem sendDailySummary_top_five :
  forall (summary : DailySummary) (w : World),
    let items := summary_mostOrderedItems summary in
    let run := sendDailySummary toFixed2 network clock toLocaleDateString summary w in
    exists lines,
      List.length lines = Nat.min 5 (List.length items)
      /\ (forall k item,
            (k < 5)%nat ->
            nth_error items k = Some item ->
            nth_error lines k
            = Some (string_of_Z (Z.of_nat k + 1) ++ ". " ++ ordered_name item
                    ++ " (" ++ string_of_Z (ordered_count item) ++ " orders)"))
      /\ let message := trim (
           nl ++ "📊 <b>Daily Summary Report</b>" ++ nl
           ++ "📅 " ++ toLocaleDateString (clock (outbox w)) ++ nl
           ++ nl ++ "📈 <b>Orders:</b> " ++ string_of_Z (summary_totalOrders summary) ++ nl
           ++ "💰 <b>Revenue:</b> $" ++ toFixed2 (summary_totalRevenue summary) ++ nl
           ++ "🏆 <b>Most Active Table:</b> " ++ summary_mostActiveTable summary ++ nl
           ++ nl ++ "🍽️ <b>Top Ordered Items:</b>" ++ nl
           ++ join nl lines ++ nl
           ++ nl ++ "📞 <b>Waiter Calls:</b> " ++ string_of_Z (summary_waiterCalls summary)
           ++ nl
           ++ "💸 <b>Bill Requests:</b> " ++ string_of_Z (summary_billRequests summary)
           ++ nl ++ "    ") in
         let request := SendMessage GROUP_CHAT_ID message "HTML" None in
         outbox (snd run) = (outbox w ++ [request])%list
         /\ fst run = outcome (network (outbox w ++ [request])%list)
         /\ console (snd run)
            = (console w
                 ++ match network (outbox w ++ [request])%list with
                    | Rejected => ["Error sending Telegram message:"]
                    | Resolved _ => []
                    end)%list.
Proof.
  intros summary w items run.
  exists (top_item_lines items). split; [| split].
  - unfold top_item_lines, map_index, slice_first.
    now rewrite map_index_from_length, length_firstn.
  - intros k item Hk Hnth.
    unfold top_item_lines, map_index, slice_first.
    rewrite (map_index_from_nth _ _ 0%Z k item); [reflexivity |].
    rewrite nth_error_firstn.
    destruct (Nat.ltb_spec k 5); [assumption | lia].
  - subst run. unfold sendDailySummary, bind at 1, Date_now.
    apply sendMessage_posts.
Qed.

End NotificationProperties.

(** * Further properties of the data-access service *)

(** ** Queries *)

Lemma limit_In {D : Type} n (doc : Firebase.Doc D) docs :
  In doc (Firebase.limit n docs) -> In doc docs.
Proof.
  unfold Firebase.limit. intros H.
  rewrite <- (firstn_skipn n docs). apply in_or_app. now left.
Qed.

(** What a query with filters and [limit] yields is a stored document that
    passes the filters. *)
Lemma limit_by_id_where_In {D : Type} n (p : D -> bool) (doc : Firebase.Doc D) docs :
  In doc (Firebase.limit n (Firebase.by_id (Firebase.where_ p docs))) ->
  In doc docs /\ p (snd doc) = true.
Proof. intros H. apply limit_In, In_by_id, In_where in H. exact H. Qed.

(** ** Outcomes of a call, whatever is rejected *)

Section Outcomes.

Import Firebase.

Variable fault : nat -> bool.

Local Abbreviation rejected_from := (Firebase.rejected_from fault).
Local Abbreviation failed := (Firebase.failed fault).

Lemma ensures_ret {A : Type} (a : A) w (Q : A -> World -> Prop) E :
  Q a w -> ensures (ret a) w Q E.
Proof. intros H. exact H. Qed.

Lemma ensures_bind {A B : Type} (m : M A) (k : A -> M B) w
    (P : A -> World -> Prop) (F : Error -> World -> Prop)
    (Q : B -> World -> Prop) (E : Error -> World -> Prop) :
  ensures m w P F ->
  (forall a w', P a w' -> ensures (k a) w' Q E) ->
  (forall e w', F e w' -> E e w') ->
  ensures (bind m k) w Q E.
Proof.
  unfold ensures, bind. intros Hm Hk HE.
  destruct (m w) as [[a|e] w']; auto.
  now apply Hk.
Qed.

Lemma ensures_weaken {A : Type} (m : M A) w
    (P Q : A -> World -> Prop) (F E : Error -> World -> Prop) :
  ensures m w P F ->
  (forall a w', P a w' -> Q a w') ->
  (forall e w', F e w' -> E e w') ->
  ensures m w Q E.
Proof.
  unfold ensures. intros Hm HQ HE.
  destruct (m w) as [[a|e] w']; auto.
Qed.

Lemma ensures_try_rethrow {A : Type} label (m : M A) w Q E :
  ensures m w Q (fun e w' => E e (console_error label w')) ->
  ensures (try_rethrow label m) w Q E.
Proof.
  unfold ensures, try_rethrow. destruct (m w) as [[a|e] w']; auto.
Qed.

Lemma rejected_from_here w : fault (tick w) = true -> rejected_from w (Rejected (tick w)).
Proof. intros H. exists (tick w). auto. Qed.

Lemma rejected_from_earlier w w' e :
  tick w <= tick w' -> rejected_from w' e -> rejected_from w e.
Proof. intros Hle (n & -> & Hf & Hn). exists n. repeat split; auto. lia. Qed.

Lemma failed_later w w' e w'' :
  store w' = store w -> tick w <= tick w' -> failed w' e w'' -> failed w e w''.
Proof.
  intros Hs Ht [Hs' Hr]. split; [congruence |].
  now apply (rejected_from_earlier _ w').
Qed.

(** *** The SDK calls *)

Variable clock : nat -> Timestamp.

Lemma ensures_now {B : Type} (k : Timestamp -> M B) w Q E :
  (forall w', store w' = store w -> tick w' = S (tick w) ->
     ensures (k (clock (tick w))) w' Q E) ->
  ensures (bind (Timestamp_now clock) k) w Q E.
Proof. intros H. unfold ensures, bind. simpl. now apply H. Qed.

Lemma ensures_getDocs {D : Type} (c : Collection D) q w :
  ensures (getDocs fault c q) w
    (fun docs w' =>
       docs = q (coll_get c (store w)) /\ store w' = store w /\ tick w' = S (tick w))
    (failed w).
Proof.
  unfold ensures, getDocs. destruct (fault (tick w)) eqn:F; simpl; auto.
  split; [reflexivity | now apply rejected_from_here].
Qed.

Lemma ensures_updateDoc {D : Type} (c : Collection D) id f w :
  has_doc id (coll_get c (store w)) = true ->
  ensures (updateDoc fault c id f) w
    (fun _ w' =>
       store w' = coll_set c (update_docs id f (coll_get c (store w))) (store w)
       /\ tick w' = S (tick w))
    (failed w).
Proof.
  intros Hdoc. unfold ensures, updateDoc. rewrite Hdoc.
  destruct (fault (tick w)) eqn:F; simpl; auto.
  split; [reflexivity | now apply rejected_from_here].
Qed.

Lemma ensures_deleteDoc {D : Type} (c : Collection D) id w :
  ensures (deleteDoc fault c id) w
    (fun _ w' =>
       store w' = coll_set c (remove_docs id (coll_get c (store w))) (store w)
       /\ tick w' = S (tick w))
    (failed w).
Proof.
  unfold ensures, deleteDoc. destruct (fault (tick w)) eqn:F; simpl; auto.
  split; [reflexivity | now apply rejected_from_here].
Qed.

Variable autoId : nat -> DocId.

Lemma ensures_addDoc {D : Type} (c : Collection D) data w :
  coll_accepts c data = true ->
  ensures (addDoc fault autoId c data) w
    (fun id w' =>
       id = autoId (tick w)
       /\ store w' = coll_set c (coll_get c (store w) ++ [(id, data)])%list (store w)
       /\ tick w' = S (tick w))
    (failed w).
Proof.
  intros Haccepts. unfold ensures, addDoc. rewrite Haccepts.
  destruct (fault (tick w)) eqn:F; simpl; auto.
  split; [reflexivity | now apply rejected_from_here].
Qed.

End Outcomes.

(** ** Outcomes of the methods *)

Section MethodOutcomes.

Import Firebase.

Variable fault : nat -> bool.

Local Abbreviation rejected_from := (Firebase.rejected_from fault).
Local Abbreviation failed := (Firebase.failed fault).

Lemma failed_console label w e w' :
  failed w e w' -> failed w e (console_error label w').
Proof. intros [Hs Hr]. split; assumption. Qed.

Lemma getMenuItems_outcome userId w :
  ensures (getMenuItems fault userId) w
    (fun items w' =>
       items = map menu_item_of_doc (menu_docs userId (store w))
       /\ store w' = store w /\ tick w <= tick w')
    (failed w).
Proof.
  unfold getMenuItems. apply ensures_try_rethrow.
  eapply ensures_bind; [apply ensures_getDocs | |].
  - intros docs w' (-> & Hs & Ht). apply ensures_ret.
    repeat split; auto. lia.
  - intros e w' H. now apply failed_console.
Qed.

Lemma getTableBill_outcome userId tableNumber w :
  ensures (getTableBill fault userId tableNumber) w
    (fun bill w' =>
       bill = match active_bill_docs userId tableNumber (store w) with
              | [] => None
              | doc :: _ => Some {| bill_id := fst doc; bill_data := snd doc |}
              end
       /\ store w' = store w /\ tick w <= tick w')
    (failed w).
Proof.
  unfold getTableBill. apply ensures_try_rethrow.
  eapply ensures_bind; [apply ensures_getDocs | |].
  - intros docs w' (-> & Hs & Ht). apply ensures_ret.
    repeat split; auto. lia.
  - intros e w' H. now apply failed_console.
Qed.

Variable clock : nat -> Timestamp.

Lemma markOrderAsComplete_outcome orderId department w :
  ensures (markOrderAsComplete fault clock orderId department) w
    (fun _ w' =>
       tick w <= tick w'
       /\ match limit 1 (by_id (where_ (fun d => String.eqb (do_orderId d) orderId)
                                  (coll_get (departmentOrdersC department) (store w)))) with
          | [] => store w' = store w
          | doc :: _ =>
              exists completedAt,
                store w'
                = coll_set (departmentOrdersC department)
                    (update_docs (fst doc)
                       (fun d => {| do_status := "completed";
                                    do_completedAt := Some completedAt;
                                    do_orderId := do_orderId d;
                                    do_userId := do_userId d;
                                    do_items := do_items d;
                                    do_createdAt := do_createdAt d;
                                    do_department := do_department d |})
                       (coll_get (departmentOrdersC department) (store w)))
                    (store w)
          end)
    (failed w).
Proof.
  unfold markOrderAsComplete. apply ensures_try_rethrow.
  eapply ensures_bind; [apply ensures_getDocs | |].
  - intros docs w1 (-> & Hs1 & Ht1).
    destruct (limit 1 _) as [|doc rest] eqn:Hq.
    + apply ensures_ret. split; [lia | assumption].
    + apply ensures_now. intros w2 Hs2 Ht2.
      set (completedAt := clock _).
      assert (Hin : In doc (coll_get (departmentOrdersC department) (store w))).
      { assert (H : In doc (doc :: rest)) by now left.
        rewrite <- Hq in H. now apply limit_by_id_where_In in H. }
      eapply ensures_weaken; [apply ensures_updateDoc | |].
      * rewrite Hs2, Hs1. now apply has_doc_In.
      * intros [] w3 (Hs3 & Ht3). split; [lia |].
        exists completedAt. rewrite Hs3, Hs2, Hs1. reflexivity.
      * intros e w3 H. apply failed_console.
        apply (failed_later _ _ w2); [congruence | lia | assumption].
  - intros e w' H. now apply failed_console.
Qed.

Variable autoId : nat -> DocId.

Lemma addMenuItem_outcome item w :
  ensures (addMenuItem fault clock autoId item) w
    (fun id w' =>
       tick w <= tick w'
       /\ id = autoId (S (tick w))
       /\ md_department item <> Some department_undefined
       /\ store w' = coll_set menuItemsC
                       (menuItems (store w)
                          ++ [(id, stored_menu_item item (clock (tick w)))])%list
                       (store w))
    (fun e w' =>
       store w' = store w
       /\ (rejected_from w e
           \/ (e = InvalidArgument /\ md_department item = Some department_undefined))).
Proof.
  destruct (md_department item) as [value|] eqn:D;
    [destruct value as [| |name] |].
  1: { unfold ensures. rewrite addMenuItem_refused by assumption.
       split; [reflexivity | now right]. }
  all: unfold addMenuItem; apply ensures_try_rethrow;
    apply ensures_now; intros w1 Hs1 Ht1;
    (eapply ensures_weaken;
     [ apply ensures_addDoc; rewrite spread_department, D; reflexivity
     | intros id w2 (-> & Hs2 & Ht2); split; [lia |];
       split; [now rewrite Ht1 |];
       split; [discriminate |];
       rewrite Hs2, Hs1; unfold stored_menu_item;
       now rewrite spread_department
     | intros e w2 H;
       destruct (failed_later _ w w1 e w2 ltac:(congruence) ltac:(lia) H) as [Hs Hr];
       split; [exact Hs | now left] ]).
Qed.

Lemma addOrder_outcome order w :
  ensures (addOrder fault clock autoId order) w
    (fun id w' =>
       tick w <= tick w'
       /\ id = autoId (S (tick w))
       /\ store w' = coll_set ordersC
                       (orders (store w)
                          ++ [(id, stored_order order (clock (tick w)))])%list
                       (store w))
    (failed w).
Proof.
  unfold addOrder. apply ensures_try_rethrow.
  apply ensures_now. intros w1 Hs1 Ht1.
  eapply ensures_weaken; [now apply ensures_addDoc | |].
  - intros id w2 (-> & Hs2 & Ht2). split; [lia |].
    split; [now rewrite Ht1 |].
    rewrite Hs2, Hs1. reflexivity.
  - intros e w2 H. apply failed_console.
    apply (failed_later _ _ w1); [congruence | lia | assumption].
Qed.

Lemma sendToDepartment_outcome orderId userId items department w :
  ensures (sendToDepartment fault clock autoId orderId userId items department) w
    (fun _ w' =>
       tick w <= tick w'
       /\ exists id createdAt,
            store w' = coll_set (departmentOrdersC department)
                         (coll_get (departmentOrdersC department) (store w)
                            ++ [(id, department_record orderId userId items department
                                       createdAt)])%list
                         (store w))
    (failed w).
Proof.
  unfold sendToDepartment.
  apply ensures_now. intros w1 Hs1 Ht1.
  set (createdAt := clock _).
  eapply ensures_bind; [apply ensures_addDoc, departmentOrders_accepts | |].
  - intros id w2 (_ & Hs2 & Ht2). apply ensures_ret. split; [lia |].
    exists id, createdAt. rewrite Hs2, Hs1. reflexivity.
  - intros e w2 H.
    apply (failed_later _ _ w1); [congruence | lia | assumption].
Qed.

Lemma send_if_any_outcome orderId userId items department w :
  ensures
    (if Nat.ltb 0 (List.length items)
     then sendToDepartment fault clock autoId orderId userId items department
     else ret tt) w
    (fun _ w' =>
       tick w <= tick w'
       /\ exists id createdAt,
            store w' = coll_set (departmentOrdersC department)
                         (coll_get (departmentOrdersC department) (store w)
                            ++ new_department_docs id createdAt orderId userId items
                                 department)%list
                         (store w))
    (failed w).
Proof.
  destruct items as [|item items]; cbn [List.length Nat.ltb Nat.leb].
  - apply ensures_ret. split; [lia |]. exists "", 0%Z. simpl.
    now rewrite departmentOrders_set_same.
  - apply sendToDepartment_outcome.
Qed.

Lemma addToTableBill_outcome userId tableNumber items w :
  ensures (addToTableBill fault clock autoId userId tableNumber items) w
    (fun _ w' =>
       tick w <= tick w'
       /\ exists bills,
            store w' = coll_set tableBillsC bills (store w)
            /\ billed userId tableNumber items (tableBills (store w)) bills)
    (failed w).
Proof.
  unfold addToTableBill. apply ensures_try_rethrow.
  eapply ensures_bind; [apply getTableBill_outcome | |].
  - intros bill w1 (-> & Hs1 & Ht1). unfold billed.
    fold (active_bill_docs userId tableNumber (store w)).
    destruct (active_bill_docs userId tableNumber (store w)) as [|[id old] rest] eqn:Hq.
    + apply ensures_now. intros w2 Hs2 Ht2.
      set (createdAt := clock _).
      apply ensures_now. intros w3 Hs3 Ht3.
      set (updatedAt := clock _).
      eapply ensures_bind; [now apply ensures_addDoc | |].
      * intros docId w4 (_ & Hs4 & Ht4). apply ensures_ret. split; [lia |].
        eexists. split; [| exists docId, createdAt, updatedAt; reflexivity].
        rewrite Hs4, Hs3, Hs2, Hs1. reflexivity.
      * intros e w4 H. apply failed_console.
        apply (failed_later _ _ w3); [congruence | lia | assumption].
    + cbn [bill_id bill_data fst snd].
      apply ensures_now. intros w2 Hs2 Ht2.
      set (updatedAt := clock _).
      eapply ensures_weaken; [apply ensures_updateDoc | |].
      * rewrite Hs2, Hs1.
        apply (has_doc_In (id, old)).
        assert (H : In (id, old) (active_bill_docs userId tableNumber (store w)))
          by (rewrite Hq; now left).
        now apply limit_by_id_where_In in H.
      * intros [] w3 (Hs3 & Ht3). split; [lia |].
        eexists. split; [| exists updatedAt; reflexivity].
        rewrite Hs3, Hs2, Hs1. reflexivity.
      * intros e w3 H. apply failed_console.
        apply (failed_later _ _ w2); [congruence | lia | assumption].
  - intros e w1 H. now apply failed_console.
Qed.

End MethodOutcomes.

(** ** Approval of a pending order, whatever is rejected *)

Section ApprovalOutcomes.

Import Firebase.

Variable fault : nat -> bool.
Variable clock : nat -> Timestamp.
Variable autoId : nat -> DocId.

Local Abbreviation rejected_from := (Firebase.rejected_from fault).
Local Abbreviation failed := (Firebase.failed fault).

Lemma new_department_docs_grow (l : list (Doc DepartmentOrderData))
    id createdAt orderId userId items department :
  (l ++ new_department_docs id createdAt orderId userId items department)%list = l
  \/ exists id' orderId' items' createdAt',
       (l ++ new_department_docs id createdAt orderId userId items department)%list
       = (l ++ [(id', department_record orderId' userId items' department createdAt')])%list.
Proof.
  destruct items as [|item items]; simpl.
  - left. apply app_nil_r.
  - right. eexists _, _, _, _. reflexivity.
Qed.

(** The store of a world in terms of the store the call started from. *)
Ltac from_start :=
  repeat match goal with
         | H : store ?x = _ |- context [store ?x] => rewrite H
         end.

(** The writes recorded in the context are writes of the approval. *)
Ltac progress_so_far :=
  split; [reflexivity |];
  split; [try (left; reflexivity); right; eexists _, _; reflexivity |];
  split; [intros [|]; cbn [coll_get coll_set departmentOrdersC kitchenOrdersC barOrdersC
                            ordersC tableBillsC pendingOrdersC kitchenOrders barOrders];
          first [ left; reflexivity | apply new_department_docs_grow ] |];
  cbn [coll_get coll_set departmentOrdersC kitchenOrdersC barOrdersC
         ordersC tableBillsC pendingOrdersC tableBills];
  first [ left; reflexivity | right; assumption ].

(** An approval that was interrupted after the writes recorded in the
    context. *)
Ltac interrupted H :=
  let n := fresh "n" in
  let Hs := fresh "Hs" in
  destruct H as [Hs (n & -> & ? & ?)];
  split; [exists n; repeat split; auto; lia |];
  cbn [store console_error];
  from_start;
  split; [reflexivity |];
  progress_so_far.

Lemma approvePendingOrder_outcome pendingOrderId pendingOrder w :
  let userId := po_userId pendingOrder in
  let menu := map menu_item_of_doc (menu_docs userId (store w)) in
  let kitchenItems :=
    filter (fun item => negb (is_bar_item menu item)) (po_items pendingOrder) in
  let barItems := filter (is_bar_item menu) (po_items pendingOrder) in
  ensures (approvePendingOrder fault clock autoId pendingOrderId pendingOrder) w
    (fun orderId w' =>
       tick w <= tick w'
       /\ exists timestamp kid kt bid bt bills,
            billed userId (po_tableNumber pendingOrder) (po_items pendingOrder)
              (tableBills (store w)) bills
            /\ approval_progress pendingOrder (store w) (store w')
            /\ store w'
               = coll_set pendingOrdersC
                   (remove_docs pendingOrderId (pendingOrders (store w)))
                   (coll_set tableBillsC bills
                      (coll_set barOrdersC
                         (barOrders (store w)
                            ++ new_department_docs bid bt orderId userId barItems bar)%list
                         (coll_set kitchenOrdersC
                            (kitchenOrders (store w)
                               ++ new_department_docs kid kt orderId userId kitchenItems
                                    kitchen)%list
                            (coll_set ordersC
                               (orders (store w)
                                  ++ [(orderId, approved_order pendingOrder timestamp)])%list
                               (store w))))))
    (fun e w' =>
       rejected_from w e
       /\ pendingOrders (store w') = pendingOrders (store w)
       /\ approval_progress pendingOrder (store w) (store w')).
Proof.
  intros userId menu kitchenItems barItems.
  unfold approvePendingOrder. apply ensures_try_rethrow.
  apply ensures_now. intros w1 Hs1 Ht1.
  eapply ensures_bind; [apply addOrder_outcome | |].
  - intros orderId w2 (Ht2 & _ & Hs2).
    set (timestamp := clock (tick w1)) in Hs2.
    eapply ensures_bind; [apply getMenuItems_outcome | |].
    + intros menuItems w3 (-> & Hs3 & Ht3).
      replace (menu_docs (po_userId pendingOrder) (store w2))
        with (menu_docs userId (store w)) by (rewrite Hs2, Hs1; reflexivity).
      fold menu. rewrite splitItemsByDepartment_filter. fold kitchenItems barItems.
      eapply ensures_bind; [apply send_if_any_outcome | |].
      * intros [] w4 (Ht4 & kid & kt & Hs4).
        eapply ensures_bind; [apply send_if_any_outcome | |].
        -- intros [] w5 (Ht5 & bid & bt & Hs5).
           eapply ensures_bind; [apply addToTableBill_outcome | |].
           ++ intros [] w6 (Ht6 & bills & Hs6 & Hbilled).
              replace (tableBills (store w5)) with (tableBills (store w)) in Hbilled
                by (rewrite Hs5, Hs4, Hs3, Hs2, Hs1; destruct (store w); reflexivity).
              eapply ensures_bind; [apply ensures_deleteDoc | |].
              ** intros [] w7 (Hs7 & Ht7). apply ensures_ret.
                 split; [lia |].
                 exists timestamp, kid, kt, bid, bt, bills.
                 split; [exact Hbilled |].
                 rewrite Hs7, Hs6, Hs5, Hs4, Hs3, Hs2, Hs1.
                 split; [progress_so_far | reflexivity].
              ** intros e w7 H. interrupted H.
           ++ intros e w6 H. interrupted H.
        -- intros e w5 H. interrupted H.
      * intros e w4 H. interrupted H.
    + intros e w3 H. interrupted H.
  - intros e w2 H. interrupted H.
Qed.

End ApprovalOutcomes.

(** ** Table bills *)

Lemma string_leb_refl (s : string) : String.leb s s = true.
Proof. unfold String.leb. now rewrite string_compare_refl. Qed.

Lemma string_leb_trans (a b c : string) :
  String.leb a b = true -> String.leb b c = true -> String.leb a c = true.
Proof.
  intros Hab Hbc.
  destruct (string_dec a b) as [-> | Nab]; [assumption |].
  destruct (string_dec b c) as [<- | Nbc]; [assumption |].
  pose proof (string_ltb_trans _ _ _ (string_leb_neq_ltb _ _ Hab Nab)
                (string_leb_neq_ltb _ _ Hbc Nbc)) as H.
  unfold String.ltb in H. unfold String.leb.
  now destruct (String.compare a c).
Qed.

(** A query without [orderBy] yields the document with the least id first. *)
Lemma by_id_head_least {D : Type} (docs : list (Firebase.Doc D)) doc rest :
  Firebase.by_id docs = doc :: rest ->
  forall d, In d docs -> String.leb (fst doc) (fst d) = true.
Proof.
  intros Hq d Hin.
  assert (HS : StronglySorted (fun a b : Firebase.Doc D => String.leb (fst a) (fst b) = true)
                 (Firebase.by_id docs)).
  { apply Sorted_StronglySorted.
    - intros x y z. apply string_leb_trans.
    - apply stable_sort_Sorted; [auto |].
      intros [ix dx] [iy dy] Hxy. simpl in *.
      destruct (String.leb_total ix iy) as [H | H];
        [rewrite H in Hxy; discriminate | exact H]. }
  apply In_by_id in Hin. rewrite Hq in HS, Hin.
  inversion HS as [|? ? _ Hall]; subst.
  destruct Hin as [<- | Hin]; [apply string_leb_refl |].
  rewrite Forall_forall in Hall. now apply Hall.
Qed.

Section BillProperties.

Import Firebase.

Variable fault : nat -> bool.

(** X5.  [getTableBill] reads and never writes.  When the query is rejected
    it logs one line and throws the rejection.  Otherwise it answers [null]
    exactly when the table has no active bill of the owner; when there are
    active bills, it answers one of them as it is stored, the one with the
    least document id, so that further active bills of the table are never
    seen. *)
Theorem getTableBill_least_active_bill :
  forall (userId tableNumber : string) (w : World),
    let active :=
      filter (fun d => active_bill_of userId tableNumber (snd d)) (tableBills (store w)) in
    match getTableBill fault userId tableNumber w with
    | (Ok None, w') =>
        fault (tick w) = false /\ active = []
        /\ store w' = store w /\ console w' = console w
    | (Ok (Some bill), w') =>
        fault (tick w) = false
        /\ In (bill_id bill, bill_data bill) active
        /\ (forall d, In d active -> String.leb (bill_id bill) (fst d) = true)
        /\ store w' = store w /\ console w' = console w
    | (Throw e, w') =>
        fault (tick w) = true /\ e = Rejected (tick w)
        /\ store w' = store w
        /\ console w' = (console w ++ ["Error fetching table bill:"])%list
    end.
Proof.
  intros userId tableNumber w active.
  unfold getTableBill, try_rethrow, bind, getDocs.
  destruct (fault (tick w)) eqn:F; [simpl; auto |].
  fold (where_ (active_bill_of userId tableNumber) (tableBills (store w))).
  cbn [coll_get tableBillsC].
  change (where_ (active_bill_of userId tableNumber) (tableBills (store w))) with active.
  unfold limit.
  destruct (by_id active) as [|doc rest] eqn:Hq; simpl.
  - repeat split. now apply by_id_nil.
  - repeat split.
    + destruct doc as [id data]. simpl. apply In_by_id. rewrite Hq. now left.
    + intros d Hd. now apply (by_id_head_least active doc rest).
Qed.

End BillProperties.

Section BillInvariant.

Import Firebase.

Lemma update_docs_length {D : Type} id (f : D -> D) (docs : list (Doc D)) :
  List.length (update_docs id f docs) = List.length docs.
Proof. unfold update_docs. apply length_map. Qed.

(** Billing keeps the number of active bills of every table, except that a
    table without an active bill gets its first one. *)
Lemma billed_one_bill userId tableNumber items bills bills' :
  billed userId tableNumber items bills bills' ->
  (forall u t, List.length (where_ (active_bill_of u t) bills) <= 1) ->
  forall u t, List.length (where_ (active_bill_of u t) bills') <= 1.
Proof.
  unfold billed. intros Hbilled Hone u t.
  destruct (limit 1 (by_id (where_ (active_bill_of userId tableNumber) bills)))
    as [|[id old] rest] eqn:Hq.
  - destruct Hbilled as (id & createdAt & updatedAt & ->).
    rewrite where_app, length_app.
    unfold where_ at 2. cbn [filter snd]. unfold active_bill_of at 2. cbn [new_bill tb_userId tb_tableNumber tb_status].
    destruct (String.eqb userId u) eqn:Eu; [| simpl; specialize (Hone u t); lia].
    destruct (String.eqb tableNumber t) eqn:Et; [| simpl; specialize (Hone u t); lia].
    apply String.eqb_eq in Eu, Et. subst u t.
    assert (Hnone : where_ (active_bill_of userId tableNumber) bills = []).
    { apply by_id_nil. unfold limit in Hq.
      destruct (by_id _); [reflexivity | discriminate]. }
    rewrite Hnone. simpl. lia.
  - destruct Hbilled as (updatedAt & ->).
    rewrite update_docs_where by reflexivity.
    rewrite update_docs_length. apply Hone.
Qed.

Variable fault : nat -> bool.
Variable clock : nat -> Timestamp.
Variable autoId : nat -> DocId.

(** X6.  Calls that run one after another never open a second bill for a
    table: when every owner and table has at most one active bill, this is
    still so after [addToTableBill] and after [approvePendingOrder], whether
    they return or throw and whatever calls are rejected. *)
Theorem one_active_bill_per_table_is_kept :
  forall (w : World),
    one_bill_per_table (store w) ->
    (forall userId tableNumber items,
       one_bill_per_table
         (store (snd (addToTableBill fault clock autoId userId tableNumber items w))))
    /\ (forall pendingOrderId pendingOrder,
          one_bill_per_table
            (store (snd (approvePendingOrder fault clock autoId pendingOrderId
                           pendingOrder w)))).
Proof.
  intros w Hone. split.
  - intros userId tableNumber items.
    pose proof (addToTableBill_outcome fault clock autoId userId tableNumber items w) as H.
    unfold ensures in H.
    destruct (addToTableBill fault clock autoId userId tableNumber items w) as [[[]|e] w'];
      cbn [snd].
    + destruct H as (_ & bills & -> & Hbilled).
      intros u t. cbn [coll_set tableBillsC tableBills].
      now apply (billed_one_bill _ _ _ _ _ Hbilled).
    + destruct H as [-> _]. exact Hone.
  - intros pendingOrderId pendingOrder.
    pose proof (approvePendingOrder_outcome fault clock autoId pendingOrderId
                  pendingOrder w) as H.
    cbv zeta in H. unfold ensures in H.
    destruct (approvePendingOrder fault clock autoId pendingOrderId pendingOrder w)
      as [[orderId|e] w']; cbn [snd].
    + destruct H as (_ & timestamp & kid & kt & bid & bt & bills & Hbilled & _ & ->).
      intros u t. cbn [coll_set pendingOrdersC tableBillsC tableBills].
      now apply (billed_one_bill _ _ _ _ _ Hbilled).
    + destruct H as (_ & _ & _ & _ & _ & [Hsame | Hbilled]); intros u t.
      * rewrite Hsame. apply Hone.
      * now apply (billed_one_bill _ _ _ _ _ Hbilled).
Qed.

End BillInvariant.

(** ** The calls of an approval, one by one *)

Section ApprovalLog.

Import Firebase.

Variable fault : nat -> bool.
Variable clock : nat -> Timestamp.
Variable autoId : nat -> DocId.

Local Abbreviation rejected_at := (Firebase.rejected_at fault).
Local Abbreviation accepted_calls := (Firebase.accepted_calls fault).
Local Abbreviation first_rejected := (Firebase.first_rejected fault).
Local Abbreviation approval_calls := (Firebase.approval_calls clock autoId).

Lemma getDocs_exact {D : Type} (c : Collection D) q w :
  ensures (getDocs fault c q) w
    (fun docs w' =>
       fault (tick w) = false /\ docs = q (coll_get c (store w))
       /\ store w' = store w /\ tick w' = S (tick w))
    (rejected_at (tick w) (store w)).
Proof.
  unfold ensures, getDocs, Firebase.rejected_at.
  destruct (fault (tick w)) eqn:F; simpl; auto.
Qed.

Lemma addDoc_exact {D : Type} (c : Collection D) data w :
  coll_accepts c data = true ->
  ensures (addDoc fault autoId c data) w
    (fun id w' =>
       fault (tick w) = false /\ id = autoId (tick w)
       /\ store w' = append_doc c (id, data) (store w) /\ tick w' = S (tick w))
    (rejected_at (tick w) (store w)).
Proof.
  intros Haccepts. unfold ensures, addDoc, Firebase.rejected_at. rewrite Haccepts.
  destruct (fault (tick w)) eqn:F; simpl; auto.
Qed.

Lemma updateDoc_exact {D : Type} (c : Collection D) id f w :
  has_doc id (coll_get c (store w)) = true ->
  ensures (updateDoc fault c id f) w
    (fun _ w' =>
       fault (tick w) = false
       /\ store w' = update_doc c id f (store w) /\ tick w' = S (tick w))
    (rejected_at (tick w) (store w)).
Proof.
  intros Hdoc. unfold ensures, updateDoc, Firebase.rejected_at. rewrite Hdoc.
  destruct (fault (tick w)) eqn:F; simpl; auto.
Qed.

Lemma deleteDoc_exact {D : Type} (c : Collection D) id w :
  ensures (deleteDoc fault c id) w
    (fun _ w' =>
       fault (tick w) = false
       /\ store w' = remove_doc c id (store w) /\ tick w' = S (tick w))
    (rejected_at (tick w) (store w)).
Proof.
  unfold ensures, deleteDoc, Firebase.rejected_at.
  destruct (fault (tick w)) eqn:F; simpl; auto.
Qed.

Lemma addOrder_exact order w :
  ensures (addOrder fault clock autoId order) w
    (fun id w' =>
       fault (S (tick w)) = false /\ id = autoId (S (tick w))
       /\ store w' = append_doc ordersC (id, stored_order order (clock (tick w))) (store w)
       /\ tick w' = S (S (tick w)))
    (rejected_at (S (tick w)) (store w)).
Proof.
  unfold addOrder. apply ensures_try_rethrow.
  apply ensures_now. intros w1 Hs1 Ht1.
  eapply ensures_weaken; [now apply addDoc_exact | |].
  - intros id w2 (F & -> & Hs2 & Ht2).
    rewrite Ht1 in F, Hs2, Ht2 |- *. rewrite Hs1 in Hs2.
    repeat split; [exact F | exact Hs2 | exact Ht2].
  - intros e w2 (F & -> & Hs). rewrite Ht1 in F |- *.
    repeat split; [assumption | cbn; congruence].
Qed.

Lemma getMenuItems_exact userId w :
  ensures (getMenuItems fault userId) w
    (fun items w' =>
       fault (tick w) = false
       /\ items = map menu_item_of_doc (menu_docs userId (store w))
       /\ store w' = store w /\ tick w' = S (tick w))
    (rejected_at (tick w) (store w)).
Proof.
  unfold getMenuItems. apply ensures_try_rethrow.
  eapply ensures_bind; [apply getDocs_exact | |].
  - intros docs w' (F & -> & Hs & Ht). apply ensures_ret. repeat split; assumption.
  - intros e w' H. exact H.
Qed.

Lemma sendToDepartment_exact orderId userId items department w :
  ensures (sendToDepartment fault clock autoId orderId userId items department) w
    (fun _ w' =>
       fault (S (tick w)) = false
       /\ store w'
          = append_doc (departmentOrdersC department)
              (autoId (S (tick w)),
               department_record orderId userId items department (clock (tick w)))
              (store w)
       /\ tick w' = S (S (tick w)))
    (rejected_at (S (tick w)) (store w)).
Proof.
  unfold sendToDepartment.
  apply ensures_now. intros w1 Hs1 Ht1.
  eapply ensures_bind; [apply addDoc_exact, departmentOrders_accepts | |].
  - intros id w2 (F & -> & Hs2 & Ht2). apply ensures_ret.
    rewrite Ht1 in F, Hs2, Ht2. rewrite Hs1 in Hs2.
    repeat split; [exact F | exact Hs2 | exact Ht2].
  - intros e w2 (F & -> & Hs). rewrite Ht1 in F |- *.
    repeat split; [assumption | congruence].
Qed.

Lemma getTableBill_exact userId tableNumber w :
  ensures (getTableBill fault userId tableNumber) w
    (fun bill w' =>
       fault (tick w) = false
       /\ bill = match active_bill_docs userId tableNumber (store w) with
                 | [] => None
                 | doc :: _ => Some {| bill_id := fst doc; bill_data := snd doc |}
                 end
       /\ store w' = store w /\ tick w' = S (tick w))
    (rejected_at (tick w) (store w)).
Proof.
  unfold getTableBill. apply ensures_try_rethrow.
  eapply ensures_bind; [apply getDocs_exact | |].
  - intros docs w' (F & -> & Hs & Ht). apply ensures_ret. repeat split; assumption.
  - intros e w' H. exact H.
Qed.

Lemma addToTableBill_exact userId tableNumber items w :
  ensures (addToTableBill fault clock autoId userId tableNumber items) w
    (fun _ w' =>
       fault (tick w) = false
       /\ match active_bill_docs userId tableNumber (store w) with
          | (id, old) :: _ =>
              fault (S (S (tick w))) = false
              /\ store w'
                 = update_doc tableBillsC id (merged_bill old items (clock (S (tick w))))
                     (store w)
              /\ tick w' = S (S (S (tick w)))
          | [] =>
              fault (S (S (S (tick w)))) = false
              /\ store w'
                 = append_doc tableBillsC
                     (autoId (S (S (S (tick w)))),
                      new_bill userId tableNumber items
                        (clock (S (tick w))) (clock (S (S (tick w)))))
                     (store w)
              /\ tick w' = S (S (S (S (tick w))))
          end)
    (fun e w' =>
       rejected_at (tick w) (store w) e w'
       \/ (fault (tick w) = false
           /\ rejected_at
                match active_bill_docs userId tableNumber (store w) with
                | _ :: _ => S (S (tick w))
                | [] => S (S (S (tick w)))
                end (store w) e w')).
Proof.
  unfold addToTableBill. apply ensures_try_rethrow.
  eapply ensures_bind; [apply getTableBill_exact | |].
  - intros bill w1 (F & -> & Hs1 & Ht1).
    destruct (active_bill_docs userId tableNumber (store w)) as [|[id old] rest] eqn:Hq.
    + apply ensures_now. intros w2 Hs2 Ht2.
      apply ensures_now. intros w3 Hs3 Ht3.
      eapply ensures_bind; [now apply addDoc_exact | |].
      * intros docId w4 (F4 & -> & Hs4 & Ht4). apply ensures_ret.
        rewrite Ht3, Ht2, Ht1 in F4, Ht4. rewrite Hs3, Hs2, Hs1 in Hs4.
        rewrite ?Ht3, ?Ht2, ?Ht1 in Hs4.
        repeat split; [exact F | exact F4 | exact Hs4 | exact Ht4].
      * intros e w4 (F4 & -> & Hs4). right. split; [assumption |].
        rewrite Ht3, Ht2, Ht1 in F4 |- *.
        repeat split; [assumption | cbn; congruence].
    + cbn [bill_id bill_data fst snd].
      apply ensures_now. intros w2 Hs2 Ht2.
      eapply ensures_weaken; [apply updateDoc_exact | |].
      * rewrite Hs2, Hs1.
        apply (has_doc_In (id, old)).
        assert (H : In (id, old) (active_bill_docs userId tableNumber (store w)))
          by (rewrite Hq; now left).
        now apply limit_by_id_where_In in H.
      * intros [] w3 (F3 & Hs3 & Ht3).
        rewrite Ht2, Ht1 in F3, Ht3. rewrite Hs2, Hs1, Ht1 in Hs3.
        repeat split; [exact F | exact F3 | exact Hs3 | exact Ht3].
      * intros e w3 (F3 & -> & Hs3). right. split; [assumption |].
        rewrite Ht2, Ht1 in F3 |- *.
        repeat split; [assumption | cbn; congruence].
  - intros e w1 H. left. exact H.
Qed.

Lemma active_bill_docs_of_bills userId tableNumber s' s :
  tableBills s' = tableBills s ->
  active_bill_docs userId tableNumber s' = active_bill_docs userId tableNumber s.
Proof. unfold active_bill_docs. now intros ->. Qed.

Lemma ensures_bind_ret {A B : Type} (a : A) (k : A -> M B) w Q E :
  ensures (k a) w Q E -> ensures (bind (ret a) k) w Q E.
Proof. intros H. exact H. Qed.

(** The calls of the log that were made so far, as the facts in the context
    tell. *)
Ltac replay_calls :=
  cbn [store console_error];
  unfold Firebase.approval_calls; cbn [department_items];
  repeat match goal with
         | H : filter _ _ = _ |- _ => rewrite H
         | H : active_bill_docs _ _ _ = _ |- _ => rewrite H
         end;
  cbn [Firebase.accepted_calls Firebase.first_rejected Firebase.written fold_left
         call_at call_writes query app Nat.add];
  repeat (match goal with
          | H : fault _ = _ |- _ => rewrite H
          end;
          cbn [Firebase.accepted_calls Firebase.first_rejected Firebase.written fold_left
                 call_at call_writes query app Nat.add]).

(** The approval was interrupted by the rejection [H]. *)
Ltac interrupted_at H :=
  let F := fresh "F" in
  let Hs := fresh "Hs" in
  destruct H as (F & -> & Hs);
  replay_calls;
  split; [eexists; split; reflexivity |];
  rewrite Hs; reflexivity.

(** One department gets its record; the facts about the world before are
    [Hsc] and [Htc], those about the world after [Hs], [Ht] and [F]. *)
Ltac send_record Hsc Htc Hs Ht F :=
  eapply ensures_bind; [apply sendToDepartment_exact | |];
  [ intros [] ? (F & Hs & Ht); rewrite Htc in F, Ht; rewrite Hsc, Htc in Hs
  | let H := fresh "H" in
    intros ? ? H; rewrite Htc, Hsc in H; interrupted_at H ].

Lemma approvePendingOrder_log pendingOrderId pendingOrder w :
  let calls := approval_calls pendingOrderId pendingOrder (store w) (tick w) in
  ensures (approvePendingOrder fault clock autoId pendingOrderId pendingOrder) w
    (fun orderId w' =>
       orderId = autoId (2 + tick w)
       /\ first_rejected calls = None
       /\ store w' = written (accepted_calls calls) (store w))
    (fun e w' =>
       (exists n, first_rejected calls = Some n /\ e = Rejected n)
       /\ store w' = written (accepted_calls calls) (store w)).
Proof.
  intros calls. subst calls.
  unfold approvePendingOrder. apply ensures_try_rethrow.
  apply ensures_now. intros w1 Hs1 Ht1.
  eapply ensures_bind; [apply addOrder_exact | |].
  2: { intros e w2 H. rewrite Ht1, Hs1 in H. interrupted_at H. }
  intros orderId w2 (F2 & -> & Hs2 & Ht2).
  rewrite Ht1 in F2, Ht2. rewrite Hs1, Ht1 in Hs2.
  eapply ensures_bind; [apply getMenuItems_exact | |].
  2: { intros e w3 H. rewrite Ht2, Hs2 in H. interrupted_at H. }
  intros menuItems w3 (F3 & -> & Hs3 & Ht3).
  rewrite Ht2 in F3, Ht3. rewrite Hs2 in Hs3.
  replace (menu_docs (po_userId pendingOrder) (store w2))
    with (menu_docs (po_userId pendingOrder) (store w)) by (rewrite Hs2; reflexivity).
  rewrite splitItemsByDepartment_filter. rewrite Ht1.
  cbn [fst snd].
  destruct (filter (fun i => negb (is_bar_item _ i)) (po_items pendingOrder))
    as [|kitchenItem kitchenItems] eqn:Hk;
  destruct (filter (is_bar_item _) (po_items pendingOrder))
    as [|barItem barItems] eqn:Hb;
  cbn [List.length Nat.ltb Nat.leb].
  all: [> apply ensures_bind_ret; pose proof Hs3 as Hs4; pose proof Ht3 as Ht4
        | apply ensures_bind_ret; pose proof Hs3 as Hs4; pose proof Ht3 as Ht4
        | send_record Hs3 Ht3 Hs4 Ht4 F4
        | send_record Hs3 Ht3 Hs4 Ht4 F4 ].
  all: [> apply ensures_bind_ret; pose proof Hs4 as Hs5; pose proof Ht4 as Ht5
        | send_record Hs4 Ht4 Hs5 Ht5 F5
        | apply ensures_bind_ret; pose proof Hs4 as Hs5; pose proof Ht4 as Ht5
        | send_record Hs4 Ht4 Hs5 Ht5 F5 ].
  all: eapply ensures_bind; [apply addToTableBill_exact | |].
  all: [> intros [] w6 (F6 & Hbill) | intros e w6 H
        | intros [] w6 (F6 & Hbill) | intros e w6 H
        | intros [] w6 (F6 & Hbill) | intros e w6 H
        | intros [] w6 (F6 & Hbill) | intros e w6 H ].
  all: first
    [ rewrite Ht5, Hs5 in H;
      rewrite (active_bill_docs_of_bills _ _ _ (store w)) in H by reflexivity;
      destruct (active_bill_docs (po_userId pendingOrder)
                  (po_tableNumber pendingOrder) (store w))
        as [|[id old] rest] eqn:Hq;
      destruct H as [H | [F6 H]]; interrupted_at H
    | idtac ].
  all: (rewrite Ht5 in F6; rewrite Ht5, Hs5 in Hbill;
            rewrite (active_bill_docs_of_bills _ _ _ (store w)) in Hbill by reflexivity;
            destruct (active_bill_docs (po_userId pendingOrder)
                        (po_tableNumber pendingOrder) (store w))
              as [|[id old] rest] eqn:Hq;
            destruct Hbill as (F7 & Hs6 & Ht6);
            (eapply ensures_bind; [apply deleteDoc_exact | |];
             [ intros [] w7 (F8 & Hs7 & Ht7); rewrite Ht6 in F8; rewrite Hs6 in Hs7;
               apply ensures_ret; split; [reflexivity |];
               replay_calls; split; [reflexivity | rewrite Hs7; reflexivity]
             | intros e w7 H; rewrite Ht6, Hs6 in H; interrupted_at H ])).
Qed.

End ApprovalLog.

(** ** Approval: failures, retries, what is written *)

Section ApprovalProperties.

Import Firebase.

Variable fault : nat -> bool.
Variable clock : nat -> Timestamp.
Variable autoId : nat -> DocId.

Local Abbreviation no_fault_from := (Firebase.no_fault_from fault).
Local Abbreviation rejected_from := (Firebase.rejected_from fault).

(** When no call is rejected, a call that can only fail by a rejected call
    returns. *)
Lemma ensures_returns {A : Type} (m : M A) w Q (E : Error -> World -> Prop) :
  ensures m w Q E ->
  (forall e w', E e w' -> rejected_from w e) ->
  no_fault_from (tick w) ->
  exists a w', m w = (Ok a, w') /\ Q a w'.
Proof.
  unfold ensures. intros Hm HE Hnf.
  destruct (m w) as [[a|e] w']; [eauto |].
  destruct (HE _ _ Hm) as (n & _ & Hf & Hn).
  rewrite (Hnf n Hn) in Hf. discriminate.
Qed.

(** X7.  [approvePendingOrder] makes its SDK calls in a fixed order: it
    stores the order, reads the menu, stores the record of the kitchen and
    the record of the bar (each only when the department has items), reads
    the bill of the table, writes the bill (merging into the active bill, or
    creating one) and deletes the pending order.  It stops at the first call
    that is rejected and throws that rejection, never a missing document;
    the store is then exactly what the calls accepted before it have
    written: nothing is rolled back, and nothing else is written.  It
    returns, with the id of the stored order, exactly when no call is
    rejected, and the pending order is removed exactly then. *)
Theorem approvePendingOrder_stops_at_first_rejection :
  forall (pendingOrderId : DocId) (pendingOrder : PendingOrder) (w : World),
    let calls :=
      approval_calls clock autoId pendingOrderId pendingOrder (store w) (tick w) in
    let run := approvePendingOrder fault clock autoId pendingOrderId pendingOrder w in
    fst run = match first_rejected fault calls with
              | Some n => Throw (Rejected n)
              | None => Ok (autoId (2 + tick w))
              end
    /\ store (snd run) = written (accepted_calls fault calls) (store w)
    /\ pendingOrders (store (snd run))
       = match fst run with
         | Ok _ => remove_docs pendingOrderId (pendingOrders (store w))
         | Throw _ => pendingOrders (store w)
         end.
Proof.
  intros pendingOrderId pendingOrder w calls run. subst calls run.
  pose proof (approvePendingOrder_log fault clock autoId pendingOrderId pendingOrder w)
    as Hlog.
  pose proof (approvePendingOrder_outcome fault clock autoId pendingOrderId
                pendingOrder w) as H.
  cbv zeta in Hlog, H. unfold ensures in Hlog, H.
  destruct (approvePendingOrder fault clock autoId pendingOrderId pendingOrder w)
    as [[orderId|e] w']; cbn [fst snd].
  - destruct Hlog as (-> & -> & Hstore).
    destruct H as (_ & timestamp & kid & kt & bid & bt & bills & _ & _ & Hpending).
    split; [reflexivity |]. split; [exact Hstore |].
    rewrite Hpending. reflexivity.
  - destruct Hlog as ((n & -> & ->) & Hstore).
    destruct H as (_ & Hpending & _).
    split; [reflexivity |]. split; [exact Hstore | exact Hpending].
Qed.

(** X8.  Nothing is rolled back, so a second attempt repeats the writes of
    the first.  When the order is written and the next call, the reading of
    the menu, is rejected, [approvePendingOrder] throws with the order
    stored; when it is then called again and nothing is rejected, it returns
    and the order is stored twice, under two document ids. *)
Theorem approvePendingOrder_retry_stores_order_twice :
  forall (pendingOrderId : DocId) (pendingOrder : PendingOrder) (w : World),
    fault (S (S (tick w))) = false ->
    fault (S (S (S (tick w)))) = true ->
    no_fault_from (S (S (S (S (tick w))))) ->
    let first := approvePendingOrder fault clock autoId pendingOrderId pendingOrder w in
    let second :=
      approvePendingOrder fault clock autoId pendingOrderId pendingOrder (snd first) in
    fst first = Throw (Rejected (S (S (S (tick w)))))
    /\ pendingOrders (store (snd first)) = pendingOrders (store w)
    /\ exists orderId timestamp,
         fst second = Ok orderId
         /\ orders (store (snd second))
            = (orders (store w)
                 ++ [(autoId (S (S (tick w))),
                      approved_order pendingOrder (clock (S (tick w))));
                     (orderId, approved_order pendingOrder timestamp)])%list
         /\ has_doc pendingOrderId (pendingOrders (store (snd second))) = false.
Proof.
  intros pendingOrderId pendingOrder w H2 H3 Hnf first second.
  assert (Hfirst :
    first
    = (Throw (Rejected (S (S (S (tick w))))),
       console_error "Error approving order:"
         (console_error "Error fetching menu items:"
            (refuse
               (next (next (next w (store w)) (store w))
                  (coll_set ordersC
                     (orders (store w)
                        ++ [(autoId (S (S (tick w))),
                             approved_order pendingOrder (clock (S (tick w))))])%list
                     (store w))))))).
  { subst first.
    unfold approvePendingOrder, try_rethrow at 1, bind at 1, Timestamp_now at 1.
    unfold bind at 1, addOrder, try_rethrow at 1, bind at 1, Timestamp_now at 1, addDoc.
    cbn [tick next store coll_accepts ordersC]. rewrite H2.
    unfold bind at 1, getMenuItems, try_rethrow at 1, bind at 1, getDocs.
    cbn [tick next store]. rewrite H3. reflexivity. }
  subst second. rewrite Hfirst. cbn [fst snd].
  split; [reflexivity |]. split; [reflexivity |].
  set (w1 := console_error _ _).
  assert (Hsecond : exists orderId w2,
            approvePendingOrder fault clock autoId pendingOrderId pendingOrder w1
            = (Ok orderId, w2)
            /\ exists timestamp,
                 orders (store w2)
                 = (orders (store w1)
                      ++ [(orderId, approved_order pendingOrder timestamp)])%list
                 /\ has_doc pendingOrderId (pendingOrders (store w2)) = false).
  { destruct (ensures_returns _ w1 _ _
                (approvePendingOrder_outcome fault clock autoId pendingOrderId
                   pendingOrder w1))
      as (orderId & w2 & E & _ & timestamp & kid & kt & bid & bt & bills & _ & _ & Hstore).
    - now intros e w' [Hr _].
    - exact Hnf.
    - exists orderId, w2. split; [exact E |]. exists timestamp. rewrite Hstore.
      split; [reflexivity | apply has_doc_remove_docs]. }
  destruct Hsecond as (orderId & w2 & E & timestamp & Horders & Hpending).
  exists orderId, timestamp. rewrite E. cbn [fst snd].
  split; [reflexivity |]. split; [| exact Hpending].
  rewrite Horders. subst w1.
  cbn [store console_error refuse next coll_set ordersC orders].
  now rewrite <- app_assoc.
Qed.

(** *** An approval and the other owners *)

Lemma unique_doc {D : Type} (docs : list (Doc D)) id (d d' : D) :
  NoDup (map fst docs) -> In (id, d) docs -> In (id, d') docs -> d = d'.
Proof.
  induction docs as [|[i x] docs IH]; simpl; intros Hnd H1 H2; [contradiction |].
  inversion Hnd as [|? ? Hnotin Hnd']; subst.
  destruct H1 as [[= -> ->] | H1], H2 as [[= <-] | H2].
  - reflexivity.
  - elim Hnotin. apply in_map_iff. now exists (id, d').
  - elim Hnotin. apply in_map_iff. now exists (i, d).
  - now apply IH.
Qed.

(** An update of the document of one owner is not seen in the documents of
    another owner. *)
Lemma update_docs_other_owner {D : Type} (owner : D -> string) id (f : D -> D)
    (docs : list (Doc D)) (old : D) (other : string) :
  NoDup (map fst docs) ->
  In (id, old) docs ->
  owner old <> other ->
  (forall d, owner (f d) = owner d) ->
  filter (fun d => String.eqb (owner (snd d)) other) (update_docs id f docs)
  = filter (fun d => String.eqb (owner (snd d)) other) docs.
Proof.
  intros Hnd Hin Hother Hf.
  assert (Hall : forall d, In d docs -> String.eqb (fst d) id = true -> d = (id, old)).
  { intros [i x] Hd Hi. simpl in Hi. apply String.eqb_eq in Hi. subst i.
    f_equal. now apply (unique_doc docs id). }
  clear Hnd Hin. unfold update_docs.
  induction docs as [|[i x] docs IH]; simpl; [reflexivity |].
  rewrite IH by (intros; apply Hall; simpl; auto).
  destruct (String.eqb i id) eqn:Ei; simpl; [| reflexivity].
  rewrite Hf.
  injection (Hall (i, x) (or_introl eq_refl) Ei) as -> ->.
  apply String.eqb_neq in Hother. now rewrite Hother.
Qed.

Lemma approval_progress_other_owner pendingOrder s s' other :
  approval_progress pendingOrder s s' ->
  NoDup (map fst (tableBills s)) ->
  other <> po_userId pendingOrder ->
  menuItems s' = menuItems s
  /\ filter (fun d => String.eqb (od_userId (snd d)) other) (orders s')
     = filter (fun d => String.eqb (od_userId (snd d)) other) (orders s)
  /\ (forall department,
        filter (fun d => String.eqb (do_userId (snd d)) other)
          (coll_get (departmentOrdersC department) s')
        = filter (fun d => String.eqb (do_userId (snd d)) other)
            (coll_get (departmentOrdersC department) s))
  /\ filter (fun d => String.eqb (tb_userId (snd d)) other) (tableBills s')
     = filter (fun d => String.eqb (tb_userId (snd d)) other) (tableBills s).
Proof.
  intros (Hmenu & Horders & Hdept & Hbills) Hnd Hother.
  assert (Hneq : String.eqb (po_userId pendingOrder) other = false)
    by (apply String.eqb_neq; congruence).
  split; [exact Hmenu |]. split; [| split].
  - destruct Horders as [-> | (orderId & timestamp & ->)]; [reflexivity |].
    rewrite filter_app. simpl. rewrite Hneq. apply app_nil_r.
  - intros department.
    destruct (Hdept department) as [-> | (id & orderId & items & createdAt & ->)];
      [reflexivity |].
    rewrite filter_app. simpl. rewrite Hneq. apply app_nil_r.
  - destruct Hbills as [-> | Hbilled]; [reflexivity |].
    unfold billed in Hbilled.
    destruct (limit 1 (by_id (where_ (active_bill_of (po_userId pendingOrder)
                                        (po_tableNumber pendingOrder)) (tableBills s))))
      as [|[id old] rest] eqn:Hq.
    + destruct Hbilled as (id & createdAt & updatedAt & ->).
      rewrite filter_app. simpl. rewrite Hneq. apply app_nil_r.
    + destruct Hbilled as (updatedAt & ->).
      assert (Hin : In (id, old) (limit 1 (by_id (where_ (active_bill_of
                       (po_userId pendingOrder) (po_tableNumber pendingOrder))
                       (tableBills s))))) by (rewrite Hq; now left).
      apply limit_by_id_where_In in Hin. destruct Hin as [Hin Hactive].
      apply (update_docs_other_owner tb_userId id _ _ old); auto.
      simpl in Hactive. unfold active_bill_of in Hactive.
      apply andb_true_iff in Hactive. destruct Hactive as [Hactive _].
      apply andb_true_iff in Hactive. destruct Hactive as [Hactive _].
      apply String.eqb_eq in Hactive. congruence.
Qed.

Lemma filter_swap {A : Type} (p q : A -> bool) (l : list A) :
  filter p (filter q l) = filter q (filter p l).
Proof.
  induction l as [|x l IH]; [reflexivity |].
  cbn [filter]. destruct (p x) eqn:Hp, (q x) eqn:Hq; cbn [filter];
    rewrite ?Hp, ?Hq, IH; reflexivity.
Qed.

(** X9.  An approval leaves the orders, the department records and the
    bills of the other owners alone, and the menu: when the document ids of
    the bills are unique, they are after the call what they were before it,
    whether the call returns or throws.  The pending orders are another
    matter.  The approval deletes the pending order by the id it is given,
    without looking at its owner: when the call returns, the document with
    that id is gone, also when it belongs to another owner than the one the
    approval wrote for; no other pending order is touched, and a call that
    throws touches none. *)
Theorem approvePendingOrder_leaves_other_owners :
  forall (pendingOrderId : DocId) (pendingOrder : PendingOrder) (w : World)
         (other : string),
    NoDup (map fst (tableBills (store w))) ->
    other <> po_userId pendingOrder ->
    let s := store w in
    let run := approvePendingOrder fault clock autoId pendingOrderId pendingOrder w in
    let s' := store (snd run) in
    menuItems s' = menuItems s
    /\ filter (fun d => String.eqb (od_userId (snd d)) other) (orders s')
       = filter (fun d => String.eqb (od_userId (snd d)) other) (orders s)
    /\ (forall department,
          filter (fun d => String.eqb (do_userId (snd d)) other)
            (coll_get (departmentOrdersC department) s')
          = filter (fun d => String.eqb (do_userId (snd d)) other)
              (coll_get (departmentOrdersC department) s))
    /\ filter (fun d => String.eqb (tb_userId (snd d)) other) (tableBills s')
       = filter (fun d => String.eqb (tb_userId (snd d)) other) (tableBills s)
    /\ match fst run with
       | Ok _ =>
           pendingOrders s'
           = filter (fun d => negb (String.eqb (fst d) pendingOrderId)) (pendingOrders s)
           /\ filter (fun d => String.eqb (po_userId (snd d)) other) (pendingOrders s')
              = filter (fun d => negb (String.eqb (fst d) pendingOrderId))
                  (filter (fun d => String.eqb (po_userId (snd d)) other)
                     (pendingOrders s))
       | Throw _ => pendingOrders s' = pendingOrders s
       end.
Proof.
  intros pendingOrderId pendingOrder w other Hnd Hother s run s'. subst s run s'.
  pose proof (approvePendingOrder_outcome fault clock autoId pendingOrderId
                pendingOrder w) as H.
  cbv zeta in H. unfold ensures in H.
  destruct (approvePendingOrder fault clock autoId pendingOrderId pendingOrder w)
    as [[orderId|e] w']; cbn [fst snd].
  - destruct H as (_ & timestamp & kid & kt & bid & bt & bills & _ & Hprogress & Hstore).
    destruct (approval_progress_other_owner pendingOrder _ _ other Hprogress Hnd Hother)
      as (Hmenu & Horders & Hdept & Hbills).
    repeat (split; [assumption |]).
    assert (Hpending : pendingOrders (store w')
                       = remove_docs pendingOrderId (pendingOrders (store w)))
      by (rewrite Hstore; reflexivity).
    rewrite Hpending. unfold remove_docs. split; [reflexivity |].
    apply filter_swap.
  - destruct H as (_ & Hpending & Hprogress).
    destruct (approval_progress_other_owner pendingOrder _ _ other Hprogress Hnd Hother)
      as (Hmenu & Horders & Hdept & Hbills).
    repeat (split; [assumption |]).
    exact Hpending.
Qed.

(** *** An approval when nothing is rejected *)

Lemma approvePendingOrder_returns pendingOrderId pendingOrder w :
  no_fault_from (tick w) ->
  let userId := po_userId pendingOrder in
  let menu := map menu_item_of_doc (menu_docs userId (store w)) in
  let kitchenItems :=
    filter (fun item => negb (is_bar_item menu item)) (po_items pendingOrder) in
  let barItems := filter (is_bar_item menu) (po_items pendingOrder) in
  exists orderId w',
    approvePendingOrder fault clock autoId pendingOrderId pendingOrder w = (Ok orderId, w')
    /\ tick w <= tick w'
    /\ exists timestamp kid kt bid bt bills,
         billed userId (po_tableNumber pendingOrder) (po_items pendingOrder)
           (tableBills (store w)) bills
         /\ orders (store w')
            = (orders (store w) ++ [(orderId, approved_order pendingOrder timestamp)])%list
         /\ kitchenOrders (store w')
            = (kitchenOrders (store w)
                 ++ new_department_docs kid kt orderId userId kitchenItems kitchen)%list
         /\ barOrders (store w')
            = (barOrders (store w)
                 ++ new_department_docs bid bt orderId userId barItems bar)%list
         /\ tableBills (store w') = bills.
Proof.
  intros Hnf userId menu kitchenItems barItems.
  destruct (ensures_returns _ w _ _
              (approvePendingOrder_outcome fault clock autoId pendingOrderId
                 pendingOrder w))
    as (orderId & w' & E & Ht & timestamp & kid & kt & bid & bt & bills
        & Hbilled & _ & Hstore).
  - now intros e w' [Hr _].
  - exact Hnf.
  - exists orderId, w'. split; [exact E |]. split; [exact Ht |].
    exists timestamp, kid, kt, bid, bt, bills.
    split; [exact Hbilled |]. rewrite Hstore. repeat split.
Qed.

Lemma limit_one {D : Type} (docs : list (Doc D)) doc rest :
  limit 1 docs = doc :: rest -> rest = [].
Proof.
  unfold limit. destruct docs as [|d docs]; simpl; [discriminate |].
  now intros [= _ <-].
Qed.

(** The active bill of the table after billing. *)
Lemma billed_active userId tableNumber items bills bills' :
  billed userId tableNumber items bills bills' ->
  exists id data,
    limit 1 (by_id (where_ (active_bill_of userId tableNumber) bills')) = [(id, data)]
    /\ match limit 1 (by_id (where_ (active_bill_of userId tableNumber) bills)) with
       | (id0, old) :: _ =>
           id = id0 /\ exists updatedAt, data = merged_bill old items updatedAt old
       | [] =>
           exists createdAt updatedAt,
             data = new_bill userId tableNumber items createdAt updatedAt
       end.
Proof.
  unfold billed.
  destruct (limit 1 (by_id (where_ (active_bill_of userId tableNumber) bills)))
    as [|[id old] rest] eqn:Hq.
  - intros (id & createdAt & updatedAt & ->).
    exists id, (new_bill userId tableNumber items createdAt updatedAt).
    split; [| eauto].
    assert (Hnone : where_ (active_bill_of userId tableNumber) bills = []).
    { apply by_id_nil. unfold limit in Hq.
      destruct (by_id _); [reflexivity | discriminate]. }
    rewrite where_app, Hnone. unfold where_, active_bill_of. simpl.
    now rewrite !String.eqb_refl.
  - intros (updatedAt & ->).
    exists id, (merged_bill old items updatedAt old).
    split; [| eauto].
    rewrite update_docs_where by reflexivity.
    rewrite update_docs_by_id, update_docs_limit, Hq.
    rewrite (limit_one _ _ _ Hq). simpl. now rewrite String.eqb_refl.
Qed.

(** X10.  When no call is rejected, an approval puts the items of the order
    on the bill of its table.  If the table had an active bill, the same bill
    afterwards holds its former items followed by the items of the order,
    and its subtotal, tax and total have grown by [S2], by [S2 * 0.15] and
    by [S2 + S2 * 0.15], where [S2] is the sum of the line totals of the
    items, added from left to right starting from [0].  If the table had
    none, a new active bill holds the items, [S2], [S2 * 0.15] and
    [S2 + S2 * 0.15].  All sums and products are those of doubles, each
    rounded, in the order in which the code computes them.  The
    [totalAmount] of the order is not consulted. *)
Theorem approvePendingOrder_bills_the_items :
  forall (pendingOrderId : DocId) (pendingOrder : PendingOrder) (w : World),
    no_fault_from (tick w) ->
    let userId := po_userId pendingOrder in
    let tableNumber := po_tableNumber pendingOrder in
    let items := po_items pendingOrder in
    let S2 := fold_left (fun sum item => (sum + item_total item)%float) items 0%float in
    exists orderId w' bill,
      approvePendingOrder fault clock autoId pendingOrderId pendingOrder w = (Ok orderId, w')
      /\ fst (getTableBill fault userId tableNumber w') = Ok (Some bill)
      /\ match fst (getTableBill fault userId tableNumber w) with
         | Ok (Some before) =>
             bill_id bill = bill_id before
             /\ tb_items (bill_data bill) = (tb_items (bill_data before) ++ items)%list
             /\ tb_subtotal (bill_data bill) = (tb_subtotal (bill_data before) + S2)%float
             /\ tb_tax (bill_data bill) = (tb_tax (bill_data before) + S2 * 0.15)%float
             /\ tb_total (bill_data bill)
                = (tb_total (bill_data before) + (S2 + S2 * 0.15))%float
         | Ok None =>
             tb_status (bill_data bill) = "active"
             /\ tb_items (bill_data bill) = items
             /\ tb_subtotal (bill_data bill) = S2
             /\ tb_tax (bill_data bill) = (S2 * 0.15)%float
             /\ tb_total (bill_data bill) = (S2 + S2 * 0.15)%float
         | Throw _ => False
         end.
Proof.
  intros pendingOrderId pendingOrder w Hnf userId tableNumber items S2.
  destruct (approvePendingOrder_returns pendingOrderId pendingOrder w Hnf)
    as (orderId & w' & E & Ht & timestamp & kid & kt & bid & bt & bills
        & Hbilled & _ & _ & _ & Hbills).
  destruct (billed_active _ _ _ _ _ Hbilled) as (id & data & Hafter & Hdata).
  exists orderId, w', {| bill_id := id; bill_data := data |}.
  split; [exact E |].
  rewrite (getTableBill_ok fault userId tableNumber w') by (apply Hnf; lia).
  rewrite (getTableBill_ok fault userId tableNumber w) by (apply Hnf; lia).
  unfold active_bill_docs. rewrite Hbills.
  fold userId tableNumber in Hafter, Hdata. rewrite Hafter. cbn [fst snd].
  split; [reflexivity |].
  destruct (limit 1 (by_id (where_ (active_bill_of userId tableNumber)
                              (tableBills (store w))))) as [|[id0 old] rest].
  - destruct Hdata as (createdAt & updatedAt & ->). repeat split.
  - destruct Hdata as (-> & updatedAt & ->). repeat split.
Qed.

(** X11.  When no call is rejected, the approved order is stored under the
    document id that [approvePendingOrder] returns, and the department
    records of the approval refer to that id.  [getOrders] lists the order
    with the status [approved], the payment status [pending], the items and
    the total amount of the pending order, but under the id of the pending
    order: the [id] property that the stored document inherited from the
    pending order hides the document id. *)
Theorem approved_order_is_listed_under_pending_id :
  forall (pendingOrderId : DocId) (pendingOrder : PendingOrder) (w : World),
    no_fault_from (tick w) ->
    exists orderId w' data listed,
      approvePendingOrder fault clock autoId pendingOrderId pendingOrder w = (Ok orderId, w')
      /\ orders (store w') = (orders (store w) ++ [(orderId, data)])%list
      /\ fst (getOrders fault (po_userId pendingOrder) w') = Ok listed
      /\ In (order_of_doc (orderId, data)) listed
      /\ order_id (order_of_doc (orderId, data)) = po_id pendingOrder
      /\ order_status (order_of_doc (orderId, data)) = "approved"
      /\ order_paymentStatus (order_of_doc (orderId, data)) = "pending"
      /\ order_items (order_of_doc (orderId, data)) = po_items pendingOrder
      /\ order_totalAmount (order_of_doc (orderId, data)) = po_totalAmount pendingOrder
      /\ (forall department record,
            In record (coll_get (departmentOrdersC department) (store w')) ->
            ~ In record (coll_get (departmentOrdersC department) (store w)) ->
            do_orderId (snd record) = orderId).
Proof.
  intros pendingOrderId pendingOrder w Hnf.
  destruct (approvePendingOrder_returns pendingOrderId pendingOrder w Hnf)
    as (orderId & w' & E & Ht & timestamp & kid & kt & bid & bt & bills
        & _ & Horders & Hkitchen & Hbar & _).
  exists orderId, w', (approved_order pendingOrder timestamp).
  eexists. split; [exact E |]. split; [exact Horders |].
  rewrite (getOrders_ok fault (po_userId pendingOrder) w') by (apply Hnf; lia).
  split; [reflexivity |].
  split.
  { apply in_map. unfold order_docs, orderBy_desc. apply stable_sort_In.
    apply In_where. rewrite Horders. split.
    - apply in_or_app. right. now left.
    - apply String.eqb_refl. }
  repeat (split; [reflexivity |]).
  intros department record Hin Hnew.
  assert (Hcases : In record
            (new_department_docs kid kt orderId (po_userId pendingOrder)
               (filter (fun item => negb (is_bar_item
                          (map menu_item_of_doc
                             (menu_docs (po_userId pendingOrder) (store w))) item))
                  (po_items pendingOrder)) kitchen)
          \/ In record
               (new_department_docs bid bt orderId (po_userId pendingOrder)
                  (filter (is_bar_item
                             (map menu_item_of_doc
                                (menu_docs (po_userId pendingOrder) (store w))))
                     (po_items pendingOrder)) bar)).
  { destruct department; cbn [coll_get departmentOrdersC kitchenOrdersC barOrdersC] in Hin, Hnew.
    - rewrite Hkitchen in Hin. apply in_app_or in Hin. destruct Hin; [contradiction | auto].
    - rewrite Hbar in Hin. apply in_app_or in Hin. destruct Hin; [contradiction | auto]. }
  unfold new_department_docs in Hcases. clear Hkitchen Hbar Hin Hnew.
  destruct Hcases as [H | H];
    destruct (filter _ (po_items pendingOrder)); simpl in H;
    [contradiction | destruct H as [<- | []]; reflexivity
    | contradiction | destruct H as [<- | []]; reflexivity].
Qed.

End ApprovalProperties.

(** ** Completion of a department record *)

Section CompletionProperties.

Import Firebase.

Variable fault : nat -> bool.
Variable clock : nat -> Timestamp.

Local Abbreviation no_fault_from := (Firebase.no_fault_from fault).
Local Abbreviation listDepartmentOrders := (Firebase.listDepartmentOrders fault).

(** X12.  [markOrderAsComplete] looks for the records of the order in the
    collection of the department.  When there is none it returns and changes
    nothing.  When there are some it completes the one with the least
    document id: that document gets the status [completed] and a completion
    time, its other fields stay, and the documents with another id and the
    other collections stay as they are.  When it throws, the error is a
    rejected SDK call and nothing has changed. *)
Theorem markOrderAsComplete_completes_one_record :
  forall (orderId : DocId) (department : Department) (w : World),
    let records := coll_get (departmentOrdersC department) (store w) in
    let found := filter (fun d => String.eqb (do_orderId (snd d)) orderId) records in
    match markOrderAsComplete fault clock orderId department w with
    | (Ok _, w') =>
        (found = [] /\ store w' = store w)
        \/ (exists id data completedAt,
              In (id, data) found
              /\ (forall d, In d found -> String.leb id (fst d) = true)
              /\ store w'
                 = coll_set (departmentOrdersC department)
                     (update_docs id (completed completedAt) records) (store w))
    | (Throw e, w') =>
        store w' = store w
        /\ exists n, e = Rejected n /\ fault n = true /\ tick w <= n
    end.
Proof.
  intros orderId department w records found.
  pose proof (markOrderAsComplete_outcome fault clock orderId department w) as H.
  unfold ensures in H.
  destruct (markOrderAsComplete fault clock orderId department w) as [[[]|e] w'];
    [| exact H].
  destruct H as [_ H].
  fold records in H.
  change (where_ (fun d => String.eqb (do_orderId d) orderId) records) with found in H.
  unfold limit in H.
  destruct (by_id found) as [|[id data] rest] eqn:Hq; simpl in H.
  - left. split; [now apply by_id_nil | exact H].
  - right. destruct H as (completedAt & H).
    exists id, data, completedAt. split; [| split].
    + apply In_by_id. rewrite Hq. now left.
    + intros d Hd. now apply (by_id_head_least found (id, data) rest).
    + exact H.
Qed.

Lemma departmentOrders_get_set department l s :
  coll_get (departmentOrdersC department) (coll_set (departmentOrdersC department) l s) = l.
Proof. now destruct department. Qed.

Lemma update_docs_orderBy_desc {D : Type} (field : D -> Timestamp) id (f : D -> D)
    (docs : list (Doc D)) :
  (forall d, field (f d) = field d) ->
  orderBy_desc field (update_docs id f docs) = update_docs id f (orderBy_desc field docs).
Proof.
  intros Hf. unfold orderBy_desc, update_docs. apply stable_sort_map.
  intros [ia da] [ib db]. unfold desc_le. simpl.
  destruct (String.eqb ia id), (String.eqb ib id); simpl; now rewrite ?Hf.
Qed.

Lemma department_docs_completed department userId id completedAt s :
  department_docs department userId
    (coll_set (departmentOrdersC department)
       (update_docs id (completed completedAt)
          (coll_get (departmentOrdersC department) s)) s)
  = update_docs id (completed completedAt) (department_docs department userId s).
Proof.
  unfold department_docs. rewrite departmentOrders_get_set.
  rewrite update_docs_where by reflexivity.
  now rewrite update_docs_orderBy_desc by reflexivity.
Qed.

Lemma map_update_docs {D B : Type} (g : Doc D -> B) id (f : D -> D) (docs : list (Doc D)) :
  (forall d, g (fst d, f (snd d)) = g d) ->
  map g (update_docs id f docs) = map g docs.
Proof.
  intros Hg. unfold update_docs. rewrite map_map. apply map_ext.
  intros [i x]. simpl. destruct (String.eqb i id); [apply (Hg (i, x)) | reflexivity].
Qed.

(** X13.  A completed order stays in the list of its department.  When no
    call is rejected, the list that [getKitchenOrders] or [getBarOrders]
    answers after [markOrderAsComplete] has the records of the list before,
    in the same order, with the same ids, items and timestamps; a record
    that differs from the one before is a completed one. *)
Theorem completed_order_stays_listed :
  forall (orderId : DocId) (department : Department) (userId : string) (w : World),
    no_fault_from (tick w) ->
    exists w' before after,
      markOrderAsComplete fault clock orderId department w = (Ok tt, w')
      /\ fst (listDepartmentOrders userId department w) = Ok before
      /\ fst (listDepartmentOrders userId department w') = Ok after
      /\ map dept_order_id after = map dept_order_id before
      /\ map dept_order_timestamp after = map dept_order_timestamp before
      /\ map (fun record => do_items (dept_order_data record)) after
         = map (fun record => do_items (dept_order_data record)) before
      /\ (forall record, In record after ->
            In record before \/ do_status (dept_order_data record) = "completed").
Proof.
  intros orderId department userId w Hnf.
  destruct (ensures_returns fault _ w _ _
              (markOrderAsComplete_outcome fault clock orderId department w))
    as ([] & w' & E & Ht & Hstore).
  - now intros e w' [_ Hr].
  - exact Hnf.
  - exists w'. eexists _, _. split; [exact E |].
    rewrite (listDepartmentOrders_ok fault userId department w) by (apply Hnf; lia).
    rewrite (listDepartmentOrders_ok fault userId department w') by (apply Hnf; lia).
    cbn [fst]. split; [reflexivity |]. split; [reflexivity |].
    destruct (limit 1 _) as [|doc rest] in Hstore.
    + rewrite Hstore. repeat split. auto.
    + destruct Hstore as (completedAt & ->).
      fold (completed completedAt). rewrite department_docs_completed.
      rewrite !map_map.
      repeat split; try (apply map_update_docs; reflexivity).
      intros record Hin. apply in_map_iff in Hin.
      destruct Hin as (d & <- & Hin). unfold update_docs in Hin.
      apply in_map_iff in Hin. destruct Hin as (d0 & <- & Hin).
      destruct d0 as [i x]. simpl.
      destruct (String.eqb i (fst doc)).
      * right. reflexivity.
      * left. now apply in_map.
Qed.

End CompletionProperties.

(** ** Writes of one document, reads, uploads *)

Section WriteProperties.

Import Firebase.

Variable fault : nat -> bool.
Variable clock : nat -> Timestamp.
Variable autoId : nat -> DocId.

(** X14.  The methods that write one document do all of their work or none.
    When [addMenuItem], [addOrder] or [addToTableBill] returns, exactly its
    one write has been made: the new menu item and the new order are stored
    under the returned id with the time of the server clock (the timestamp
    that the caller put on the order is replaced), and the bills have been
    billed.  When it throws, the store is as it was and the error is a
    rejected SDK call; or, for [addMenuItem] alone, it is the refusal by the
    SDK of a [department] that is present and [undefined], and the item had
    such a department. *)
Theorem single_writes_are_all_or_nothing :
  forall (w : World),
    (forall item,
       match addMenuItem fault clock autoId item w with
       | (Ok id, w') =>
           id = autoId (S (tick w))
           /\ md_department item <> Some department_undefined
           /\ store w'
              = coll_set menuItemsC
                  (menuItems (store w)
                     ++ [(id, stored_menu_item item (clock (tick w)))])%list
                  (store w)
       | (Throw e, w') =>
           store w' = store w
           /\ ((exists n, e = Rejected n /\ fault n = true /\ tick w <= n)
               \/ (e = InvalidArgument
                   /\ md_department item = Some department_undefined))
       end)
    /\ (forall order,
          match addOrder fault clock autoId order w with
          | (Ok id, w') =>
              id = autoId (S (tick w))
              /\ store w'
                 = coll_set ordersC
                     (orders (store w)
                        ++ [(id, stored_order order (clock (tick w)))])%list
                     (store w)
          | (Throw e, w') =>
              store w' = store w
              /\ exists n, e = Rejected n /\ fault n = true /\ tick w <= n
          end)
    /\ (forall userId tableNumber items,
          match addToTableBill fault clock autoId userId tableNumber items w with
          | (Ok _, w') =>
              exists bills,
                store w' = coll_set tableBillsC bills (store w)
                /\ billed userId tableNumber items (tableBills (store w)) bills
          | (Throw e, w') =>
              store w' = store w
              /\ exists n, e = Rejected n /\ fault n = true /\ tick w <= n
          end).
Proof.
  intros w. split; [| split].
  - intros item.
    pose proof (addMenuItem_outcome fault clock autoId item w) as H.
    unfold ensures in H.
    destruct (addMenuItem fault clock autoId item w) as [[id|e] w']; [| exact H].
    exact (proj2 H).
  - intros order.
    pose proof (addOrder_outcome fault clock autoId order w) as H.
    unfold ensures in H.
    destruct (addOrder fault clock autoId order w) as [[id|e] w']; [| exact H].
    exact (proj2 H).
  - intros userId tableNumber items.
    pose proof (addToTableBill_outcome fault clock autoId userId tableNumber items w) as H.
    unfold ensures in H.
    destruct (addToTableBill fault clock autoId userId tableNumber items w)
      as [[[]|e] w']; [| exact H].
    exact (proj2 H).
Qed.

Lemma order_docs_sorted userId s :
  StronglySorted placed_later_or_same (map order_of_doc (order_docs userId s)).
Proof.
  apply Sorted_StronglySorted.
  { intros a b c Hab Hbc. unfold placed_later_or_same in *. lia. }
  unfold order_docs, orderBy_desc.
  set (docs := where_ _ _). clearbody docs.
  assert (S : Sorted (fun a b : Doc OrderData =>
                        (od_timestamp (snd b) <= od_timestamp (snd a))%Z)
                     (stable_sort (desc_le od_timestamp) docs)).
  { apply stable_sort_Sorted; intros a b; unfold desc_le.
    - rewrite orb_true_iff, andb_true_iff, Z.ltb_lt, Z.eqb_eq. lia.
    - rewrite orb_false_iff, andb_false_iff, Z.ltb_ge. lia. }
  induction S as [|d l Sl IH Hd]; simpl; constructor; auto.
  destruct Hd; simpl; constructor. assumption.
Qed.

(** X15.  When the query is answered, [getOrders] returns one order per
    stored order document of the owner, newest first by the stored
    timestamp.  The id of a returned order is the [id] property of the stored
    document when it has one, and the document id otherwise. *)
Theorem getOrders_newest_first :
  forall (userId : string) (w : World),
    fault (tick w) = false ->
    exists docs,
      fst (getOrders fault userId w) = Ok (map order_of_doc docs)
      /\ Permutation docs
           (filter (fun d => String.eqb (od_userId (snd d)) userId) (orders (store w)))
      /\ StronglySorted placed_later_or_same (map order_of_doc docs)
      /\ (forall doc, In doc docs ->
            order_id (order_of_doc doc) = or_default (od_id (snd doc)) (fst doc)).
Proof.
  intros userId w H.
  exists (order_docs userId (store w)).
  rewrite getOrders_ok by assumption. cbn [fst].
  split; [reflexivity |].
  split; [apply stable_sort_perm |].
  split; [apply order_docs_sorted |].
  intros [id data] _. unfold order_of_doc. simpl.
  now destruct (od_id data).
Qed.

Variable downloadURL : string -> string.

(** X16.  [uploadImage] stores the file and then asks for its URL.  It
    returns the URL of the path only when both calls are accepted.  When the
    upload is rejected nothing is stored; when the upload is accepted and
    the request for the URL is rejected, the call throws although the file
    has been stored.  The database is never touched, and a failure logs one
    line. *)
Theorem uploadImage_may_store_and_throw :
  forall (file : File) (path : string) (w : World),
    let stored := (storage w ++ [(path, file)])%list in
    match uploadImage fault downloadURL file path w with
    | (Ok url, w') =>
        fault (tick w) = false /\ fault (S (tick w)) = false
        /\ url = downloadURL path
        /\ storage w' = stored
        /\ store w' = store w /\ console w' = console w
    | (Throw e, w') =>
        ((fault (tick w) = true /\ e = Rejected (tick w) /\ storage w' = storage w)
         \/ (fault (tick w) = false /\ fault (S (tick w)) = true
             /\ e = Rejected (S (tick w)) /\ storage w' = stored))
        /\ store w' = store w
        /\ console w' = (console w ++ ["Error uploading image:"])%list
    end.
Proof.
  intros file path w stored.
  unfold uploadImage, try_rethrow, bind, uploadBytes.
  destruct (fault (tick w)) eqn:F0; [simpl; auto 10 |].
  unfold getDownloadURL. cbn [tick].
  destruct (fault (S (tick w))) eqn:F1; simpl; auto 10.
Qed.

End WriteProperties.

(** ** Menu statistics *)

Lemma fold_left_flat_map {A B C : Type} (f : A -> C -> A) (g : B -> list C) (l : list B) :
  forall a,
    fold_left (fun acc b => fold_left f (g b) acc) l a = fold_left f (flat_map g l) a.
Proof.
  induction l as [|b l IH]; intros a; simpl; [reflexivity |].
  now rewrite fold_left_app, IH.
Qed.

Lemma StronglySorted_firstn {A : Type} (R : A -> A -> Prop) n (l : list A) :
  StronglySorted R l -> StronglySorted R (firstn n l).
Proof.
  revert l. induction n as [|n IH]; intros l H; [constructor |].
  destruct l as [|x l]; [constructor |].
  inversion H as [|? ? Hl Hx]; subst. simpl. constructor; [now apply IH |].
  rewrite Forall_forall in *. intros y Hy. apply Hx.
  rewrite <- (firstn_skipn n l). apply in_or_app. now left.
Qed.

Lemma NoDup_firstn {A : Type} n (l : list A) : NoDup l -> NoDup (firstn n l).
Proof.
  intros H. rewrite <- (firstn_skipn n l) in H.
  now apply NoDup_app_remove_r in H.
Qed.

Lemma In_firstn_In {A : Type} n (l : list A) x : In x (firstn n l) -> In x l.
Proof.
  intros H. rewrite <- (firstn_skipn n l). apply in_or_app. now left.
Qed.

Section PopularItems.

Import Firebase.

Variable menuItems : list MenuItem.

Lemma count_item_get k counts item :
  record_get k (count_item menuItems counts item)
  = if String.eqb (item_id item) k
    then Some {| ic_name := match record_get (item_id item) counts with
                            | Some e => ic_name e
                            | None => display_name menuItems item
                            end;
                 ic_orders := match record_get (item_id item) counts with
                              | Some e => ic_orders e
                              | None => 0
                              end + item_quantity item |}
    else record_get k counts.
Proof.
  unfold count_item.
  destruct (record_get (item_id item) counts) as [e|] eqn:G.
  - rewrite G, record_get_set. reflexivity.
  - rewrite record_get_set, String.eqb_refl, !record_get_set.
    destruct (String.eqb (item_id item) k); reflexivity.
Qed.

Lemma count_item_NoDup counts item :
  NoDup (map fst counts) -> NoDup (map fst (count_item menuItems counts item)).
Proof.
  intros H. unfold count_item.
  destruct (record_get (item_id item) counts) as [e|] eqn:G.
  - rewrite G. now apply record_set_NoDup.
  - rewrite record_get_set, String.eqb_refl. now do 2 apply record_set_NoDup.
Qed.

Lemma fold_count_item_NoDup items : forall counts,
  NoDup (map fst counts) ->
  NoDup (map fst (fold_left (count_item menuItems) items counts)).
Proof.
  induction items as [|item items IH]; intros counts H; simpl; [assumption |].
  apply IH. now apply count_item_NoDup.
Qed.

(** The entry of an id after the loop: the name it got at its first line,
    the quantities of its lines added up. *)
Lemma fold_count_item_get k items : forall counts,
  record_get k (fold_left (count_item menuItems) items counts)
  = match record_get k counts, lines_of k items with
    | None, [] => None
    | Some e, lines =>
        Some {| ic_name := ic_name e;
                ic_orders := ic_orders e + sum_Z (map item_quantity lines) |}
    | None, first :: lines =>
        Some {| ic_name := display_name menuItems first;
                ic_orders := sum_Z (map item_quantity (first :: lines)) |}
    end.
Proof.
  induction items as [|item items IH]; intros counts.
  - simpl. destruct (record_get k counts) as [[name n]|]; [| reflexivity].
    simpl. now rewrite Z.add_0_r.
  - cbn [fold_left]. rewrite IH, count_item_get. unfold lines_of. cbn [filter].
    fold (lines_of k items).
    destruct (String.eqb (item_id item) k) eqn:E.
    + apply String.eqb_eq in E. rewrite E.
      destruct (record_get k counts) as [e|]; cbn [ic_name ic_orders map sum_Z fold_right].
      * f_equal. f_equal. unfold sum_Z. lia.
      * reflexivity.
    + reflexivity.
Qed.

Lemma lines_of_nonempty k items : lines_of k items <> [] <-> In k (map item_id items).
Proof.
  unfold lines_of. rewrite filter_nonempty_In, in_map_iff. split.
  - intros (item & Hin & Hk). apply String.eqb_eq in Hk. eauto.
  - intros (item & Hk & Hin). exists item. split; [assumption |].
    now apply String.eqb_eq.
Qed.

Lemma itemOrderCounts_keys items k :
  In k (map fst (fold_left (count_item menuItems) items [])) <-> In k (map item_id items).
Proof.
  rewrite record_get_keys, fold_count_item_get, <- lines_of_nonempty. simpl.
  destruct (lines_of k items); split; congruence.
Qed.

Lemma itemOrderCounts_ids items :
  Permutation (map fst (fold_left (count_item menuItems) items [])) (ordered_ids items).
Proof.
  apply NoDup_Permutation.
  - apply fold_count_item_NoDup. constructor.
  - apply NoDup_nodup.
  - intros k. rewrite itemOrderCounts_keys. unfold ordered_ids. now rewrite nodup_In.
Qed.

Lemma itemOrderCounts_entry items k e :
  In (k, e) (fold_left (count_item menuItems) items []) ->
  ic_orders e = ordered_quantity k items
  /\ exists first lines,
       lines_of k items = first :: lines /\ ic_name e = display_name menuItems first.
Proof.
  intros Hin.
  apply record_get_In in Hin; [| apply fold_count_item_NoDup; constructor].
  rewrite fold_count_item_get in Hin. simpl in Hin. unfold ordered_quantity.
  destruct (lines_of k items) as [|first lines]; [discriminate |].
  injection Hin as <-. simpl. eauto.
Qed.

Variable getFullYear : Z -> Z.
Variable getMonth : Z -> Z.

(** X17.  The popular items of the statistics, for any orders and menu.
    There is one entry per distinct item id among the lines of the orders,
    up to five of them, most ordered first.  The count of an entry is the sum
    of the quantities of all lines with its id; its name is the name of the
    menu item with that id, or the name on the first such line when the menu
    has no such item or gives it no name.  An id that is left out has a count
    that is at most the count of every entry.  (The ids are plain keys of the
    counting object: none of them names an inherited property of a
    JavaScript object.) *)
Theorem popularItems_most_ordered_five :
  forall (ordersList : list Order),
    let lines := flat_map order_items ordersList in
    let result :=
      popularItems (menu_stats getFullYear getMonth ordersList menuItems) in
    List.length result = Nat.min 5 (List.length (ordered_ids lines))
    /\ NoDup (map pi_id result)
    /\ StronglySorted ordered_more_or_same result
    /\ (forall p, In p result ->
          In (pi_id p) (ordered_ids lines)
          /\ pi_orders p = ordered_quantity (pi_id p) lines
          /\ exists first rest,
               lines_of (pi_id p) lines = first :: rest
               /\ pi_name p = display_name menuItems first)
    /\ (forall id, In id (ordered_ids lines) -> ~ In id (map pi_id result) ->
          forall p, In p result -> (ordered_quantity id lines <= pi_orders p)%Z).
Proof.
  intros ordersList lines result. subst result. cbn [menu_stats popularItems].
  rewrite fold_left_flat_map. fold lines.
  set (counts := fold_left (count_item menuItems) lines []).
  set (entries := map (fun e => {| pi_id := fst e; pi_name := ic_name (snd e);
                                   pi_orders := ic_orders (snd e) |}) counts).
  set (sorted := stable_sort popular_le entries).
  assert (Hids : map pi_id entries = map fst counts)
    by (unfold entries; rewrite map_map; reflexivity).
  assert (Hperm : Permutation sorted entries) by apply stable_sort_perm.
  assert (Hkeys : Permutation (map pi_id sorted) (ordered_ids lines)).
  { rewrite (Permutation_map pi_id Hperm), Hids. apply itemOrderCounts_ids. }
  assert (Hnodup : NoDup (map pi_id sorted)).
  { apply (Permutation_NoDup (Permutation_sym Hkeys)). apply NoDup_nodup. }
  assert (Hsorted : StronglySorted ordered_more_or_same sorted).
  { apply Sorted_StronglySorted.
    { intros a b c. unfold ordered_more_or_same. lia. }
    apply stable_sort_Sorted; unfold popular_le, ordered_more_or_same; intros a b.
    - apply Z.leb_le.
    - rewrite Z.leb_gt. lia. }
  assert (Hlen : List.length sorted = List.length (ordered_ids lines)).
  { rewrite <- (Permutation_length Hkeys). now rewrite length_map. }
  assert (Hentry : forall p, In p sorted ->
            pi_orders p = ordered_quantity (pi_id p) lines
            /\ exists first rest,
                 lines_of (pi_id p) lines = first :: rest
                 /\ pi_name p = display_name menuItems first).
  { intros p Hp. apply (Permutation_in _ Hperm) in Hp.
    unfold entries in Hp. apply in_map_iff in Hp. destruct Hp as ([k e] & <- & Hin).
    simpl. now apply itemOrderCounts_entry. }
  unfold slice_first. repeat split.
  - rewrite length_firstn, Hlen. reflexivity.
  - rewrite <- firstn_map. now apply NoDup_firstn.
  - now apply StronglySorted_firstn.
  - apply (Permutation_in _ Hkeys). apply in_map. eapply In_firstn_In; eassumption.
  - apply Hentry. eapply In_firstn_In; eassumption.
  - apply Hentry. eapply In_firstn_In; eassumption.
  - intros id Hid Hout p Hp.
    apply (Permutation_in _ (Permutation_sym Hkeys)) in Hid.
    apply in_map_iff in Hid. destruct Hid as (p0 & <- & Hp0).
    rewrite <- (proj1 (Hentry p0 Hp0)).
    rewrite <- (firstn_skipn 5 sorted) in Hp0, Hsorted.
    apply in_app_or in Hp0. destruct Hp0 as [Hp0 | Hp0].
    + elim Hout. now apply in_map.
    + exact (StronglySorted_app_lt _ _ _ Hsorted p p0 Hp Hp0).
Qed.

End PopularItems.

Section StatisticsTotals.

Import Firebase.

Variable getFullYear : Z -> Z.
Variable getMonth : Z -> Z.

Lemma running_revenue_from (orders : list Order) : forall sum,
  (forall k,
     num_or_zero
       (fold_left (fun sum order => (sum + order_totalAmount order)%float)
          (firstn k orders) sum)
     = fold_left (fun sum order => (sum + order_totalAmount order)%float)
         (firstn k orders) sum) ->
  fold_left (fun sum order => (num_or_zero sum + order_totalAmount order)%float)
    orders sum
  = fold_left (fun sum order => (sum + order_totalAmount order)%float) orders sum.
Proof.
  induction orders as [|order orders IH]; intros sum H; [reflexivity |].
  pose proof (H 0) as H0. cbn [firstn fold_left] in H0.
  cbn [fold_left]. rewrite H0. apply IH.
  intros k. exact (H (S k)).
Qed.

(** X18.  In the statistics, the monthly revenue never lists months: it is
    empty for no order, and otherwise it is one entry under the key
    [NaN-NaN], whatever the months of the orders are and however many.  The
    revenue of that entry is the total revenue of the statistics, as long as
    no total so far is [NaN] or a negative zero, which the loop of the
    monthly revenue would restart from [0]. *)
Theorem monthlyRevenue_one_entry_with_the_total :
  forall (ordersList : list Order) (menuItems : list MenuItem),
    let stats := menu_stats getFullYear getMonth ordersList menuItems in
    monthlyRevenue stats
    = match ordersList with
      | [] => []
      | _ :: _ => [ {| month := "NaN-NaN"; revenue := running_revenue ordersList |} ]
      end
    /\ ((forall k, num_or_zero (revenue_so_far ordersList k)
                   = revenue_so_far ordersList k) ->
        running_revenue ordersList = totalRevenue stats).
Proof.
  intros ordersList menuItems stats. split.
  - apply calculateMonthlyRevenue_invalid_dates.
  - intros H. apply running_revenue_from. exact H.
Qed.

Variable fault : nat -> bool.

(** X19.  When its two queries are answered, [getMenuStats] counts the
    orders of the owner and nothing else, and writes nothing.  The number of
    orders is that of the stored orders of the owner; the views are those of
    the owner's menu items; the recent orders are ten of the owner's orders,
    or all of them when there are fewer, newest first, and no order that is
    left out is newer than one of them.  The total revenue is the sum of the
    total amounts of the owner's orders, added on doubles from [0] in the
    order of the listing, newest first: the recent orders, then the others. *)
Theorem getMenuStats_counts_the_orders_of_the_owner :
  forall (userId : string) (w : World),
    fault (tick w) = false ->
    fault (S (tick w)) = false ->
    let owned :=
      filter (fun d => String.eqb (od_userId (snd d)) userId) (orders (store w)) in
    exists stats w' older,
      getMenuStats fault getFullYear getMonth userId w = (Ok stats, w')
      /\ store w' = store w
      /\ totalOrders stats = List.length owned
      /\ totalRevenue stats
         = fold_left (fun sum order => (sum + order_totalAmount order)%float)
             (recentOrders stats ++ older) 0%float
      /\ totalViews stats
         = sum_Z (map stored_views
                    (filter (fun d => String.eqb (md_userId (snd d)) userId)
                       (menuItems (store w))))
      /\ List.length (recentOrders stats) = Nat.min 10 (List.length owned)
      /\ Permutation (recentOrders stats ++ older) (map order_of_doc owned)
      /\ StronglySorted placed_later_or_same (recentOrders stats ++ older)
      /\ StronglySorted placed_later_or_same (recentOrders stats)
      /\ (forall recent old, In recent (recentOrders stats) -> In old older ->
            placed_later_or_same recent old).
Proof.
  intros userId w H0 H1 owned.
  set (listed := map order_of_doc (order_docs userId (store w))).
  assert (Hperm : Permutation (order_docs userId (store w)) owned)
    by apply stable_sort_perm.
  assert (Hsorted : StronglySorted placed_later_or_same listed)
    by apply order_docs_sorted.
  eexists _, _, (skipn 10 listed).
  split; [apply getMenuStats_ok; assumption |].
  cbn [menu_stats totalOrders totalRevenue totalViews recentOrders store next].
  fold listed. unfold slice_first.
  split; [reflexivity |].
  split; [unfold listed; rewrite length_map; now apply Permutation_length |].
  split; [now rewrite firstn_skipn |].
  split; [apply totalViews_owner |].
  split.
  { rewrite length_firstn. unfold listed. rewrite length_map.
    now rewrite (Permutation_length Hperm). }
  split; [rewrite firstn_skipn; now apply Permutation_map |].
  split; [now rewrite firstn_skipn |].
  split; [now apply StronglySorted_firstn |].
  intros recent old Hrecent Hold.
  rewrite <- (firstn_skipn 10 listed) in Hsorted.
  exact (StronglySorted_app_lt _ _ _ Hsorted recent old Hrecent Hold).
Qed.

End StatisticsTotals.

(** ** From approval to completion *)

Section ApprovalFlow.

Import Firebase.

Variable fault : nat -> bool.
Variable clock : nat -> Timestamp.
Variable autoId : nat -> DocId.

Local Abbreviation no_fault_from := (Firebase.no_fault_from fault).
Local Abbreviation listDepartmentOrders := (Firebase.listDepartmentOrders fault).

(** The records of a department after an approval. *)
Lemma approvePendingOrder_department pendingOrderId pendingOrder w department :
  no_fault_from (tick w) ->
  let userId := po_userId pendingOrder in
  let menu := map menu_item_of_doc (menu_docs userId (store w)) in
  exists orderId w' id createdAt,
    approvePendingOrder fault clock autoId pendingOrderId pendingOrder w = (Ok orderId, w')
    /\ tick w <= tick w'
    /\ coll_get (departmentOrdersC department) (store w')
       = (coll_get (departmentOrdersC department) (store w)
            ++ new_department_docs id createdAt orderId userId
                 (department_items menu department (po_items pendingOrder))
                 department)%list.
Proof.
  intros Hnf userId menu.
  destruct (approvePendingOrder_returns fault clock autoId pendingOrderId pendingOrder w Hnf)
    as (orderId & w' & E & Ht & timestamp & kid & kt & bid & bt & bills
        & _ & _ & Hkitchen & Hbar & _).
  exists orderId, w'.
  destruct department; [exists kid, kt | exists bid, bt];
    (split; [exact E |]); (split; [exact Ht |]); assumption.
Qed.

Lemma department_docs_app department userId s s' new :
  coll_get (departmentOrdersC department) s'
  = (coll_get (departmentOrdersC department) s ++ new)%list ->
  Permutation (department_docs department userId s')
    (where_ (fun d => String.eqb (do_userId d) userId) new
       ++ department_docs department userId s).
Proof.
  unfold department_docs, orderBy_desc. intros ->.
  rewrite where_app, !stable_sort_perm. apply Permutation_app_comm.
Qed.

Lemma department_docs_of_collection department userId s s' :
  coll_get (departmentOrdersC department) s' = coll_get (departmentOrdersC department) s ->
  department_docs department userId s' = department_docs department userId s.
Proof. unfold department_docs. now intros ->. Qed.

(** X20.  When no call is rejected, an approved order reaches the lists of
    its departments.  For a department that gets items of the order, the
    list that [getKitchenOrders] or [getBarOrders] answers afterwards is the
    list before with one more record: it refers to the id that
    [approvePendingOrder] returned, holds the items of the department, and
    is pending.  For a department that gets no item the list is as before. *)
Theorem approved_order_reaches_its_departments :
  forall (pendingOrderId : DocId) (pendingOrder : PendingOrder) (w : World)
         (department : Department),
    no_fault_from (tick w) ->
    let userId := po_userId pendingOrder in
    let menu := map menu_item_of_doc (menu_docs userId (store w)) in
    exists orderId w' before after,
      approvePendingOrder fault clock autoId pendingOrderId pendingOrder w = (Ok orderId, w')
      /\ fst (listDepartmentOrders userId department w) = Ok before
      /\ fst (listDepartmentOrders userId department w') = Ok after
      /\ match department_items menu department (po_items pendingOrder) with
         | [] => after = before
         | items =>
             exists record,
               Permutation after (record :: before)
               /\ do_orderId (dept_order_data record) = orderId
               /\ do_userId (dept_order_data record) = userId
               /\ do_items (dept_order_data record) = items
               /\ do_status (dept_order_data record) = "pending"
               /\ do_department (dept_order_data record) = department
               /\ dept_order_timestamp record = do_createdAt (dept_order_data record)
         end.
Proof.
  intros pendingOrderId pendingOrder w department Hnf userId menu.
  destruct (approvePendingOrder_department pendingOrderId pendingOrder w department Hnf)
    as (orderId & w' & id & createdAt & E & Ht & Hcoll).
  fold userId menu in Hcoll.
  exists orderId, w'. eexists _, _. split; [exact E |].
  rewrite (listDepartmentOrders_ok fault userId department w) by (apply Hnf; lia).
  rewrite (listDepartmentOrders_ok fault userId department w') by (apply Hnf; lia).
  cbn [fst]. split; [reflexivity |]. split; [reflexivity |].
  destruct (department_items menu department (po_items pendingOrder)) as [|item items].
  - f_equal. apply department_docs_of_collection.
    rewrite Hcoll. simpl. apply app_nil_r.
  - exists (department_order_of_doc
              (id, department_record orderId userId (item :: items) department createdAt)).
    split; [| repeat split].
    change (department_order_of_doc
              (id, department_record orderId userId (item :: items) department createdAt)
            :: map department_order_of_doc (department_docs department userId (store w)))
      with (map department_order_of_doc
              ((id, department_record orderId userId (item :: items) department createdAt)
               :: department_docs department userId (store w))).
    apply Permutation_map.
    rewrite (department_docs_app _ _ _ _ _ Hcoll). unfold where_. simpl.
    now rewrite String.eqb_refl.
Qed.

(** X21.  When no call is rejected and a department got items of an approved
    order, [markOrderAsComplete] with the id that [approvePendingOrder]
    returned completes a record of that order in the department.  With the
    id of the pending order, the id under which [getOrders] lists the order,
    it completes nothing, unless the two ids are the same or a record of the
    department already carried that id. *)
Theorem approved_order_is_completed_by_returned_id :
  forall (pendingOrderId : DocId) (pendingOrder : PendingOrder) (w : World)
         (department : Department),
    no_fault_from (tick w) ->
    let userId := po_userId pendingOrder in
    let menu := map menu_item_of_doc (menu_docs userId (store w)) in
    department_items menu department (po_items pendingOrder) <> [] ->
    exists orderId w' w'' id data,
      approvePendingOrder fault clock autoId pendingOrderId pendingOrder w = (Ok orderId, w')
      /\ markOrderAsComplete fault clock orderId department w' = (Ok tt, w'')
      /\ In (id, data) (coll_get (departmentOrdersC department) (store w''))
      /\ do_orderId data = orderId
      /\ do_status data = "completed"
      /\ (po_id pendingOrder <> orderId ->
          (forall d, In d (coll_get (departmentOrdersC department) (store w)) ->
                     do_orderId (snd d) <> po_id pendingOrder) ->
          store (snd (markOrderAsComplete fault clock (po_id pendingOrder) department w'))
          = store w').
Proof.
  intros pendingOrderId pendingOrder w department Hnf userId menu Hitems.
  destruct (approvePendingOrder_department pendingOrderId pendingOrder w department Hnf)
    as (orderId & w' & id & createdAt & E & Ht & Hcoll).
  fold userId menu in Hcoll.
  destruct (department_items menu department (po_items pendingOrder))
    as [|item items] eqn:Hown; [now elim Hitems |].
  cbn [new_department_docs] in Hcoll.
  set (record := department_record orderId userId (item :: items) department createdAt)
    in Hcoll.
  destruct (ensures_returns fault _ w' _ _
              (markOrderAsComplete_outcome fault clock orderId department w'))
    as ([] & w'' & E2 & _ & Hstore).
  { now intros e w0 [_ Hr]. }
  { intros k Hk. apply Hnf. lia. }
  assert (Hfound : In (id, record)
                     (where_ (fun d => String.eqb (do_orderId d) orderId)
                        (coll_get (departmentOrdersC department) (store w')))).
  { apply In_where. split.
    - rewrite Hcoll. apply in_or_app. right. now left.
    - apply String.eqb_refl. }
  destruct (limit 1 (by_id (where_ (fun d => String.eqb (do_orderId d) orderId)
                              (coll_get (departmentOrdersC department) (store w')))))
    as [|[id0 data0] rest] eqn:Hq.
  { unfold limit in Hq.
    destruct (by_id _) as [|d l] eqn:Hb; [| discriminate].
    apply by_id_nil in Hb. rewrite Hb in Hfound. contradiction. }
  destruct Hstore as (completedAt & Hstore).
  assert (Hin0 : In (id0, data0) (limit 1 (by_id (where_
                   (fun d => String.eqb (do_orderId d) orderId)
                   (coll_get (departmentOrdersC department) (store w'))))))
    by (rewrite Hq; now left).
  apply limit_by_id_where_In in Hin0. destruct Hin0 as [Hin0 Hid0].
  simpl in Hid0. apply String.eqb_eq in Hid0.
  exists orderId, w', w'', id0, (completed completedAt data0).
  split; [exact E |]. split; [exact E2 |].
  split.
  { rewrite Hstore, departmentOrders_get_set. unfold update_docs.
    apply in_map_iff. exists (id0, data0). split; [| exact Hin0].
    simpl. now rewrite String.eqb_refl. }
  split; [exact Hid0 |]. split; [reflexivity |].
  intros Hneq Hnone.
  pose proof (markOrderAsComplete_outcome fault clock (po_id pendingOrder) department w')
    as H.
  unfold ensures in H.
  assert (Hempty : where_ (fun d => String.eqb (do_orderId d) (po_id pendingOrder))
                     (coll_get (departmentOrdersC department) (store w')) = []).
  { rewrite Hcoll, where_app. unfold where_. simpl.
    replace (String.eqb orderId (po_id pendingOrder)) with false
      by (symmetry; apply String.eqb_neq; congruence).
    rewrite app_nil_r. apply filter_nil_iff.
    intros d Hd. apply String.eqb_neq. now apply Hnone. }
  rewrite Hempty in H.
  destruct (markOrderAsComplete fault clock (po_id pendingOrder) department w')
    as [[[]|e] w3]; cbn [snd].
  - exact (proj2 H).
  - exact (proj1 H).
Qed.

End ApprovalFlow.

(** ** Bills that billing leaves alone *)

Section BillFrame.

Import Firebase.

(** An update of one document is not seen among the documents that a filter
    keeps, when the filter drops the document before and after. *)
Lemma update_docs_frame {D : Type} (keep : D -> bool) id (f : D -> D)
    (docs : list (Doc D)) (old : D) :
  NoDup (map fst docs) ->
  In (id, old) docs ->
  keep old = false ->
  (forall d, keep (f d) = keep d) ->
  filter (fun d => keep (snd d)) (update_docs id f docs)
  = filter (fun d => keep (snd d)) docs.
Proof.
  intros Hnd Hin Hold Hf.
  assert (Hall : forall d, In d docs -> String.eqb (fst d) id = true -> d = (id, old)).
  { intros [i x] Hd Hi. simpl in Hi. apply String.eqb_eq in Hi. subst i.
    f_equal. now apply (unique_doc docs id). }
  clear Hnd Hin. unfold update_docs.
  induction docs as [|[i x] docs IH]; simpl; [reflexivity |].
  rewrite IH by (intros; apply Hall; simpl; auto).
  destruct (String.eqb i id) eqn:Ei; simpl; [| reflexivity].
  rewrite Hf.
  injection (Hall (i, x) (or_introl eq_refl) Ei) as -> ->.
  now rewrite Hold.
Qed.

Lemma billed_frame userId tableNumber items bills bills' :
  billed userId tableNumber items bills bills' ->
  NoDup (map fst bills) ->
  filter (fun d => negb (active_bill_of userId tableNumber (snd d))) bills'
  = filter (fun d => negb (active_bill_of userId tableNumber (snd d))) bills.
Proof.
  unfold billed. intros Hbilled Hnd.
  destruct (limit 1 (by_id (where_ (active_bill_of userId tableNumber) bills)))
    as [|[id old] rest] eqn:Hq.
  - destruct Hbilled as (id & createdAt & updatedAt & ->).
    rewrite filter_app. simpl. unfold active_bill_of at 2. simpl.
    rewrite !String.eqb_refl. simpl. apply app_nil_r.
  - destruct Hbilled as (updatedAt & ->).
    assert (Hin : In (id, old)
                    (limit 1 (by_id (where_ (active_bill_of userId tableNumber) bills))))
      by (rewrite Hq; now left).
    apply limit_by_id_where_In in Hin. destruct Hin as [Hin Hactive].
    simpl in Hactive.
    apply (update_docs_frame (fun d => negb (active_bill_of userId tableNumber d))
             id _ _ old); auto.
    now rewrite Hactive.
Qed.

Variable fault : nat -> bool.
Variable clock : nat -> Timestamp.
Variable autoId : nat -> DocId.

(** X22.  Billing touches the active bill of its table and nothing else.
    When the document ids of the bills are unique, the bills that are not
    active bills of the owner and table in question (closed bills, bills of
    other tables, bills of other owners) are after [addToTableBill] and after
    [approvePendingOrder] what they were before, whether the call returns or
    throws; [addToTableBill] changes no other collection either. *)
Theorem billing_leaves_other_bills :
  forall (w : World),
    NoDup (map fst (tableBills (store w))) ->
    (forall userId tableNumber items,
       let s' := store (snd (addToTableBill fault clock autoId userId tableNumber items w)) in
       filter (fun d => negb (active_bill_of userId tableNumber (snd d))) (tableBills s')
       = filter (fun d => negb (active_bill_of userId tableNumber (snd d)))
           (tableBills (store w))
       /\ menuItems s' = menuItems (store w)
       /\ orders s' = orders (store w)
       /\ kitchenOrders s' = kitchenOrders (store w)
       /\ barOrders s' = barOrders (store w)
       /\ pendingOrders s' = pendingOrders (store w))
    /\ (forall pendingOrderId pendingOrder,
          let s' := store (snd (approvePendingOrder fault clock autoId pendingOrderId
                                  pendingOrder w)) in
          filter (fun d => negb (active_bill_of (po_userId pendingOrder)
                                   (po_tableNumber pendingOrder) (snd d)))
            (tableBills s')
          = filter (fun d => negb (active_bill_of (po_userId pendingOrder)
                                     (po_tableNumber pendingOrder) (snd d)))
              (tableBills (store w))).
Proof.
  intros w Hnd. split.
  - intros userId tableNumber items s'. subst s'.
    pose proof (addToTableBill_outcome fault clock autoId userId tableNumber items w) as H.
    unfold ensures in H.
    destruct (addToTableBill fault clock autoId userId tableNumber items w) as [[[]|e] w'];
      cbn [snd].
    + destruct H as (_ & bills & -> & Hbilled).
      cbn [coll_set tableBillsC tableBills menuItems orders kitchenOrders barOrders
             pendingOrders].
      split; [now apply (billed_frame _ _ items) | repeat split].
    + destruct H as [-> _]. repeat split.
  - intros pendingOrderId pendingOrder s'. subst s'.
    pose proof (approvePendingOrder_outcome fault clock autoId pendingOrderId
                  pendingOrder w) as H.
    cbv zeta in H. unfold ensures in H.
    assert (Hbills : tableBills
                       (store (snd (approvePendingOrder fault clock autoId pendingOrderId
                                      pendingOrder w)))
                     = tableBills (store w)
                     \/ billed (po_userId pendingOrder) (po_tableNumber pendingOrder)
                          (po_items pendingOrder) (tableBills (store w))
                          (tableBills
                             (store (snd (approvePendingOrder fault clock autoId
                                            pendingOrderId pendingOrder w))))).
    { destruct (approvePendingOrder fault clock autoId pendingOrderId pendingOrder w)
        as [[orderId|e] w']; cbn [snd].
      - destruct H as (_ & timestamp & kid & kt & bid & bt & bills & _ & Hprogress & _).
        apply Hprogress.
      - destruct H as (_ & _ & Hprogress). apply Hprogress. }
    destruct Hbills as [-> | Hbilled]; [reflexivity |].
    now apply (billed_frame _ _ (po_items pendingOrder)).
Qed.

End BillFrame.

(** * The statements at concrete inputs *)

Lemma no_faults_never n : no_fault_from no_faults n.
Proof. intros k _. reflexivity. Qed.

Lemma approvePendingOrder_department_records_witness :
  no_fault_from no_faults 0
  /\ exists orderId w',
       approvePendingOrder no_faults ticking_clock numbered_ids "p1" pending_order_p1
         world_with_pending_order = (Ok orderId, w')
       /\ map (fun d => (do_orderId (snd d), map item_id (do_items (snd d))))
            (kitchenOrders (store w')) = [(orderId, ["m1"; "zz"])]
       /\ map (fun d => (do_orderId (snd d), map item_id (do_items (snd d))))
            (barOrders (store w')) = [(orderId, ["m2"])]
       /\ has_doc "p1" (pendingOrders (store w')) = false.
Proof.
  split; [apply no_faults_never |].
  destruct (approvePendingOrder_department_records no_faults ticking_clock numbered_ids
              "p1" pending_order_p1 world_with_pending_order (no_faults_never 0))
    as (orderId & w' & E & _ & (kid & kt & Hk) & (bid & bt & Hb) & Hp).
  exists orderId, w'. split; [exact E |].
  rewrite Hk, Hb.
  split; [reflexivity |]. split; [reflexivity | exact Hp].
Defined.

(** A bill that the service created for an item of 1 has subtotal 1, tax
    0.15 and total 1.15: its total is its subtotal plus its tax.  After the
    service has merged an item of 1.2 into it, its subtotal is 2.2, its tax
    0.32999999999999996 and its total 2.5299999999999998, whereas its
    subtotal plus its tax is 2.5300000000000002. *)
Lemma addToTableBill_total_counterexample :
  exists created merged,
    fst (getTableBill no_faults "u" "7" world_with_new_bill)
    = Ok (Some {| bill_id := "doc3"; bill_data := created |})
    /\ tb_subtotal created = 1%float
    /\ tb_tax created = 0.15%float
    /\ tb_total created = 1.15%float
    /\ tb_total created = (tb_subtotal created + tb_tax created)%float
    /\ fst (getTableBill no_faults "u" "7" world_with_merged_bill)
       = Ok (Some {| bill_id := "doc3"; bill_data := merged |})
    /\ tb_subtotal merged = 2.2%float
    /\ tb_tax merged = 0.32999999999999996%float
    /\ tb_total merged = 2.5299999999999998%float
    /\ (tb_subtotal merged + tb_tax merged)%float = 2.5300000000000002%float
    /\ (tb_total merged =? tb_subtotal merged + tb_tax merged)%float = false.
Proof.
  eexists _, _. split; [vm_compute; reflexivity |].
  do 4 (split; [reflexivity |]).
  split; [vm_compute; reflexivity |].
  repeat split.
Qed.

Lemma addToTableBill_accumulates_witness :
  no_fault_from no_faults (tick world_with_new_bill)
  /\ exists updated,
       fst (getTableBill no_faults "u" "7" world_with_merged_bill)
       = Ok (Some {| bill_id := "doc3"; bill_data := updated |})
       /\ tb_subtotal updated = (1 + 1.2)%float
       /\ tb_tax updated = (0.15 + 1.2 * 0.15)%float
       /\ tb_total updated = (1.15 + (1.2 + 1.2 * 0.15))%float.
Proof.
  split; [apply no_faults_never |].
  destruct (addToTableBill_accumulates no_faults ticking_clock numbered_ids "u" "7"
              [plain_item "m2" 1.2] world_with_new_bill (no_faults_never _))
    as [_ H].
  vm_compute in H.
  destruct H as (updated & Hread & _ & Hsubtotal & Htax & Htotal).
  exists updated. split; [exact Hread |].
  split; [exact Hsubtotal |]. split; [exact Htax | exact Htotal].
Defined.

(** The tax of a new bill for lines of 20 and 0.5 is the double nearest to
    the product of the doubles 20.5 and 0.15. *)
Example addToTableBill_tax_is_rounded :
  exists id created,
    fst (getTableBill no_faults "u" "7"
           (snd (addToTableBill no_faults ticking_clock numbered_ids "u" "7"
                   [plain_item "m1" 20; plain_item "m2" 0.5] (world_of empty_store))))
    = Ok (Some {| bill_id := id; bill_data := created |})
    /\ tb_subtotal created = 20.5%float
    /\ tb_tax created = 3.0749999999999997%float
    /\ tb_total created = 23.574999999999999%float.
Proof. eexists _, _. split; [vm_compute; reflexivity |]. repeat split. Qed.

Lemma menu_item_department_spread_overrides_default_witness :
  no_faults 0 = false
  /\ no_faults 1 = false
  /\ (exists item,
        fst (getMenuItems no_faults "u" world_with_null_department) = Ok [item]
        /\ mi_department item = Some department_null)
  /\ fst (addMenuItem no_faults ticking_clock numbered_ids tea_with_undefined_department
            (world_of empty_store))
     = Throw InvalidArgument
  /\ store (snd (addMenuItem no_faults ticking_clock numbered_ids
                   tea_with_undefined_department (world_of empty_store)))
     = empty_store.
Proof.
  split; [reflexivity |]. split; [reflexivity |].
  split.
  - destruct (menu_item_department_spread_overrides_default no_faults ticking_clock
                numbered_ids "u" tea world_with_null_department) as [Hread _].
    destruct (Hread eq_refl) as (docs & E & Hperm & Hdept).
    apply Permutation_sym, Permutation_length_1_inv in Hperm. subst docs.
    eexists. split; [exact E |].
    apply (Hdept _ (or_introl eq_refl)).
  - destruct (menu_item_department_spread_overrides_default no_faults ticking_clock
                numbered_ids "u" tea_with_undefined_department (world_of empty_store))
      as [_ Hwrite].
    exact (Hwrite eq_refl).
Defined.

Lemma listDepartmentOrders_timestamp_counterexample :
  exists record,
    fst (listDepartmentOrders no_faults "u" kitchen world_after_completion) = Ok [record]
    /\ do_completedAt (dept_order_data record) = Some 14%Z
    /\ unified_timestamp (dept_order_data record) = 14%Z
    /\ dept_order_timestamp record = 4%Z.
Proof.
  eexists. split; [vm_compute; reflexivity |].
  repeat split.
Qed.

Lemma listDepartmentOrders_newest_first_createdAt_witness :
  no_faults (tick world_after_completion) = false
  /\ exists docs,
       fst (listDepartmentOrders no_faults "u" kitchen world_after_completion)
       = Ok (map department_order_of_doc docs)
       /\ StronglySorted newer_or_same (map department_order_of_doc docs)
       /\ (forall record, In record (map department_order_of_doc docs) ->
             dept_order_timestamp record = do_createdAt (dept_order_data record)).
Proof.
  split; [reflexivity |].
  destruct (listDepartmentOrders_newest_first_createdAt no_faults "u" kitchen
              world_after_completion eq_refl) as (docs & E & _ & Hsorted & Hstamp).
  exists docs. auto.
Defined.

Lemma getMenuStats_fails_safe_to_empty_witness :
  exists stats w',
    getMenuStats no_faults year_of_months month_of_months "u" world_with_pending_order
    = (Ok stats, w')
    /\ totalOrders stats = 0
    /\ totalRevenue stats = 0%float
    /\ totalViews stats = 4%Z
    /\ popularItems stats = []
    /\ recentOrders stats = []
    /\ monthlyRevenue stats = [].
Proof.
  destruct (getMenuStats_fails_safe_to_empty no_faults ticking_clock numbered_ids
              (fun path => path) year_of_months month_of_months "u"
              world_with_pending_order) as [(stats & w' & E & _ & Hzero) _].
  exists stats, w'. split; [exact E |].
  assert (Hquiet : rejections w' = rejections world_with_pending_order).
  { rewrite getMenuStats_ok in E by reflexivity. now injection E as _ <-. }
  rewrite (Hzero Hquiet); [repeat split |].
  intros doc [].
Defined.

Lemma calculateMonthlyRevenue_eight_months_one_entry_witness :
  List.length (months_of year_of_months month_of_months eight_months_of_orders) = 8
  /\ calculateMonthlyRevenue year_of_months month_of_months eight_months_of_orders
     = [ {| month := "NaN-NaN"; revenue := 1023 |} ].
Proof.
  split; [reflexivity |].
  apply (calculateMonthlyRevenue_eight_months_one_entry year_of_months month_of_months
           eight_months_of_orders eq_refl).
Defined.

Lemma monthlyRevenue_one_entry_with_the_total_witness :
  (forall k, num_or_zero (revenue_so_far eight_months_of_orders k)
             = revenue_so_far eight_months_of_orders k)
  /\ monthlyRevenue (menu_stats year_of_months month_of_months eight_months_of_orders [])
     = [ {| month := "NaN-NaN"; revenue := 1023 |} ]
  /\ totalRevenue (menu_stats year_of_months month_of_months eight_months_of_orders [])
     = 1023%float.
Proof.
  assert (H : forall k, num_or_zero (revenue_so_far eight_months_of_orders k)
                        = revenue_so_far eight_months_of_orders k).
  { intros k. do 11 (destruct k as [|k]; [reflexivity |]). reflexivity. }
  split; [exact H |].
  destruct (monthlyRevenue_one_entry_with_the_total year_of_months month_of_months
              eight_months_of_orders []) as [Hmonthly Htotal].
  split; [exact Hmonthly |].
  rewrite <- (Htotal H). reflexivity.
Defined.

(** Eight orders that the service stored in eight months, read back by
    [getMenuStats]: the months of the orders, newest first, and the monthly
    revenue that is made of them. *)
Example getMenuStats_eight_stored_months :
  exists stats w',
    getMenuStats no_faults year_of_months month_of_months "u" world_with_eight_orders
    = (Ok stats, w')
    /\ map (fun order =>
              calendar_month year_of_months month_of_months (order_timestamp order))
         (recentOrders stats)
       = [ "2025-03"; "2025-01"; "2024-11"; "2024-09";
           "2024-07"; "2024-05"; "2024-03"; "2024-01" ]
    /\ monthlyRevenue stats = [ {| month := "NaN-NaN"; revenue := 255 |} ].
Proof. eexists _, _. split; [vm_compute; reflexivity |]. split; reflexivity. Qed.

(** ** The further properties at concrete inputs *)

Lemma one_active_bill_per_table_is_kept_witness :
  one_bill_per_table (store world_with_bill)
  /\ one_bill_per_table
       (store (snd (addToTableBill no_faults ticking_clock numbered_ids "u" "7"
                      [plain_item "m1" 20] world_with_bill)))
  /\ one_bill_per_table
       (store (snd (addToTableBill no_faults ticking_clock numbered_ids "u" "8"
                      [plain_item "m1" 20] world_with_bill))).
Proof.
  assert (H : one_bill_per_table (store world_with_bill)).
  { intros userId tableNumber. unfold where_, world_with_bill, world_of.
    cbn [store tableBills filter snd].
    destruct (active_bill_of userId tableNumber bill_b1); simpl; lia. }
  split; [exact H |].
  split;
    apply (proj1 (one_active_bill_per_table_is_kept no_faults ticking_clock numbered_ids
                    world_with_bill H)).
Defined.

Lemma fourth_rejected_only n : no_fault_from fourth_rejected (4 + n).
Proof. intros k Hk. unfold fourth_rejected. apply Nat.eqb_neq. lia. Qed.

Lemma approvePendingOrder_retry_stores_order_twice_witness :
  fourth_rejected 2 = false
  /\ fourth_rejected 3 = true
  /\ no_fault_from fourth_rejected 4
  /\ fst (approvePendingOrder fourth_rejected ticking_clock numbered_ids "p1"
            pending_order_p1 world_with_pending_order)
     = Throw (Rejected 3)
  /\ exists orderId timestamp,
       orders (store (snd (approvePendingOrder fourth_rejected ticking_clock numbered_ids
                             "p1" pending_order_p1
                             (snd (approvePendingOrder fourth_rejected ticking_clock
                                     numbered_ids "p1" pending_order_p1
                                     world_with_pending_order)))))
       = [ ("doc2", approved_order pending_order_p1 1%Z);
           (orderId, approved_order pending_order_p1 timestamp) ].
Proof.
  split; [reflexivity |]. split; [reflexivity |].
  split; [apply (fourth_rejected_only 0) |].
  destruct (approvePendingOrder_retry_stores_order_twice fourth_rejected ticking_clock
              numbered_ids "p1" pending_order_p1 world_with_pending_order
              eq_refl eq_refl (fourth_rejected_only 0))
    as (Hfirst & _ & orderId & timestamp & _ & Horders & _).
  split; [exact Hfirst |].
  exists orderId, timestamp. exact Horders.
Defined.

(** An approval whose write of the bar record is rejected: the order and the
    kitchen record that were written before stay in the store, the bill is
    not written and the pending order is not deleted. *)
Example approvePendingOrder_interrupted_at_the_bar :
  let run := approvePendingOrder eighth_rejected ticking_clock numbered_ids "p1"
               pending_order_p1 world_with_pending_order in
  map call_at
    (approval_calls ticking_clock numbered_ids "p1" pending_order_p1
       (store world_with_pending_order) 0)
  = [2; 3; 5; 7; 8; 11; 12]
  /\ fst run = Throw (Rejected 7)
  /\ map fst (orders (store (snd run))) = ["doc2"]
  /\ map fst (kitchenOrders (store (snd run))) = ["doc5"]
  /\ barOrders (store (snd run)) = []
  /\ tableBills (store (snd run)) = []
  /\ pendingOrders (store (snd run)) = [("p1", pending_order_p1)].
Proof. vm_compute. repeat split. Qed.

(** An approval for the owner [u] that is given the id of the pending order
    of [v]: the order and the bill of [v] stay, the pending order of [v] goes. *)
Lemma approvePendingOrder_leaves_other_owners_witness :
  NoDup (map fst (tableBills (store world_of_two_owners)))
  /\ "v" <> po_userId pending_order_p1
  /\ filter (fun d => String.eqb (od_userId (snd d)) "v")
       (orders (store (snd (approvePendingOrder no_faults ticking_clock numbered_ids
                              "p2" pending_order_p1 world_of_two_owners))))
     = filter (fun d => String.eqb (od_userId (snd d)) "v")
         (orders (store world_of_two_owners))
  /\ filter (fun d => String.eqb (tb_userId (snd d)) "v")
       (tableBills (store (snd (approvePendingOrder no_faults ticking_clock numbered_ids
                                  "p2" pending_order_p1 world_of_two_owners))))
     = filter (fun d => String.eqb (tb_userId (snd d)) "v")
         (tableBills (store world_of_two_owners))
  /\ pendingOrders (store world_of_two_owners)
     = [("p1", pending_order_p1); ("p2", pending_order_p2)]
  /\ pendingOrders (store (snd (approvePendingOrder no_faults ticking_clock numbered_ids
                                  "p2" pending_order_p1 world_of_two_owners)))
     = [("p1", pending_order_p1)].
Proof.
  assert (Hids : NoDup (map fst (tableBills (store world_of_two_owners)))).
  { simpl. repeat constructor; simpl; intuition discriminate. }
  assert (Hother : "v" <> po_userId pending_order_p1) by discriminate.
  split; [exact Hids |]. split; [exact Hother |].
  destruct (approvePendingOrder_leaves_other_owners no_faults ticking_clock numbered_ids
              "p2" pending_order_p1 world_of_two_owners "v" Hids Hother)
    as (_ & Horders & _ & Hbills & Hpending).
  split; [exact Horders |]. split; [exact Hbills |]. split; [reflexivity |].
  assert (Hrun : fst (approvePendingOrder no_faults ticking_clock numbered_ids
                        "p2" pending_order_p1 world_of_two_owners) = Ok "doc2")
    by (vm_compute; reflexivity).
  rewrite Hrun in Hpending. destruct Hpending as [Hpending _].
  rewrite Hpending. reflexivity.
Defined.

Lemma approvePendingOrder_bills_the_items_witness :
  no_fault_from no_faults 0
  /\ exists orderId w' bill,
       approvePendingOrder no_faults ticking_clock numbered_ids "p1" pending_order_p1
         world_of_two_owners = (Ok orderId, w')
       /\ fst (getTableBill no_faults "u" "7" w') = Ok (Some bill)
       /\ bill_id bill = "b1"
       /\ tb_items (bill_data bill) = po_items pending_order_p1
       /\ tb_subtotal (bill_data bill) = 110%float.
Proof.
  split; [apply no_faults_never |].
  destruct (approvePendingOrder_bills_the_items no_faults ticking_clock numbered_ids
              "p1" pending_order_p1 world_of_two_owners (no_faults_never 0))
    as (orderId & w' & bill & E & Hread & H).
  change (fst (getTableBill no_faults (po_userId pending_order_p1)
                 (po_tableNumber pending_order_p1) world_of_two_owners))
    with (@Ok (option TableBill) (Some {| bill_id := "b1"; bill_data := bill_b1 |}))
    in H.
  destruct H as (Hid & Hitems & Hsubtotal & _).
  exists orderId, w', bill.
  split; [exact E |]. split; [exact Hread |]. split; [exact Hid |].
  split; [exact Hitems |].
  rewrite Hsubtotal. reflexivity.
Defined.

Lemma approved_order_is_listed_under_pending_id_witness :
  no_fault_from no_faults 0
  /\ exists orderId w' listed order,
       approvePendingOrder no_faults ticking_clock numbered_ids "p1" pending_order_p1
         world_with_pending_order = (Ok orderId, w')
       /\ fst (getOrders no_faults "u" w') = Ok listed
       /\ In order listed
       /\ order_id order = "p1"
       /\ order_status order = "approved".
Proof.
  split; [apply no_faults_never |].
  destruct (approved_order_is_listed_under_pending_id no_faults ticking_clock numbered_ids
              "p1" pending_order_p1 world_with_pending_order (no_faults_never 0))
    as (orderId & w' & data & listed & E & _ & Hread & Hin & Hid & Hstatus & _).
  exists orderId, w', listed, (order_of_doc (orderId, data)).
  repeat split; assumption.
Defined.

Lemma completed_order_stays_listed_witness :
  no_fault_from no_faults (tick world_after_approval)
  /\ exists w' before after,
       markOrderAsComplete no_faults ticking_clock "doc2" kitchen world_after_approval
       = (Ok tt, w')
       /\ fst (listDepartmentOrders no_faults "u" kitchen world_after_approval) = Ok before
       /\ fst (listDepartmentOrders no_faults "u" kitchen w') = Ok after
       /\ map dept_order_id after = map dept_order_id before.
Proof.
  split; [apply no_faults_never |].
  destruct (completed_order_stays_listed no_faults ticking_clock "doc2" kitchen "u"
              world_after_approval (no_faults_never _))
    as (w' & before & after & E & Hbefore & Hafter & Hids & _).
  exists w', before, after. repeat split; assumption.
Defined.

Lemma getOrders_newest_first_witness :
  no_faults (tick world_after_approval) = false
  /\ exists docs,
       fst (getOrders no_faults "u" world_after_approval) = Ok (map order_of_doc docs)
       /\ StronglySorted placed_later_or_same (map order_of_doc docs)
       /\ (forall doc, In doc docs ->
             order_id (order_of_doc doc) = or_default (od_id (snd doc)) (fst doc)).
Proof.
  split; [reflexivity |].
  destruct (getOrders_newest_first no_faults "u" world_after_approval eq_refl)
    as (docs & E & _ & Hsorted & Hid).
  exists docs. auto.
Defined.

Lemma getMenuStats_counts_the_orders_of_the_owner_witness :
  no_faults (tick world_after_approval) = false
  /\ no_faults (S (tick world_after_approval)) = false
  /\ exists stats w',
       getMenuStats no_faults year_of_months month_of_months "u" world_after_approval
       = (Ok stats, w')
       /\ totalOrders stats = 1
       /\ totalRevenue stats = 10%float.
Proof.
  split; [reflexivity |]. split; [reflexivity |].
  destruct (getMenuStats_counts_the_orders_of_the_owner year_of_months month_of_months
              no_faults "u" world_after_approval eq_refl eq_refl)
    as (stats & w' & older & E & _ & Hcount & Hrevenue & _).
  exists stats, w'. split; [exact E |].
  split; [exact Hcount |].
  vm_compute in E. injection E as <- _. reflexivity.
Defined.

Lemma approved_order_reaches_its_departments_witness :
  no_fault_from no_faults 0
  /\ exists orderId w' after record,
       approvePendingOrder no_faults ticking_clock numbered_ids "p1" pending_order_p1
         world_with_pending_order = (Ok orderId, w')
       /\ fst (listDepartmentOrders no_faults "u" kitchen w') = Ok after
       /\ Permutation after [record]
       /\ do_orderId (dept_order_data record) = orderId
       /\ do_items (dept_order_data record) = [plain_item "m1" 5; plain_item "zz" 2]
       /\ do_status (dept_order_data record) = "pending".
Proof.
  split; [apply no_faults_never |].
  destruct (approved_order_reaches_its_departments no_faults ticking_clock numbered_ids
              "p1" pending_order_p1 world_with_pending_order kitchen (no_faults_never 0))
    as (orderId & w' & before & after & E & Hbefore & Hafter & H).
  change (department_items
            (map menu_item_of_doc
               (menu_docs (po_userId pending_order_p1) (store world_with_pending_order)))
            kitchen (po_items pending_order_p1))
    with [plain_item "m1" 5; plain_item "zz" 2] in H.
  destruct H as (record & Hperm & Hid & _ & Hitems & Hstatus & _).
  vm_compute in Hbefore. injection Hbefore as <-.
  exists orderId, w', after, record.
  repeat split; assumption.
Defined.

Lemma approved_order_is_completed_by_returned_id_witness :
  no_fault_from no_faults 0
  /\ department_items
       (map menu_item_of_doc (menu_docs "u" (store world_with_pending_order)))
       kitchen (po_items pending_order_p1) <> []
  /\ exists orderId w' w'' id data,
       approvePendingOrder no_faults ticking_clock numbered_ids "p1" pending_order_p1
         world_with_pending_order = (Ok orderId, w')
       /\ markOrderAsComplete no_faults ticking_clock orderId kitchen w' = (Ok tt, w'')
       /\ In (id, data) (kitchenOrders (store w''))
       /\ do_orderId data = orderId
       /\ do_status data = "completed".
Proof.
  assert (Hitems : department_items
                     (map menu_item_of_doc
                        (menu_docs "u" (store world_with_pending_order)))
                     kitchen (po_items pending_order_p1) <> [])
    by (vm_compute; discriminate).
  split; [apply no_faults_never |]. split; [exact Hitems |].
  destruct (approved_order_is_completed_by_returned_id no_faults ticking_clock
              numbered_ids "p1" pending_order_p1 world_with_pending_order kitchen
              (no_faults_never 0) Hitems)
    as (orderId & w' & w'' & id & data & E & E2 & Hin & Hid & Hstatus & _).
  exists orderId, w', w'', id, data. repeat split; assumption.
Defined.

Lemma billing_leaves_other_bills_witness :
  NoDup (map fst (tableBills (store world_of_two_owners)))
  /\ filter (fun d => negb (active_bill_of "u" "7" (snd d)))
       (tableBills
          (store (snd (addToTableBill no_faults ticking_clock numbered_ids "u" "7"
                         [plain_item "m1" 20] world_of_two_owners))))
     = filter (fun d => negb (active_bill_of "u" "7" (snd d)))
         (tableBills (store world_of_two_owners)).
Proof.
  assert (Hids : NoDup (map fst (tableBills (store world_of_two_owners)))).
  { simpl. repeat constructor; simpl; intuition discriminate. }
  split; [exact Hids |].
  apply (proj1 (billing_leaves_other_bills no_faults ticking_clock numbered_ids
                  world_of_two_owners Hids)).
Defined.
